(** * offPELE: topology assembly and solvent wrappers

    A shallow embedding of [offPELE/topology/molecule.py] and
    [offPELE/solvent/solvent.py], with the properties of the topology
    builder that the specification states.

    Conventions of the embedding.
    - A Python value is a [pyval].  Floats are idealised as rationals and a
      [simtk] quantity is represented by its magnitude (its truth value is the
      truth value of its magnitude).
    - A Python [dict] is an association list in insertion order; the keys of a
      Python dict are pairwise distinct, which is the predicate [dict_wf].
    - A method of [Molecule] is a computation in the monad [py Molecule]: it
      takes the object, returns either a value or a raised exception, and the
      object as the method left it.  An exception does not roll anything back.
    - [print] calls write to the terminal only and are left out of the
      [Molecule] methods; the solvent wrappers keep them in an event log. *)

From Stdlib Require Import QArith.
From Stdlib Require Import Ascii String.
From stdpp Require Import base option list strings.

Open Scope Z_scope.
Open Scope nat_scope.
Open Scope stdpp_scope.

(** ** Python values *)

Inductive pyval : Type :=
  | PyNone
  | PyBool (b : bool)
  | PyInt (n : Z)
  | PyFloat (q : Q)
  | PyStr (s : string).

(** [bool(v)]: what [if v] and [v and ...] test. *)
Definition truthy (v : pyval) : bool :=
  match v with
  | PyNone => false
  | PyBool b => b
  | PyInt n => negb (n =? 0)%Z
  | PyFloat q => negb (Qnum q =? 0)%Z
  | PyStr s => negb (String.eqb s "")
  end.

(** [v is None] *)
Definition is_None (v : pyval) : bool :=
  match v with PyNone => true | _ => false end.

(** The numbers among the values, as rationals. *)
Definition numeric (v : pyval) : option Q :=
  match v with
  | PyInt n => Some (inject_Z n)
  | PyFloat q => Some q
  | PyBool b => Some (inject_Z (if b then 1 else 0))
  | _ => None
  end.

(** ** Exceptions and the method monad *)

Inductive exn : Type :=
  | AssertionError (msg : string)
  | Exception (msg : string)
  | KeyError
  | IndexError
  | TypeError
  | AttributeError.

Inductive outcome (A : Type) : Type :=
  | Ok (a : A)
  | Raise (e : exn).
Arguments Ok {A} a.
Arguments Raise {A} e.

Definition py (S A : Type) : Type := S → outcome A * S.

#[global] Instance py_ret {S} : MRet (py S) := λ A a s, (Ok a, s).
#[global] Instance py_bind {S} : MBind (py S) := λ A B f c s,
  match c s with
  | (Ok a, s') => f a s'
  | (Raise e, s') => (Raise e, s')
  end.

Definition raise {S A} (e : exn) : py S A := λ s, (Raise e, s).
Definition get_self {S} : py S S := λ s, (Ok s, s).
Definition modify {S} (f : S → S) : py S unit := λ s, (Ok tt, f s).

(** [assert cond, msg] *)
Definition py_assert {S} (cond : bool) (msg : string) : py S unit :=
  if cond then mret tt else raise (AssertionError msg).

(** [for x in xs: body(x)] *)
Fixpoint for_ {S A} (xs : list A) (body : A → py S unit) : py S unit :=
  match xs with
  | [] => mret tt
  | x :: xs' => body x ;; for_ xs' body
  end.

(** ** Dictionaries *)

Definition dict (K V : Type) : Type := list (K * V).

Section dict.
Context {K : Type} `{EqDecision K} {V : Type}.

Definition keys (d : dict K V) : list K := d.*1.
Definition values (d : dict K V) : list V := d.*2.

Fixpoint dict_lookup (k : K) (d : dict K V) : option V :=
  match d with
  | [] => None
  | (k', v) :: d' => if decide (k' = k) then Some v else dict_lookup k d'
  end.

(** [d[k]] *)
Definition getitem {S} (d : dict K V) (k : K) : py S V :=
  match dict_lookup k d with
  | Some v => mret v
  | None => raise KeyError
  end.

(** [k in d] *)
Definition contains (d : dict K V) (k : K) : bool :=
  bool_decide (k ∈ keys d).

Definition dict_wf (d : dict K V) : Prop := NoDup (keys d).
End dict.

(** [a.keys() == b.keys()]: key views compare as sets, that is, the sizes are
    equal and every key of [a] is a key of [b]. *)
Definition keys_eq {K} `{EqDecision K} {V W} (a : dict K V) (b : dict K W)
    : bool :=
  bool_decide (length a = length b) && forallb (contains b) (keys a).

(** ** Records of the topology *)

(** A torsion table is keyed by a 4-tuple of atom indexes, a per-atom table by
    a tuple of atom indexes that the builder asserts to be a 1-tuple. *)
Definition quad : Type := nat * nat * nat * nat.
Definition akey : Type := list nat.

(** [Atom]: one field per attribute of the class.  [parent] is a reference to
    another [Atom] object, represented by the position of that object in the
    list of atoms of its molecule. *)
Module Atom.
Record t : Type := mk {
  index : pyval;
  core : pyval;
  OPLS_type : pyval;
  PDB_name : pyval;
  unknown : pyval;
  x : pyval;
  y : pyval;
  z : pyval;
  sigma : pyval;
  epsilon : pyval;
  charge : pyval;
  born_radius : pyval;
  SASA_radius : pyval;
  nonpolar_gamma : pyval;
  nonpolar_alpha : pyval;
  parent : option nat
}.

(** [Atom.__init__] with its defaults. *)
Definition init : t :=
  mk (PyInt (-1)) PyNone PyNone PyNone PyNone PyNone PyNone PyNone PyNone
     PyNone PyNone PyNone PyNone PyNone PyNone None.

Definition set_index (idx : pyval) (a : t) : t :=
  mk idx (core a) (OPLS_type a) (PDB_name a) (unknown a) (x a) (y a) (z a)
     (sigma a) (epsilon a) (charge a) (born_radius a) (SASA_radius a)
     (nonpolar_gamma a) (nonpolar_alpha a) (parent a).

Definition set_as_core (a : t) : t :=
  mk (index a) (PyBool true) (OPLS_type a) (PDB_name a) (unknown a) (x a)
     (y a) (z a) (sigma a) (epsilon a) (charge a) (born_radius a)
     (SASA_radius a) (nonpolar_gamma a) (nonpolar_alpha a) (parent a).

Definition set_as_branch (a : t) : t :=
  mk (index a) (PyBool false) (OPLS_type a) (PDB_name a) (unknown a) (x a)
     (y a) (z a) (sigma a) (epsilon a) (charge a) (born_radius a)
     (SASA_radius a) (nonpolar_gamma a) (nonpolar_alpha a) (parent a).

Definition set_parent (p : option nat) (a : t) : t :=
  mk (index a) (core a) (OPLS_type a) (PDB_name a) (unknown a) (x a) (y a)
     (z a) (sigma a) (epsilon a) (charge a) (born_radius a) (SASA_radius a)
     (nonpolar_gamma a) (nonpolar_alpha a) p.

(** [set_coords]: [assert len(coords) == 3] and the three assignments. *)
Definition set_coords (coords : list pyval) (a : t) : outcome t :=
  match coords with
  | [cx; cy; cz] =>
      Ok (mk (index a) (core a) (OPLS_type a) (PDB_name a) (unknown a) cx cy
             cz (sigma a) (epsilon a) (charge a) (born_radius a)
             (SASA_radius a) (nonpolar_gamma a) (nonpolar_alpha a)
             (parent a))
  | _ => Raise (AssertionError "3D array is expected")
  end.
End Atom.

(** [OFFProper] and [OFFImproper] are built from the same eight keyword
    arguments. *)
Module OFFProper.
Record t : Type := mk {
  atom1_idx : nat; atom2_idx : nat; atom3_idx : nat; atom4_idx : nat;
  periodicity : pyval; phase : pyval; k : pyval; idivf : pyval
}.
End OFFProper.

Module OFFImproper.
Record t : Type := mk {
  atom1_idx : nat; atom2_idx : nat; atom3_idx : nat; atom4_idx : nat;
  periodicity : pyval; phase : pyval; k : pyval; idivf : pyval
}.
End OFFImproper.

Module Bond.
Record t : Type := mk {
  index : nat; atom1_idx : nat; atom2_idx : nat;
  spring_constant : pyval; eq_dist : pyval
}.
End Bond.

Module Angle.
Record t : Type := mk {
  index : nat; atom1_idx : nat; atom2_idx : nat; atom3_idx : nat;
  spring_constant : pyval; eq_angle : pyval
}.
End Angle.

(** The tables of the parameter provider ([self.parameters]), one field per
    getter the builder calls. *)
Record Parameters : Type := {
  get_vdW_parameters : dict akey pyval;
  get_vdW_sigmas : dict akey pyval;
  get_vdW_sigmas_from_rmin_halves : dict akey pyval;
  get_vdW_epsilons : dict akey pyval;
  get_dihedral_periodicities : list (dict quad pyval);
  get_dihedral_phases : list (dict quad pyval);
  get_dihedral_ks : list (dict quad pyval);
  get_dihedral_idivfs : list (dict quad pyval);
  get_improper_periodicities : list (dict quad pyval);
  get_improper_phases : list (dict quad pyval);
  get_improper_ks : list (dict quad pyval);
  get_improper_idivfs : list (dict quad pyval);
  get_GBSA_radii : dict akey pyval;
  get_GBSA_scales : dict akey pyval
}.

(** What the builder reads of the RDKit molecule: the PDB name of each atom
    ([GetAtoms], [GetPDBResidueInfo().GetName()]) and the conformer
    coordinates ([RDKitToolkitWrapper.get_coordinates]). *)
Record RDKitMolecule : Type := {
  rd_atom_names : list string;
  rd_coordinates : list (pyval * pyval * pyval)
}.

(** What the builder reads of the OpenForceField molecule. *)
Record OFFMolecule : Type := {
  off_name : string;
  partial_charges : list pyval
}.

(** The classes of [topology.py] and [rotamer.py] whose objects the molecule
    only stores, and the conversions [to_PELE] of the two torsion classes,
    which are taken to return normally. *)
Class Topology : Type := {
  PELEProper : Type;
  PELEImproper : Type;
  MolecularGraph : Type;
  RotamerLibrary : Type;
  proper_to_PELE : OFFProper.t → PELEProper;
  improper_to_PELE : OFFImproper.t → PELEImproper
}.

Record Molecule `{Topology} : Type := mkMolecule {
  _name : string;
  _forcefield : option string;
  _atoms : list Atom.t;
  _bonds : list Bond.t;
  _angles : list Angle.t;
  _propers : list PELEProper;
  _OFF_propers : list OFFProper.t;
  _impropers : list PELEImproper;
  _OFF_impropers : list OFFImproper.t;
  _rdkit_molecule : option RDKitMolecule;
  _off_molecule : option OFFMolecule;
  _rotamer_library : option RotamerLibrary;
  _graph : option MolecularGraph;
  parameters : option Parameters
}.
Arguments mkMolecule {_} _ _ _ _ _ _ _ _ _ _ _ _ _ _.


(** ** The Molecule class *)

Section molecule.
Context `{Topology}.

(** [Molecule._initialize] *)
Definition _initialize : Molecule :=
  mkMolecule "" None [] [] [] [] [] [] [] None None None None None.

(** Attribute assignments: each rewrites one field of the object. *)
Definition upd_atoms (f : list Atom.t → list Atom.t) (m : Molecule)
    : Molecule :=
  mkMolecule (_name m) (_forcefield m) (f (_atoms m)) (_bonds m) (_angles m)
    (_propers m) (_OFF_propers m) (_impropers m) (_OFF_impropers m)
    (_rdkit_molecule m) (_off_molecule m) (_rotamer_library m) (_graph m)
    (parameters m).

Definition upd_propers (f : list PELEProper → list PELEProper) (m : Molecule)
    : Molecule :=
  mkMolecule (_name m) (_forcefield m) (_atoms m) (_bonds m) (_angles m)
    (f (_propers m)) (_OFF_propers m) (_impropers m) (_OFF_impropers m)
    (_rdkit_molecule m) (_off_molecule m) (_rotamer_library m) (_graph m)
    (parameters m).

Definition upd_OFF_propers (f : list OFFProper.t → list OFFProper.t)
    (m : Molecule) : Molecule :=
  mkMolecule (_name m) (_forcefield m) (_atoms m) (_bonds m) (_angles m)
    (_propers m) (f (_OFF_propers m)) (_impropers m) (_OFF_impropers m)
    (_rdkit_molecule m) (_off_molecule m) (_rotamer_library m) (_graph m)
    (parameters m).

Definition upd_impropers (f : list PELEImproper → list PELEImproper)
    (m : Molecule) : Molecule :=
  mkMolecule (_name m) (_forcefield m) (_atoms m) (_bonds m) (_angles m)
    (_propers m) (_OFF_propers m) (f (_impropers m)) (_OFF_impropers m)
    (_rdkit_molecule m) (_off_molecule m) (_rotamer_library m) (_graph m)
    (parameters m).

Definition upd_OFF_impropers (f : list OFFImproper.t → list OFFImproper.t)
    (m : Molecule) : Molecule :=
  mkMolecule (_name m) (_forcefield m) (_atoms m) (_bonds m) (_angles m)
    (_propers m) (_OFF_propers m) (_impropers m) (f (_OFF_impropers m))
    (_rdkit_molecule m) (_off_molecule m) (_rotamer_library m) (_graph m)
    (parameters m).

Definition set_rotamer_library (r : option RotamerLibrary) (m : Molecule)
    : Molecule :=
  mkMolecule (_name m) (_forcefield m) (_atoms m) (_bonds m) (_angles m)
    (_propers m) (_OFF_propers m) (_impropers m) (_OFF_impropers m)
    (_rdkit_molecule m) (_off_molecule m) r (_graph m) (parameters m).

Definition set_graph (g : option MolecularGraph) (m : Molecule) : Molecule :=
  mkMolecule (_name m) (_forcefield m) (_atoms m) (_bonds m) (_angles m)
    (_propers m) (_OFF_propers m) (_impropers m) (_OFF_impropers m)
    (_rdkit_molecule m) (_off_molecule m) (_rotamer_library m) g
    (parameters m).

(** [self.parameters]: the attribute exists once [parameterize] has set it. *)
Definition self_parameters : py Molecule Parameters := λ m,
  match parameters m with
  | Some p => (Ok p, m)
  | None => (Raise AttributeError, m)
  end.

Definition _add_atom (atom : Atom.t) : py Molecule unit :=
  modify (upd_atoms (λ l, l ++ [atom])).

Definition _add_proper (proper : PELEProper) : py Molecule unit :=
  modify (upd_propers (λ l, l ++ [proper])).

Definition _add_OFF_proper (proper : OFFProper.t) : py Molecule unit :=
  modify (upd_OFF_propers (λ l, l ++ [proper])).

Definition _add_improper (improper : PELEImproper) : py Molecule unit :=
  modify (upd_impropers (λ l, l ++ [improper])).

Definition _add_OFF_improper (improper : OFFImproper.t) : py Molecule unit :=
  modify (upd_OFF_impropers (λ l, l ++ [improper])).

(** *** Torsions *)

(** [zip(a, b, c, d)] *)
Fixpoint zip4 {A B C D} (a : list A) (b : list B) (c : list C) (d : list D)
    : list (A * B * C * D) :=
  match a, b, c, d with
  | x :: a', y :: b', z :: c', w :: d' => (x, y, z, w) :: zip4 a' b' c' d'
  | _, _, _, _ => []
  end.

(** The block under "idivf is a optional parameter in OpenForceField": when
    [len(idivfs) == 0], one dict per periodicity dict is appended, with the
    same keys and the value 1. *)
Definition default_idivfs (periodicities idivfs : list (dict quad pyval))
    : list (dict quad pyval) :=
  if bool_decide (length idivfs = 0) then
    idivfs ++
      ((λ period_by_index : dict quad pyval,
          zip (keys period_by_index)
              (replicate (length (keys period_by_index)) (PyInt 1)))
         <$> periodicities)
  else idivfs.

Definition lengths_agree {A B C D} (a : list A) (b : list B) (c : list C)
    (d : list D) : bool :=
  bool_decide (length a = length b) && bool_decide (length a = length c)
  && bool_decide (length a = length d).

Definition keys_agree (period_by_index phase_by_index k_by_index
    idivf_by_index : dict quad pyval) : bool :=
  keys_eq period_by_index phase_by_index
  && keys_eq period_by_index k_by_index
  && keys_eq period_by_index idivf_by_index.

Definition proper_lengths_msg : string :=
  "Unconsistent set of OpenForceField's torsional parameters. They all should have equal lengths".
Definition improper_lengths_msg : string :=
  "Unconsistent set of OpenForceField's improper parameters. They all should have equal lengths".
Definition keys_msg : string :=
  "Unconsistent torsional parameter indexes. Keys should match.".

Definition _build_propers : py Molecule unit :=
  params ← self_parameters;
  let periodicities := get_dihedral_periodicities params in
  let phases := get_dihedral_phases params in
  let ks := get_dihedral_ks params in
  let idivfs := get_dihedral_idivfs params in
  let idivfs := default_idivfs periodicities idivfs in
  py_assert (lengths_agree periodicities phases ks idivfs)
            proper_lengths_msg;;
  for_ (zip4 periodicities phases ks idivfs)
    (λ '(period_by_index, phase_by_index, k_by_index, idivf_by_index),
      py_assert
        (keys_agree period_by_index phase_by_index k_by_index idivf_by_index)
        keys_msg;;
      for_ (keys period_by_index) (λ index,
        let '(atom1_idx, atom2_idx, atom3_idx, atom4_idx) := index in
        period ← getitem period_by_index index;
        phase ← getitem phase_by_index index;
        k ← getitem k_by_index index;
        idivf ← getitem idivf_by_index index;
        if truthy period && truthy phase && truthy k && truthy idivf then
          let off_proper :=
            OFFProper.mk atom1_idx atom2_idx atom3_idx atom4_idx
                         period phase k idivf in
          let PELE_proper := proper_to_PELE off_proper in
          _add_proper PELE_proper;;
          _add_OFF_proper off_proper
        else mret tt)).

Definition _build_impropers : py Molecule unit :=
  params ← self_parameters;
  let periodicities := get_improper_periodicities params in
  let phases := get_improper_phases params in
  let ks := get_improper_ks params in
  let idivfs := get_improper_idivfs params in
  let idivfs := default_idivfs periodicities idivfs in
  py_assert (lengths_agree periodicities phases ks idivfs)
            improper_lengths_msg;;
  for_ (zip4 periodicities phases ks idivfs)
    (λ '(period_by_index, phase_by_index, k_by_index, idivf_by_index),
      py_assert
        (keys_agree period_by_index phase_by_index k_by_index idivf_by_index)
        keys_msg;;
      for_ (keys period_by_index) (λ index,
        let '(atom1_idx, atom2_idx, atom3_idx, atom4_idx) := index in
        period ← getitem period_by_index index;
        phase ← getitem phase_by_index index;
        k ← getitem k_by_index index;
        idivf ← getitem idivf_by_index index;
        if truthy period && truthy phase && truthy k && truthy idivf then
          let off_improper :=
            OFFImproper.mk atom1_idx atom2_idx atom3_idx atom4_idx
                           period phase k idivf in
          let PELE_improper := improper_to_PELE off_improper in
          _add_improper PELE_improper;;
          _add_OFF_improper off_improper
        else mret tt)).

(** *** Guards *)

(** [try: c except <handled>: h] *)
Definition try_except {S A} (c : py S A) (handled : exn → bool) (h : py S A)
    : py S A := λ s,
  match c s with
  | (Raise e, s') => if handled e then h s' else (Raise e, s')
  | r => r
  end.

Definition is_AssertionError (e : exn) : bool :=
  match e with AssertionError _ => true | _ => false end.

Definition _assert_parameterized : py Molecule unit :=
  try_except
    (self ← get_self;
     py_assert (bool_decide (is_Some (_off_molecule self))) "")
    is_AssertionError
    (raise (Exception "Molecule not parameterized")).

(** The loop of [get_pdb_atom_names] appends the PDB name of each RDKit atom
    in turn. *)
Definition get_pdb_atom_names : py Molecule (list string) :=
  _assert_parameterized;;
  self ← get_self;
  match _rdkit_molecule self with
  | Some rdkit_molecule =>
      mret (foldl (λ pdb_atom_names name, pdb_atom_names ++ [name]) []
                  (rd_atom_names rdkit_molecule))
  | None => raise AttributeError
  end.

(** *** Atoms *)

(** [name.replace(old, new)] for one-character strings *)
Fixpoint replace (old new : Ascii.ascii) (s : string) : string :=
  match s with
  | EmptyString => EmptyString
  | String c s' =>
      String (if Ascii.eqb c old then new else c) (replace old new s')
  end.

(** [j / 2.0] *)
Definition truediv_2 {S} (j : pyval) : py S pyval :=
  match numeric j with
  | Some q => mret (PyFloat (q / 2)%Q)
  | None => raise TypeError
  end.

(** A comprehension whose element expression can raise. *)
Fixpoint comprehension {S A B} (f : A → py S B) (xs : list A)
    : py S (list B) :=
  match xs with
  | [] => mret []
  | x :: xs' => b ← f x; bs ← comprehension f xs'; mret (b :: bs)
  end.

(** [a[index]] for an array [a] with one entry per atom and a tuple [index]:
    the builder only subscripts after asserting that the tuple has length 1. *)
Definition array_getitem {S A} (a : list A) (index : akey) : py S A :=
  match index with
  | [i] => match a !! i with Some v => mret v | None => raise IndexError end
  | _ => raise IndexError
  end.

(** [t[n]] for a tuple [t] *)
Definition tuple_getitem {S} (t : akey) (n : nat) : py S nat :=
  match t !! n with Some v => mret v | None => raise IndexError end.

(** [RDKitToolkitWrapper().get_coordinates(self)] *)
Definition get_coordinates : py Molecule (list (pyval * pyval * pyval)) :=
  self ← get_self;
  match _rdkit_molecule self with
  | Some rdkit_molecule => mret (rd_coordinates rdkit_molecule)
  | None => raise AttributeError
  end.

(** [self.off_molecule.partial_charges] *)
Definition self_partial_charges : py Molecule (list pyval) :=
  self ← get_self;
  match _off_molecule self with
  | Some off_molecule => mret (partial_charges off_molecule)
  | None => raise AttributeError
  end.

(** The sigma table the builder works with: the reported one, or the one
    derived from rmin-half when [all([sigma is None ...])] holds. *)
Definition select_sigmas (params : Parameters) : dict akey pyval :=
  let sigmas := get_vdW_sigmas params in
  if forallb is_None (values sigmas)
  then get_vdW_sigmas_from_rmin_halves params
  else sigmas.

Definition none_by_index (params : Parameters) : dict akey pyval :=
  (λ i, (i, PyNone)) <$> keys (get_vdW_parameters params).

Definition index_msg : string := "Index should be a tupple of length 1".

Definition _build_atoms : py Molecule unit :=
  names ← get_pdb_atom_names;
  let pdb_atom_names : dict akey string :=
    imap (λ i name, ([i], replace " "%char "_"%char name)) names in
  params ← self_parameters;
  let OPLS_types := none_by_index params in
  let unknowns := none_by_index params in
  coords ← get_coordinates;
  let sigmas := select_sigmas params in
  let epsilons := get_vdW_epsilons params in
  let born_radii := none_by_index params in
  SASA_radii ←
    comprehension (λ '(i, j), r ← truediv_2 j; mret (i, r)) sigmas;
  let nonpolar_gammas := none_by_index params in
  let nonpolar_alphas := none_by_index params in
  for_ (keys (get_vdW_parameters params)) (λ index,
    py_assert (bool_decide (length index = 1)) index_msg;;
    index_0 ← tuple_getitem index 0;
    PDB_name ← getitem pdb_atom_names index;
    OPLS_type ← getitem OPLS_types index;
    unknown ← getitem unknowns index;
    xyz ← array_getitem coords index;
    sigma ← getitem sigmas index;
    epsilon ← getitem epsilons index;
    charges ← self_partial_charges;
    charge ← array_getitem charges index;
    born_radius ← getitem born_radii index;
    SASA_radius ← getitem SASA_radii index;
    nonpolar_gamma ← getitem nonpolar_gammas index;
    nonpolar_alpha ← getitem nonpolar_alphas index;
    let atom :=
      Atom.mk (PyInt (Z.of_nat index_0)) PyNone OPLS_type (PyStr PDB_name)
              unknown xyz.1.1 xyz.1.2 xyz.2 sigma epsilon charge born_radius
              SASA_radius nonpolar_gamma nonpolar_alpha None in
    _add_atom atom).

(** *** Rotamer library *)

(** The operations of [rotamer.MolecularGraph] that [build_rotamer_library]
    calls; each may read and update the molecule it was built from. *)
Class Rotamer : Type := {
  new_MolecularGraph : py Molecule MolecularGraph;
  graph_set_core : MolecularGraph → py Molecule unit;
  graph_set_parents : MolecularGraph → py Molecule unit;
  graph_build_rotamer_library :
    MolecularGraph → pyval → py Molecule RotamerLibrary
}.

(** [self.graph] followed by a method call *)
Definition self_graph : py Molecule MolecularGraph := λ m,
  match _graph m with
  | Some g => (Ok g, m)
  | None => (Raise AttributeError, m)
  end.

Definition build_rotamer_library `{Rotamer} (resolution : pyval)
    : py Molecule unit :=
  _assert_parameterized;;
  g ← new_MolecularGraph;
  modify (set_graph (Some g));;
  g ← self_graph; graph_set_core g;;
  g ← self_graph; graph_set_parents g;;
  g ← self_graph;
  rotamer_library ← graph_build_rotamer_library g resolution;
  modify (set_rotamer_library (Some rotamer_library)).

End molecule.

(** ** Solvent wrappers *)

Module Solvent.

(** What a wrapper does besides building itself: lines it prints and warnings
    it issues, oldest first. *)
Inductive event : Type :=
  | Printed (line : string)
  | Warned (message : string).

(** The attributes read from the GBSA parameter handler. *)
Record GBSAHandler : Type := {
  solvent_dielectric : pyval;
  solute_dielectric : pyval;
  surface_area_penalty : pyval;
  solvent_radius : pyval
}.

(** [offpele.utils.get_data_file_path] and the two calls made on the
    [OpenForceFieldToolkitWrapper].  Each is a function of its arguments: it
    reads a data file that does not change between two calls. *)
Class Toolkit `{Topology} : Type := {
  get_data_file_path : string → string;
  get_parameter_handler_from_forcefield :
    string → option string → outcome GBSAHandler;
  get_parameters_from_forcefield :
    option string → Molecule → outcome Parameters
}.

(** The class attributes [_ff_file] and [_name] of a wrapper class. *)
Record klass : Type := {
  _ff_file : option string;
  _name : option string
}.

(** An instance; an array is a table keyed by position. *)
Record t `{Topology} : Type := mk {
  class_ : klass;
  _molecule : Molecule;
  _radii : dict akey pyval;
  _scales : dict akey pyval;
  _solvent_dielectric : pyval;
  _solute_dielectric : pyval;
  _surface_area_penalty : pyval;
  _solvent_radius : pyval
}.
Arguments mk {_} _ _ _ _ _ _ _ _.

Section wrappers.
Context `{Toolkit}.

Definition print (line : string) : py (list event) unit :=
  modify (λ log, log ++ [Printed line]).

Definition warn (message : string) : py (list event) unit :=
  modify (λ log, log ++ [Warned message]).

Definition lift {A} (r : outcome A) : py (list event) A := λ log, (r, log).

(** [np.zeros(n)] *)
Definition zeros (n : nat) : dict akey pyval :=
  (λ i, ([i], PyFloat 0)) <$> seq 0 n.

(** [_SolventWrapper._initialize_from_molecule] *)
Definition _initialize_from_molecule (self : t) : py (list event) t :=
  print " - Loading solvent parameters";;
  GBSA_handler ←
    lift (get_parameter_handler_from_forcefield "GBSA"
            (_ff_file (class_ self)));
  let self :=
    mk (class_ self) (_molecule self) (_radii self) (_scales self)
       (solvent_dielectric GBSA_handler) (solute_dielectric GBSA_handler)
       (surface_area_penalty GBSA_handler) (solvent_radius GBSA_handler) in
  parameters ←
    lift (get_parameters_from_forcefield (_ff_file (class_ self))
            (_molecule self));
  mret (mk (class_ self) (_molecule self) (get_GBSA_radii parameters)
           (get_GBSA_scales parameters) (_solvent_dielectric self)
           (_solute_dielectric self) (_surface_area_penalty self)
           (_solvent_radius self)).

(** [_SolventWrapper.__init__], for an instance of class [cls] *)
Definition __init__ (cls : klass) (molecule : Molecule)
    : py (list event) t :=
  let self :=
    mk cls molecule (zeros (length (_atoms molecule)))
       (zeros (length (_atoms molecule))) (PyFloat 0) (PyFloat 0)
       (PyFloat 0) (PyFloat 0) in
  _initialize_from_molecule self.

Definition _SolventWrapper : klass :=
  {| _ff_file := None; _name := None |}.

Definition OBC1_class : klass :=
  {| _ff_file := Some (get_data_file_path "forcefields/GBSA_OBC1-1.0.offxml");
     _name := Some "OBC1" |}.

Definition OBC2_class : klass :=
  {| _ff_file := Some (get_data_file_path "forcefields/GBSA_OBC1-1.0.offxml");
     _name := Some "OBC2" |}.

(** [OBC1(molecule)] *)
Definition OBC1 (molecule : Molecule) : py (list event) t :=
  warn "OBC1 is not implemented in PELE";;
  __init__ OBC1_class molecule.

(** [OBC2(molecule)] *)
Definition OBC2 (molecule : Molecule) : py (list event) t :=
  __init__ OBC2_class molecule.

(** The properties of a wrapper. *)
Definition name (self : t) : option string := _name (class_ self).
Definition radii (self : t) : dict akey pyval := _radii self.
Definition scales (self : t) : dict akey pyval := _scales self.

End wrappers.
End Solvent.

(** ** What the torsion builders emit

    The two builders run the same loop nest.  [gen_build] is that loop nest
    with the record constructor and the two [_add_...] calls left open; the
    record lists below say, entry by entry, what it appends. *)

(** One periodicity term: the four dicts that [zip] puts side by side. *)
Definition term : Type :=
  dict quad pyval * dict quad pyval * dict quad pyval * dict quad pyval.

(** The four values of an entry, when all four lookups succeed. *)
Definition entry (t : term) (index : quad)
    : option (pyval * pyval * pyval * pyval) :=
  let '(period_by_index, phase_by_index, k_by_index, idivf_by_index) := t in
  period ← dict_lookup index period_by_index;
  phase ← dict_lookup index phase_by_index;
  k ← dict_lookup index k_by_index;
  idivf ← dict_lookup index idivf_by_index;
  Some (period, phase, k, idivf).

Definition all_truthy (e : pyval * pyval * pyval * pyval) : bool :=
  let '(period, phase, k, idivf) := e in
  truthy period && truthy phase && truthy k && truthy idivf.

Definition consistent (t : term) : bool :=
  let '(period_by_index, phase_by_index, k_by_index, idivf_by_index) := t in
  keys_agree period_by_index phase_by_index k_by_index idivf_by_index.

(** The terms in front of the first one whose key views differ. *)
Fixpoint consistent_prefix (ts : list term) : list term :=
  match ts with
  | [] => []
  | t :: ts' => if consistent t then t :: consistent_prefix ts' else []
  end.

(** The terms whose entries are visited, for the four tables as they stand
    after [default_idivfs]. *)
Definition processed (periodicities phases ks idivfs : list (dict quad pyval))
    : list term :=
  if lengths_agree periodicities phases ks idivfs
  then consistent_prefix (zip4 periodicities phases ks idivfs)
  else [].

(** How the run ends, for the same four tables. *)
Definition torsion_outcome (lengths_msg : string)
    (periodicities phases ks idivfs : list (dict quad pyval))
    : outcome unit :=
  if lengths_agree periodicities phases ks idivfs then
    if forallb consistent (zip4 periodicities phases ks idivfs)
    then Ok tt
    else Raise (AssertionError keys_msg)
  else Raise (AssertionError lengths_msg).

Section records.
Context {R : Type}.
Context (mkR : nat → nat → nat → nat → pyval → pyval → pyval → pyval → R).

Definition record_of (index : quad) (e : pyval * pyval * pyval * pyval) : R :=
  let '(atom1_idx, atom2_idx, atom3_idx, atom4_idx) := index in
  let '(period, phase, k, idivf) := e in
  mkR atom1_idx atom2_idx atom3_idx atom4_idx period phase k idivf.

(** The records of one entry: one record, or none. *)
Definition entry_records (t : term) (index : quad) : list R :=
  match entry t index with
  | Some e => if all_truthy e then [record_of index e] else []
  | None => []
  end.

Definition term_records (t : term) : list R :=
  keys t.1.1.1 ≫= entry_records t.

Context `{Topology} (add : R → py Molecule unit).

Definition gen_entry_body (t : term) (index : quad) : py Molecule unit :=
  let '(period_by_index, phase_by_index, k_by_index, idivf_by_index) := t in
  let '(atom1_idx, atom2_idx, atom3_idx, atom4_idx) := index in
  period ← getitem period_by_index index;
  phase ← getitem phase_by_index index;
  k ← getitem k_by_index index;
  idivf ← getitem idivf_by_index index;
  if truthy period && truthy phase && truthy k && truthy idivf then
    add (mkR atom1_idx atom2_idx atom3_idx atom4_idx period phase k idivf)
  else mret tt.

Definition gen_term_body (t : term) : py Molecule unit :=
  let '(period_by_index, phase_by_index, k_by_index, idivf_by_index) := t in
  py_assert
    (keys_agree period_by_index phase_by_index k_by_index idivf_by_index)
    keys_msg;;
  for_ (keys period_by_index)
    (gen_entry_body
       (period_by_index, phase_by_index, k_by_index, idivf_by_index)).

Definition gen_build (lengths_msg : string)
    (periodicities phases ks idivfs : list (dict quad pyval))
    : py Molecule unit :=
  let idivfs := default_idivfs periodicities idivfs in
  py_assert (lengths_agree periodicities phases ks idivfs) lengths_msg;;
  for_ (zip4 periodicities phases ks idivfs) gen_term_body.

End records.

Section pushes.
Context `{Topology}.

(** The two appends that follow the construction of a proper. *)
Definition add_proper (off_proper : OFFProper.t) : py Molecule unit :=
  _add_proper (proper_to_PELE off_proper);; _add_OFF_proper off_proper.

Definition push_proper (m : Molecule) (off_proper : OFFProper.t) : Molecule :=
  upd_OFF_propers (λ l, l ++ [off_proper])
    (upd_propers (λ l, l ++ [proper_to_PELE off_proper]) m).

Definition add_improper (off_improper : OFFImproper.t) : py Molecule unit :=
  _add_improper (improper_to_PELE off_improper);;
  _add_OFF_improper off_improper.

Definition push_improper (m : Molecule) (off_improper : OFFImproper.t)
    : Molecule :=
  upd_OFF_impropers (λ l, l ++ [off_improper])
    (upd_impropers (λ l, l ++ [improper_to_PELE off_improper]) m).

(** The eight arguments an [OFFProper] and an [OFFImproper] were built from. *)
Definition proper_fields (r : OFFProper.t)
    : quad * (pyval * pyval * pyval * pyval) :=
  ((OFFProper.atom1_idx r, OFFProper.atom2_idx r, OFFProper.atom3_idx r,
    OFFProper.atom4_idx r),
   (OFFProper.periodicity r, OFFProper.phase r, OFFProper.k r,
    OFFProper.idivf r)).

Definition improper_fields (r : OFFImproper.t)
    : quad * (pyval * pyval * pyval * pyval) :=
  ((OFFImproper.atom1_idx r, OFFImproper.atom2_idx r,
    OFFImproper.atom3_idx r, OFFImproper.atom4_idx r),
   (OFFImproper.periodicity r, OFFImproper.phase r, OFFImproper.k r,
    OFFImproper.idivf r)).

End pushes.

(** ** Tables without a divisor

    What an entry yields when only periodicity, phase and force constant are
    looked up and the divisor is taken to be 1. *)

Definition entry_records_default {R : Type}
    (mkR : nat → nat → nat → nat → pyval → pyval → pyval → pyval → R)
    (t : dict quad pyval * dict quad pyval * dict quad pyval) (index : quad)
    : list R :=
  let '(period_by_index, phase_by_index, k_by_index) := t in
  match dict_lookup index period_by_index, dict_lookup index phase_by_index,
        dict_lookup index k_by_index with
  | Some period, Some phase, Some k =>
      if truthy period && truthy phase && truthy k
      then [record_of mkR index (period, phase, k, PyInt 1)]
      else []
  | _, _, _ => []
  end.

(** The key views of the three tables that remain agree. *)
Definition keys_agree3
    (t : dict quad pyval * dict quad pyval * dict quad pyval) : bool :=
  let '(period_by_index, phase_by_index, k_by_index) := t in
  keys_eq period_by_index phase_by_index
  && keys_eq period_by_index k_by_index.


Definition term_wf (t : term) : Prop :=
  dict_wf t.1.1.1 ∧ dict_wf t.1.1.2 ∧ dict_wf t.1.2 ∧ dict_wf t.2.


(** ** The terms the builders visit *)

Definition proper_terms (params : Parameters) : list term :=
  processed (get_dihedral_periodicities params) (get_dihedral_phases params)
    (get_dihedral_ks params)
    (default_idivfs (get_dihedral_periodicities params)
       (get_dihedral_idivfs params)).

Definition improper_terms (params : Parameters) : list term :=
  processed (get_improper_periodicities params) (get_improper_phases params)
    (get_improper_ks params)
    (default_idivfs (get_improper_periodicities params)
       (get_improper_idivfs params)).

(** The dict appended for one periodicity dict. *)
Definition ones (period_by_index : dict quad pyval) : dict quad pyval :=
  zip (keys period_by_index)
      (replicate (length (keys period_by_index)) (PyInt 1)).

Definition with_ones
    (t : dict quad pyval * dict quad pyval * dict quad pyval) : term :=
  (t.1.1, t.1.2, t.2, ones t.1.1).

(** ** The loop of the atom builder *)

(** The body of the loop of [_build_atoms], given the tables computed in front
    of the loop. *)
Definition atom_body `{Topology} (pdb_atom_names : dict akey string)
    (nones : dict akey pyval) (coords : list (pyval * pyval * pyval))
    (sigmas epsilons SASA_radii : dict akey pyval) (index : akey)
    : py Molecule unit :=
  py_assert (bool_decide (length index = 1)) index_msg;;
  index_0 ← tuple_getitem index 0;
  PDB_name ← getitem pdb_atom_names index;
  OPLS_type ← getitem nones index;
  unknown ← getitem nones index;
  xyz ← array_getitem coords index;
  sigma ← getitem sigmas index;
  epsilon ← getitem epsilons index;
  charges ← self_partial_charges;
  charge ← array_getitem charges index;
  born_radius ← getitem nones index;
  SASA_radius ← getitem SASA_radii index;
  nonpolar_gamma ← getitem nones index;
  nonpolar_alpha ← getitem nones index;
  _add_atom
    (Atom.mk (PyInt (Z.of_nat index_0)) PyNone OPLS_type (PyStr PDB_name)
       unknown xyz.1.1 xyz.1.2 xyz.2 sigma epsilon charge born_radius
       SASA_radius nonpolar_gamma nonpolar_alpha None).

(** The table [pdb_atom_names] of [_build_atoms]. *)
Definition pdb_names_table (names : list string) : dict akey string :=
  imap (λ i name, ([i], replace " "%char "_"%char name)) names.

(** The comprehension that computes [SASA_radii]. *)
Definition halve_all {S} (sigmas : dict akey pyval)
    : py S (dict akey pyval) :=
  comprehension (λ '(i, j), r ← truediv_2 j; mret (i, r)) sigmas.

(** What the builder makes of the atom with index [i]. *)
Definition built_from (params : Parameters) (off : OFFMolecule)
    (rd : RDKitMolecule) (a : Atom.t) : Prop :=
  ∃ i : nat,
    Atom.index a = PyInt (Z.of_nat i)
    ∧ [i] ∈ keys (get_vdW_parameters params)
    ∧ Atom.core a = PyNone ∧ Atom.parent a = None
    ∧ Atom.OPLS_type a = PyNone ∧ Atom.unknown a = PyNone
    ∧ Atom.born_radius a = PyNone ∧ Atom.nonpolar_gamma a = PyNone
    ∧ Atom.nonpolar_alpha a = PyNone
    ∧ dict_lookup [i] (select_sigmas params) = Some (Atom.sigma a)
    ∧ dict_lookup [i] (get_vdW_epsilons params) = Some (Atom.epsilon a)
    ∧ partial_charges off !! i = Some (Atom.charge a)
    ∧ (∃ s, numeric (Atom.sigma a) = Some s
            ∧ Atom.SASA_radius a = PyFloat (s / 2)%Q)
    ∧ (∃ name, rd_atom_names rd !! i = Some name
               ∧ Atom.PDB_name a = PyStr (replace " "%char "_"%char name))
    ∧ rd_coordinates rd !! i = Some (Atom.x a, Atom.y a, Atom.z a).

(** The tables hold what the loop looks up for every atom: the keys of the
    van der Waals table are 1-tuples, each with a name, coordinates, a
    charge, a sigma and an epsilon, and every sigma of the chosen table is a
    number. *)
Definition atom_tables_complete (params : Parameters) (off : OFFMolecule)
    (rd : RDKitMolecule) : Prop :=
  Forall (λ v, is_Some (numeric v)) (values (select_sigmas params))
  ∧ Forall (λ index : akey, ∃ i : nat,
             index = [i]
             ∧ i < length (rd_atom_names rd)
             ∧ i < length (rd_coordinates rd)
             ∧ i < length (partial_charges off)
             ∧ [i] ∈ keys (select_sigmas params)
             ∧ [i] ∈ keys (get_vdW_epsilons params))
      (keys (get_vdW_parameters params)).

(** ** The second pass over the atoms *)

(** Modelled from the spec: rotamer-graph construction ([rotamer.py], whose
    source is not part of this development) is described as "a second pass
    over already-built atoms" that sets the [core] and [parent] fields of
    each [Atom] and nothing else.  A pass is therefore a sequence of calls of
    [set_as_core], [set_as_branch] and [set_parent], each on one atom of the
    molecule; atoms and parents are named by their position in the list of
    atoms.  A call on a position that holds no atom changes nothing (a method
    is always called on an existing object). *)
Inductive graph_call : Type :=
  | Set_as_core (atom : nat)
  | Set_as_branch (atom : nat)
  | Set_parent (atom : nat) (parent : nat).

Definition graph_call_run (atoms : list Atom.t) (c : graph_call)
    : list Atom.t :=
  match c with
  | Set_as_core i => alter Atom.set_as_core i atoms
  | Set_as_branch i => alter Atom.set_as_branch i atoms
  | Set_parent i p => alter (Atom.set_parent (Some p)) i atoms
  end.

(** Modelled from the spec: the second pass, as the calls it makes, run from
    first to last on the atoms of the molecule. *)
Definition rotamer_pass (calls : list graph_call) (atoms : list Atom.t)
    : list Atom.t :=
  foldl graph_call_run atoms calls.

(** Everything an [Atom] holds besides [core] and [parent]: index, name,
    [unknown], coordinates, nonbonded and implicit-solvent parameters and the
    OPLS type. *)
Definition atom_frame (a : Atom.t) : list pyval :=
  [ Atom.index a; Atom.OPLS_type a; Atom.PDB_name a; Atom.unknown a;
    Atom.x a; Atom.y a; Atom.z a; Atom.sigma a; Atom.epsilon a;
    Atom.charge a; Atom.born_radius a; Atom.SASA_radius a;
    Atom.nonpolar_gamma a; Atom.nonpolar_alpha a ].

(** ** A small molecule

    Five atoms in a chain, two periodicity terms.  In the first term the
    force constant of the second quadruple is zero. *)

Module Example.

Definition topology : Topology := {|
  PELEProper := OFFProper.t;
  PELEImproper := OFFImproper.t;
  MolecularGraph := unit;
  RotamerLibrary := unit;
  proper_to_PELE := id;
  improper_to_PELE := id
|}.

Definition q1 : quad := (0, 1, 2, 3).
Definition q2 : quad := (1, 2, 3, 4).

Definition periodicities : list (dict quad pyval) :=
  [ [(q1, PyInt 1); (q2, PyInt 2)]; [(q1, PyInt 3)] ].
Definition phases : list (dict quad pyval) :=
  [ [(q1, PyFloat 180); (q2, PyFloat 180)]; [(q1, PyFloat 180)] ].
Definition ks : list (dict quad pyval) :=
  [ [(q1, PyFloat (3 # 2)); (q2, PyFloat 0)]; [(q1, PyFloat (1 # 2))] ].
Definition idivfs : list (dict quad pyval) :=
  [ [(q1, PyFloat 1); (q2, PyFloat 1)]; [(q1, PyFloat 1)] ].


Definition vdW_keys : dict akey pyval :=
  [ ([0], PyNone); ([1], PyNone); ([2], PyNone); ([3], PyNone);
    ([4], PyNone) ].
Definition sigmas : dict akey pyval :=
  [ ([0], PyFloat 3); ([1], PyFloat (7 # 2)); ([2], PyFloat (17 # 5));
    ([3], PyFloat 3); ([4], PyFloat (7 # 2)) ].
Definition sigmas_unreported : dict akey pyval :=
  [ ([0], PyNone); ([1], PyNone); ([2], PyNone); ([3], PyNone);
    ([4], PyNone) ].
Definition sigmas_mixed : dict akey pyval :=
  [ ([0], PyFloat 3); ([1], PyNone); ([2], PyFloat (17 # 5));
    ([3], PyFloat 3); ([4], PyFloat (7 # 2)) ].
Definition sigmas_from_rmin_halves : dict akey pyval :=
  [ ([0], PyFloat (31 # 10)); ([1], PyFloat (18 # 5)); ([2], PyFloat (7 # 2));
    ([3], PyFloat (31 # 10)); ([4], PyFloat (18 # 5)) ].
Definition epsilons : dict akey pyval :=
  [ ([0], PyFloat (1 # 10)); ([1], PyFloat (1 # 5)); ([2], PyFloat (1 # 10));
    ([3], PyFloat (1 # 10)); ([4], PyFloat (1 # 5)) ].

Definition make_parameters (vdW_sigmas : dict akey pyval)
    (dihedral_phases dihedral_idivfs : list (dict quad pyval))
    : Parameters := {|
  get_vdW_parameters := vdW_keys;
  get_vdW_sigmas := vdW_sigmas;
  get_vdW_sigmas_from_rmin_halves := sigmas_from_rmin_halves;
  get_vdW_epsilons := epsilons;
  get_dihedral_periodicities := periodicities;
  get_dihedral_phases := dihedral_phases;
  get_dihedral_ks := ks;
  get_dihedral_idivfs := dihedral_idivfs;
  get_improper_periodicities := periodicities;
  get_improper_phases := dihedral_phases;
  get_improper_ks := ks;
  get_improper_idivfs := dihedral_idivfs;
  get_GBSA_radii := [];
  get_GBSA_scales := []
|}.

Definition rdkit_molecule : RDKitMolecule := {|
  rd_atom_names := [" C1 "; " C2 "; " C3 "; " C4 "; " O1 "];
  rd_coordinates :=
    [ (PyFloat 0, PyFloat 0, PyFloat 0);
      (PyFloat (3 # 2), PyFloat 0, PyFloat 0);
      (PyFloat 3, PyFloat 0, PyFloat 0);
      (PyFloat (9 # 2), PyFloat 0, PyFloat 0);
      (PyFloat 6, PyFloat 0, PyFloat 0) ]
|}.

Definition off_molecule : OFFMolecule := {|
  off_name := "LIG";
  partial_charges :=
    [ PyFloat (-1 # 10); PyFloat (1 # 10); PyFloat 0; PyFloat (1 # 10);
      PyFloat (-1 # 10) ]
|}.

(** A molecule loaded from a PDB file, once [parameterize] has stored the
    parameters and the charges. *)
Definition molecule (params : Parameters) : @Molecule topology :=
  @mkMolecule topology "LIG" None [] [] [] [] [] [] []
    (Some rdkit_molecule) (Some off_molecule) None None (Some params).

Definition params : Parameters := make_parameters sigmas phases idivfs.

(** The provider reports no sigma for the second atom only. *)
Definition params_mixed : Parameters :=
  make_parameters sigmas_mixed phases idivfs.

(** The provider reports no sigma at all. *)
Definition params_unreported : Parameters :=
  make_parameters sigmas_unreported phases idivfs.

(** The provider reports no divisor. *)
Definition params_no_idivf : Parameters := make_parameters sigmas phases [].


(** A molecule built with [Molecule()] and no path. *)
Definition blank : @Molecule topology := @_initialize topology.

(** A rotamer module whose graph does nothing. *)
Definition rotamer : @Rotamer topology := {|
  new_MolecularGraph := λ m, (Ok (tt : @MolecularGraph topology), m);
  graph_set_core := λ _ m, (Ok tt, m);
  graph_set_parents := λ _ m, (Ok tt, m);
  graph_build_rotamer_library :=
    λ _ _ m, (Ok (tt : @RotamerLibrary topology), m)
|}.

End Example.

(** ** Bonds and angles *)

(** The getters of the parameter provider for bonds and angles.  A bond table
    is keyed by a 2-tuple of atom indexes, an angle table by a 3-tuple. *)
Class BondedTables : Type := {
  get_bond_lengths : Parameters → dict (nat * nat) pyval;
  get_bond_ks : Parameters → dict (nat * nat) pyval;
  get_bond_parameters : Parameters → dict (nat * nat) pyval;
  get_angle_angles : Parameters → dict (nat * nat * nat) pyval;
  get_angle_ks : Parameters → dict (nat * nat * nat) pyval;
  get_angle_parameters : Parameters → dict (nat * nat * nat) pyval
}.

(** [enumerate(xs)], counting from [start] *)
Fixpoint enumerate_from {A} (start : nat) (xs : list A) : list (nat * A) :=
  match xs with
  | [] => []
  | x :: xs' => (start, x) :: enumerate_from (S start) xs'
  end.

Definition enumerate {A} (xs : list A) : list (nat * A) :=
  enumerate_from 0 xs.

(** The results of [f] on the elements in front of the first one on which [f]
    has no result. *)
Fixpoint prefix_omap {A B} (f : A → option B) (xs : list A) : list B :=
  match xs with
  | [] => []
  | x :: xs' =>
      match f x with Some y => y :: prefix_omap f xs' | None => [] end
  end.

Section bonded.
Context `{Topology} `{BondedTables}.

Definition upd_bonds (f : list Bond.t → list Bond.t) (m : Molecule)
    : Molecule :=
  mkMolecule (_name m) (_forcefield m) (_atoms m) (f (_bonds m)) (_angles m)
    (_propers m) (_OFF_propers m) (_impropers m) (_OFF_impropers m)
    (_rdkit_molecule m) (_off_molecule m) (_rotamer_library m) (_graph m)
    (parameters m).

Definition upd_angles (f : list Angle.t → list Angle.t) (m : Molecule)
    : Molecule :=
  mkMolecule (_name m) (_forcefield m) (_atoms m) (_bonds m) (f (_angles m))
    (_propers m) (_OFF_propers m) (_impropers m) (_OFF_impropers m)
    (_rdkit_molecule m) (_off_molecule m) (_rotamer_library m) (_graph m)
    (parameters m).

Definition _add_bond (bond : Bond.t) : py Molecule unit :=
  modify (upd_bonds (λ l, l ++ [bond])).

Definition _add_angle (angle : Angle.t) : py Molecule unit :=
  modify (upd_angles (λ l, l ++ [angle])).

Definition _build_bonds : py Molecule unit :=
  params ← self_parameters;
  let lengths := get_bond_lengths params in
  let ks := get_bond_ks params in
  let bond_indexes := keys (get_bond_parameters params) in
  for_ (enumerate bond_indexes) (λ '(index, atom_indexes),
    let '(atom1_idx, atom2_idx) := atom_indexes in
    spring_constant ← getitem ks atom_indexes;
    eq_dist ← getitem lengths atom_indexes;
    let bond := Bond.mk index atom1_idx atom2_idx spring_constant eq_dist in
    _add_bond bond).

Definition _build_angles : py Molecule unit :=
  params ← self_parameters;
  let angles := get_angle_angles params in
  let ks := get_angle_ks params in
  let angle_indexes := keys (get_angle_parameters params) in
  for_ (enumerate angle_indexes) (λ '(index, atom_indexes),
    let '(atom1_idx, atom2_idx, atom3_idx) := atom_indexes in
    spring_constant ← getitem ks atom_indexes;
    eq_angle ← getitem angles atom_indexes;
    let angle :=
      Angle.mk index atom1_idx atom2_idx atom3_idx spring_constant eq_angle in
    _add_angle angle).

(** The bond made for the key at position [index], when both tables hold the
    key. *)
Definition bond_of (params : Parameters) (x : nat * (nat * nat))
    : option Bond.t :=
  spring_constant ← dict_lookup x.2 (get_bond_ks params);
  eq_dist ← dict_lookup x.2 (get_bond_lengths params);
  Some (Bond.mk x.1 x.2.1 x.2.2 spring_constant eq_dist).

Definition angle_of (params : Parameters) (x : nat * (nat * nat * nat))
    : option Angle.t :=
  spring_constant ← dict_lookup x.2 (get_angle_ks params);
  eq_angle ← dict_lookup x.2 (get_angle_angles params);
  Some (Angle.mk x.1 x.2.1.1 x.2.1.2 x.2.2 spring_constant eq_angle).

End bonded.

(** A bond and an angle as the builders make them for the key at position
    [i] of the key list. *)
Definition bond_for `{BondedTables} (params : Parameters) (i : nat)
    (key : nat * nat) (b : Bond.t) : Prop :=
  Bond.index b = i
  ∧ (Bond.atom1_idx b, Bond.atom2_idx b) = key
  ∧ dict_lookup key (get_bond_ks params) = Some (Bond.spring_constant b)
  ∧ dict_lookup key (get_bond_lengths params) = Some (Bond.eq_dist b).

Definition angle_for `{BondedTables} (params : Parameters) (i : nat)
    (key : nat * nat * nat) (a : Angle.t) : Prop :=
  Angle.index a = i
  ∧ (Angle.atom1_idx a, Angle.atom2_idx a, Angle.atom3_idx a) = key
  ∧ dict_lookup key (get_angle_ks params) = Some (Angle.spring_constant a)
  ∧ dict_lookup key (get_angle_angles params) = Some (Angle.eq_angle a).

(** ** More on the atom builder *)

(** What the builder makes of the key [[i]]: [built_from] with the atom index
    named. *)
Definition built_at (params : Parameters) (off : OFFMolecule)
    (rd : RDKitMolecule) (i : nat) (a : Atom.t) : Prop :=
  Atom.index a = PyInt (Z.of_nat i)
  ∧ [i] ∈ keys (get_vdW_parameters params)
  ∧ Atom.core a = PyNone ∧ Atom.parent a = None
  ∧ Atom.OPLS_type a = PyNone ∧ Atom.unknown a = PyNone
  ∧ Atom.born_radius a = PyNone ∧ Atom.nonpolar_gamma a = PyNone
  ∧ Atom.nonpolar_alpha a = PyNone
  ∧ dict_lookup [i] (select_sigmas params) = Some (Atom.sigma a)
  ∧ dict_lookup [i] (get_vdW_epsilons params) = Some (Atom.epsilon a)
  ∧ partial_charges off !! i = Some (Atom.charge a)
  ∧ (∃ s, numeric (Atom.sigma a) = Some s
          ∧ Atom.SASA_radius a = PyFloat (s / 2)%Q)
  ∧ (∃ name, rd_atom_names rd !! i = Some name
             ∧ Atom.PDB_name a = PyStr (replace " "%char "_"%char name))
  ∧ rd_coordinates rd !! i = Some (Atom.x a, Atom.y a, Atom.z a).

(** The atom made for a key of the van der Waals table. *)
Definition atom_for (params : Parameters) (off : OFFMolecule)
    (rd : RDKitMolecule) (index : akey) (a : Atom.t) : Prop :=
  ∃ i : nat, index = [i] ∧ built_at params off rd i a.

(** ** What a torsion builder leaves alone *)

Section rest.
Context `{Topology}.

(** The molecule without its two lists of propers. *)
Definition beside_propers (m : Molecule) :=
  (_name m, _forcefield m, _atoms m, _bonds m, _angles m, _impropers m,
   _OFF_impropers m, _rdkit_molecule m, _off_molecule m, _rotamer_library m,
   _graph m, parameters m).

(** The molecule without its two lists of impropers. *)
Definition beside_impropers (m : Molecule) :=
  (_name m, _forcefield m, _atoms m, _bonds m, _angles m, _propers m,
   _OFF_propers m, _rdkit_molecule m, _off_molecule m, _rotamer_library m,
   _graph m, parameters m).

End rest.

(** Two periodicity terms with the same periodicity dict whose other dicts
    hold the same items, possibly in another order. *)
Definition term_perm (t t' : term) : Prop :=
  t.1.1.1 = t'.1.1.1 ∧ t.1.1.2 ≡ₚ t'.1.1.2 ∧ t.1.2 ≡ₚ t'.1.2 ∧ t.2 ≡ₚ t'.2.

(** ** Naming and parameterizing a molecule *)



(** The toolkit calls of [parameterize]: the parameter provider of a force
    field for a molecule, the AM1-BCC charges of a molecule, and
    [Path(...).stem].  The two toolkit calls read the molecule and may
    raise; they are taken not to change it. *)
Class ForceFieldToolkits `{Topology} : Type := {
  get_parameters_from_forcefield : pyval → Molecule → outcome Parameters;
  compute_partial_charges_am1bcc : Molecule → outcome (list pyval);
  path_stem : string → string
}.

Section naming.
Context `{Topology} `{BondedTables} `{!ForceFieldToolkits}.


Definition set_forcefield (forcefield : option string) (m : Molecule)
    : Molecule :=
  mkMolecule (_name m) forcefield (_atoms m) (_bonds m) (_angles m)
    (_propers m) (_OFF_propers m) (_impropers m) (_OFF_impropers m)
    (_rdkit_molecule m) (_off_molecule m) (_rotamer_library m) (_graph m)
    (parameters m).

Definition set_off_molecule (off_molecule : option OFFMolecule)
    (m : Molecule) : Molecule :=
  mkMolecule (_name m) (_forcefield m) (_atoms m) (_bonds m) (_angles m)
    (_propers m) (_OFF_propers m) (_impropers m) (_OFF_impropers m)
    (_rdkit_molecule m) off_molecule (_rotamer_library m) (_graph m)
    (parameters m).

Definition set_parameters (params : option Parameters) (m : Molecule)
    : Molecule :=
  mkMolecule (_name m) (_forcefield m) (_atoms m) (_bonds m) (_angles m)
    (_propers m) (_OFF_propers m) (_impropers m) (_OFF_impropers m)
    (_rdkit_molecule m) (_off_molecule m) (_rotamer_library m) (_graph m)
    params.


(** A call of a toolkit function on the molecule. *)
Definition call {A} (f : Molecule → outcome A) : py Molecule A :=
  λ m, (f m, m).

Definition _calculate_am1bcc_charges : py Molecule unit :=
  charges ← call compute_partial_charges_am1bcc;
  self ← get_self;
  match _off_molecule self with
  | Some off_molecule =>
      modify (set_off_molecule
                (Some {| off_name := off_name off_molecule;
                         partial_charges := charges |}))
  | None => raise AttributeError
  end.

Definition not_initialized_msg : string :=
  "OpenForceField molecule was not initialized correctly".

(** [Molecule.parameterize].  A molecule of either toolkit that is set counts
    as true in [not self.off_molecule and not self.rdkit_molecule]. *)
Definition parameterize (forcefield : pyval) : py Molecule unit :=
  self ← get_self;
  if negb (bool_decide (is_Some (_off_molecule self)))
     && negb (bool_decide (is_Some (_rdkit_molecule self)))
  then raise (Exception not_initialized_msg)
  else
    parameters ← call (get_parameters_from_forcefield forcefield);
    modify (set_parameters (Some parameters));;
    match forcefield with
    | PyStr path => modify (set_forcefield (Some (path_stem path)))
    | _ => mret tt
    end;;
    _calculate_am1bcc_charges;;
    _build_atoms;;
    _build_bonds;;
    _build_angles;;
    _build_propers;;
    _build_impropers.

(** [m'] is [m] with records appended and, at most, other charges: the name,
    the force field, the parameters, the RDKit molecule, the rotamer library
    and the graph are those of [m], the OpenForceField molecule is set or
    unset as in [m] and has the same name, and every list of records of [m]
    is the front of the same list of [m']. *)
Definition kept (m m' : Molecule) : Prop :=
  _name m' = _name m ∧ _forcefield m' = _forcefield m
  ∧ parameters m' = parameters m
  ∧ _rdkit_molecule m' = _rdkit_molecule m
  ∧ _rotamer_library m' = _rotamer_library m ∧ _graph m' = _graph m
  ∧ off_name <$> _off_molecule m' = off_name <$> _off_molecule m
  ∧ _atoms m `prefix_of` _atoms m' ∧ _bonds m `prefix_of` _bonds m'
  ∧ _angles m `prefix_of` _angles m'
  ∧ _propers m `prefix_of` _propers m'
  ∧ _OFF_propers m `prefix_of` _OFF_propers m'
  ∧ _impropers m `prefix_of` _impropers m'
  ∧ _OFF_impropers m `prefix_of` _OFF_impropers m'.

End naming.

(** ** The dictionary of a solvent wrapper *)

(** What [to_dict] builds: values and nested dicts with string keys. *)
#[warnings="-register-all"] Inductive jvalue : Type :=
  | JVal (v : pyval)
  | JDict (items : list (string * jvalue)).

(** [d[k] = v]: the value of an existing key is replaced where the key
    stands, a new key goes to the end. *)
Fixpoint dict_set {K} `{EqDecision K} {V} (k : K) (v : V) (d : dict K V)
    : dict K V :=
  match d with
  | [] => [(k, v)]
  | (k', v') :: d' =>
      if decide (k' = k) then (k, v) :: d' else (k', v') :: dict_set k v d'
  end.

(** [data[p1]...[pn][k] = v].  The dicts on the path are objects held by
    [data], so that the assignment shows in [data]. *)
Fixpoint j_set (path : list string) (k : string) (v : jvalue) (data : jvalue)
    : outcome jvalue :=
  match data with
  | JDict items =>
      match path with
      | [] => Ok (JDict (dict_set k v items))
      | p :: path' =>
          match dict_lookup p items with
          | Some sub =>
              match j_set path' k v sub with
              | Ok sub' => Ok (JDict (dict_set p sub' items))
              | Raise e => Raise e
              end
          | None => Raise KeyError
          end
      end
  | JVal _ => Raise TypeError
  end.

Definition assign (path : list string) (k : string) (v : jvalue)
    : py jvalue unit := λ data,
  match j_set path k v data with
  | Ok data' => (Ok tt, data')
  | Raise e => (Raise e, data)
  end.

(** [round(x, ndigits)] and [q.value_in_unit(unit)], with the unit given by
    its name. *)
Class Numerics : Type := {
  round : pyval → nat → pyval;
  value_in_unit : pyval → string → pyval
}.

Section to_dict.
Context `{Topology} `{Numerics}.

Definition angstrom : string := "angstrom".
Definition kilocalorie_per_angstrom2_mole : string :=
  "kilocalorie/(angstrom**2*mole)".

(** The value stored for the atom with index [index]. *)
Definition atom_entry (radius scale : pyval) : jvalue :=
  JDict [ ("radius", JVal (round (value_in_unit radius angstrom) 5));
          ("scale", JVal (round scale 5)) ].

(** [self.molecule.rdkit_molecule.GetAtoms()]: each atom by its index
    ([GetIdx]) and its PDB name. *)
Definition rdkit_atoms (self : Solvent.t) : py jvalue (list (nat * string)) :=
  match _rdkit_molecule (Solvent._molecule self) with
  | Some rdkit_molecule => mret (enumerate (rd_atom_names rdkit_molecule))
  | None => raise AttributeError
  end.

(** [_SolventWrapper.to_dict]; the state of the computation is [data]. *)
Definition to_dict_steps (self : Solvent.t) : py jvalue unit :=
  let molecule_name := _name (Solvent._molecule self) in
  assign [] "SolventParameters" (JDict []);;
  assign ["SolventParameters"] "Name"
    (JVal (match Solvent.name self with
           | Some name => PyStr name
           | None => PyNone
           end));;
  assign ["SolventParameters"] "General" (JDict []);;
  assign ["SolventParameters"; "General"] "solvent_dielectric"
    (JVal (round (Solvent._solvent_dielectric self) 5));;
  assign ["SolventParameters"; "General"] "solute_dielectric"
    (JVal (round (Solvent._solute_dielectric self) 5));;
  assign ["SolventParameters"; "General"] "solvent_radius"
    (JVal (round (value_in_unit (Solvent._solvent_radius self) angstrom) 5));;
  assign ["SolventParameters"; "General"] "surface_area_penalty"
    (JVal (round (value_in_unit (Solvent._surface_area_penalty self)
                    kilocalorie_per_angstrom2_mole) 8));;
  assign ["SolventParameters"] molecule_name (JDict []);;
  atoms ← rdkit_atoms self;
  for_ atoms (λ '(index, pdb_name),
    let name := replace " "%char "_"%char pdb_name in
    radius ← getitem (Solvent.radii self) [index];
    scale ← getitem (Solvent.scales self) [index];
    assign ["SolventParameters"; molecule_name] name
      (atom_entry radius scale)).

Definition to_dict (self : Solvent.t) : outcome jvalue :=
  match to_dict_steps self (JDict []) with
  | (Ok _, data) => Ok data
  | (Raise e, _) => Raise e
  end.

(** The entry ['General'] of the dictionary. *)
Definition general_entry (self : Solvent.t) : jvalue :=
  JDict
    [ ("solvent_dielectric",
       JVal (round (Solvent._solvent_dielectric self) 5));
      ("solute_dielectric",
       JVal (round (Solvent._solute_dielectric self) 5));
      ("solvent_radius",
       JVal (round (value_in_unit (Solvent._solvent_radius self) angstrom) 5));
      ("surface_area_penalty",
       JVal (round (value_in_unit (Solvent._surface_area_penalty self)
                      kilocalorie_per_angstrom2_mole) 8)) ].

Definition name_entry (self : Solvent.t) : jvalue :=
  JVal (match Solvent.name self with
        | Some name => PyStr name
        | None => PyNone
        end).

(** The value for the atom at position [x.1] with PDB name [x.2], when the
    wrapper holds a radius and a scale for it. *)
Definition atom_item (self : Solvent.t) (x : nat * string)
    : option (string * jvalue) :=
  radius ← dict_lookup [x.1] (Solvent.radii self);
  scale ← dict_lookup [x.1] (Solvent.scales self);
  Some (replace " "%char "_"%char x.2, atom_entry radius scale).

(** The table of the atoms: the items assigned one after the other. *)
Definition atom_table (items : list (string * jvalue))
    : list (string * jvalue) :=
  foldl (λ table item, dict_set item.1 item.2 table) [] items.

(** [data] once the name, the general parameters and a table for the
    molecule are in place. *)
Definition data_with (self : Solvent.t) (table : list (string * jvalue))
    : jvalue :=
  JDict
    [ ("SolventParameters",
       JDict (dict_set (_name (Solvent._molecule self)) (JDict table)
                [ ("Name", name_entry self);
                  ("General", general_entry self) ])) ].

End to_dict.

(** ** More sample data *)

Module Sample.

Definition bond_parameters : dict (nat * nat) pyval :=
  [ ((0, 1), PyNone); ((1, 2), PyNone); ((2, 3), PyNone); ((3, 4), PyNone) ].
Definition bond_ks : dict (nat * nat) pyval :=
  [ ((0, 1), PyFloat 300); ((1, 2), PyFloat 310); ((2, 3), PyFloat 300);
    ((3, 4), PyFloat 570) ].
Definition bond_lengths : dict (nat * nat) pyval :=
  [ ((3, 4), PyFloat (6 # 5)); ((0, 1), PyFloat (3 # 2));
    ((1, 2), PyFloat (3 # 2)); ((2, 3), PyFloat (3 # 2));
    ((7, 8), PyFloat 1) ].

(** No spring constant for the third bond. *)
Definition bond_ks_gap : dict (nat * nat) pyval :=
  [ ((0, 1), PyFloat 300); ((1, 2), PyFloat 310); ((3, 4), PyFloat 570) ].

Definition angle_parameters : dict (nat * nat * nat) pyval :=
  [ ((0, 1, 2), PyNone); ((1, 2, 3), PyNone); ((2, 3, 4), PyNone) ].
Definition angle_ks : dict (nat * nat * nat) pyval :=
  [ ((0, 1, 2), PyFloat 50); ((1, 2, 3), PyFloat 50);
    ((2, 3, 4), PyFloat 70) ].
Definition angle_angles : dict (nat * nat * nat) pyval :=
  [ ((0, 1, 2), PyFloat (19 # 10)); ((1, 2, 3), PyFloat (19 # 10));
    ((2, 3, 4), PyFloat (21 # 10)) ].

(** No equilibrium angle for the second angle. *)
Definition angle_angles_gap : dict (nat * nat * nat) pyval :=
  [ ((0, 1, 2), PyFloat (19 # 10)); ((2, 3, 4), PyFloat (21 # 10)) ].

Definition bonded : BondedTables := {|
  get_bond_lengths := λ _, bond_lengths;
  get_bond_ks := λ _, bond_ks;
  get_bond_parameters := λ _, bond_parameters;
  get_angle_angles := λ _, angle_angles;
  get_angle_ks := λ _, angle_ks;
  get_angle_parameters := λ _, angle_parameters
|}.

Definition bonded_gap : BondedTables := {|
  get_bond_lengths := λ _, bond_lengths;
  get_bond_ks := λ _, bond_ks_gap;
  get_bond_parameters := λ _, bond_parameters;
  get_angle_angles := λ _, angle_angles_gap;
  get_angle_ks := λ _, angle_ks;
  get_angle_parameters := λ _, angle_parameters
|}.

(** The phase, force-constant and divisor dicts of the first periodicity
    term list their two keys the other way round. *)
Definition phases_swapped : list (dict quad pyval) :=
  [ [(Example.q2, PyFloat 180); (Example.q1, PyFloat 180)];
    [(Example.q1, PyFloat 180)] ].
Definition ks_swapped : list (dict quad pyval) :=
  [ [(Example.q2, PyFloat 0); (Example.q1, PyFloat (3 # 2))];
    [(Example.q1, PyFloat (1 # 2))] ].
Definition idivfs_swapped : list (dict quad pyval) :=
  [ [(Example.q2, PyFloat 1); (Example.q1, PyFloat 1)];
    [(Example.q1, PyFloat 1)] ].

Definition params_swapped : Parameters := {|
  get_vdW_parameters := Example.vdW_keys;
  get_vdW_sigmas := Example.sigmas;
  get_vdW_sigmas_from_rmin_halves := Example.sigmas_from_rmin_halves;
  get_vdW_epsilons := Example.epsilons;
  get_dihedral_periodicities := Example.periodicities;
  get_dihedral_phases := phases_swapped;
  get_dihedral_ks := ks_swapped;
  get_dihedral_idivfs := idivfs_swapped;
  get_improper_periodicities := Example.periodicities;
  get_improper_phases := phases_swapped;
  get_improper_ks := ks_swapped;
  get_improper_idivfs := idivfs_swapped;
  get_GBSA_radii := [];
  get_GBSA_scales := []
|}.

(** Toolkits that answer with the tables of the small molecule. *)
Definition toolkits : @ForceFieldToolkits Example.topology := {|
  get_parameters_from_forcefield := λ _ _, Ok Example.params;
  compute_partial_charges_am1bcc :=
    λ _, Ok (partial_charges Example.off_molecule);
  path_stem := λ _, "openff_unconstrained-1.2.0"
|}.

(** A molecule loaded from a PDB file and not yet parameterized. *)
Definition loaded : @Molecule Example.topology :=
  @mkMolecule Example.topology "LIG" None [] [] [] [] [] [] []
    (Some Example.rdkit_molecule) (Some Example.off_molecule) None None None.

(** Numbers are left as they are. *)
Definition numerics : Numerics := {|
  round := λ v _, v;
  value_in_unit := λ v _, v
|}.

(** Three atoms, two of them with the same PDB name. *)
Definition rdkit_water : RDKitMolecule := {|
  rd_atom_names := [" H1 "; " O1 "; " H1 "];
  rd_coordinates :=
    [ (PyFloat 1, PyFloat 0, PyFloat 0); (PyFloat 0, PyFloat 0, PyFloat 0);
      (PyFloat 0, PyFloat 1, PyFloat 0) ]
|}.

Definition water : @Molecule Example.topology :=
  @mkMolecule Example.topology "HOH" None [] [] [] [] [] [] []
    (Some rdkit_water) (Some Example.off_molecule) None None None.

Definition radii : dict akey pyval :=
  [ ([0], PyFloat (6 # 5)); ([1], PyFloat (3 # 2)); ([2], PyFloat (13 # 10)) ].
Definition scales : dict akey pyval :=
  [ ([0], PyFloat (17 # 20)); ([1], PyFloat (17 # 20));
    ([2], PyFloat (9 # 10)) ].

Definition wrapper : @Solvent.t Example.topology :=
  @Solvent.mk Example.topology
    {| Solvent._ff_file := Some "forcefields/GBSA_OBC1-1.0.offxml";
       Solvent._name := Some "OBC2" |}
    water radii scales (PyFloat (157 # 2)) (PyFloat 1) (PyFloat (1 # 200))
    (PyFloat (7 # 5)).

(** The same wrapper without a scale for the last atom. *)
Definition wrapper_gap : @Solvent.t Example.topology :=
  @Solvent.mk Example.topology
    {| Solvent._ff_file := Some "forcefields/GBSA_OBC1-1.0.offxml";
       Solvent._name := Some "OBC2" |}
    water radii [ ([0], PyFloat (17 # 20)); ([1], PyFloat (17 # 20)) ]
    (PyFloat (157 # 2)) (PyFloat 1) (PyFloat (1 # 200)) (PyFloat (7 # 5)).

(** The GBSA tables of the water molecule, and a toolkit that answers with
    them. *)
Definition gbsa_parameters : Parameters := {|
  get_vdW_parameters := [];
  get_vdW_sigmas := [];
  get_vdW_sigmas_from_rmin_halves := [];
  get_vdW_epsilons := [];
  get_dihedral_periodicities := [];
  get_dihedral_phases := [];
  get_dihedral_ks := [];
  get_dihedral_idivfs := [];
  get_improper_periodicities := [];
  get_improper_phases := [];
  get_improper_ks := [];
  get_improper_idivfs := [];
  get_GBSA_radii := radii;
  get_GBSA_scales := scales
|}.

Definition gbsa_handler : Solvent.GBSAHandler := {|
  Solvent.solvent_dielectric := PyFloat (157 # 2);
  Solvent.solute_dielectric := PyFloat 1;
  Solvent.surface_area_penalty := PyFloat (1 # 200);
  Solvent.solvent_radius := PyFloat (7 # 5)
|}.

Definition gbsa_toolkit : @Solvent.Toolkit Example.topology := {|
  Solvent.get_data_file_path := λ path, path;
  Solvent.get_parameter_handler_from_forcefield := λ _ _, Ok gbsa_handler;
  Solvent.get_parameters_from_forcefield := λ _ _, Ok gbsa_parameters
|}.

End Sample.

(** ** Lemmas on the monad and on dicts *)

Section monad_lemmas.
Context {S : Type}.

Lemma bind_ok {A B} (c : py S A) (f : A → py S B) s a s' :
  c s = (Ok a, s') → (c ≫= f) s = f a s'.
Proof. intros Hc. unfold mbind, py_bind. by rewrite Hc. Qed.

Lemma bind_raise {A B} (c : py S A) (f : A → py S B) s e s' :
  c s = (Raise e, s') → (c ≫= f) s = (Raise e, s').
Proof. intros Hc. unfold mbind, py_bind. by rewrite Hc. Qed.

(** A loop whose body appends the records [f x] runs to the end and leaves
    the object with all of them appended, in order. *)
Lemma for_pushes {A R} (push : S → R → S) (f : A → list R)
    (body : A → py S unit) (xs : list A) s :
  (∀ x s, x ∈ xs → body x s = (Ok tt, foldl push s (f x))) →
  for_ xs body s = (Ok tt, foldl push s (xs ≫= f)).
Proof.
  revert s. induction xs as [|x xs IH]; intros s Hbody; simpl.
  - reflexivity.
  - rewrite (bind_ok _ _ _ tt (foldl push s (f x))).
    + rewrite IH, foldl_app; [done|]. intros y s' Hy. apply Hbody. by right.
    + apply Hbody. by left.
Qed.

End monad_lemmas.

Section dict_lemmas.
Context {K : Type} `{EqDecision K}.

Lemma dict_lookup_is_Some {V} (d : dict K V) k :
  k ∈ keys d → is_Some (dict_lookup k d).
Proof.
  induction d as [|[k' v] d IH]; simpl.
  - intros Hk. by apply elem_of_nil in Hk.
  - intros Hk. destruct (decide (k' = k)); [by eexists|].
    apply IH. apply elem_of_cons in Hk as [Hk|Hk]; [congruence|done].
Qed.

Lemma keys_eq_subseteq {V W} (a : dict K V) (b : dict K W) :
  keys_eq a b = true → ∀ k, k ∈ keys a → k ∈ keys b.
Proof.
  unfold keys_eq. intros Heq k Hk.
  apply andb_true_iff in Heq as [_ Hall].
  rewrite forallb_forall in Hall. apply list_elem_of_In, Hall in Hk.
  unfold contains in Hk. by apply bool_decide_eq_true in Hk.
Qed.


End dict_lemmas.

(** ** The torsion loop nest *)

Section gen_build_lemmas.
Context `{Topology} {R : Type}.
Context (mkR : nat → nat → nat → nat → pyval → pyval → pyval → pyval → R).
Context (add : R → py Molecule unit) (push : Molecule → R → Molecule).
Hypothesis add_push : ∀ r m, add r m = (Ok tt, push m r).

Lemma consistent_lookups (t : term) index :
  consistent t = true → index ∈ keys t.1.1.1 → is_Some (entry t index).
Proof.
  destruct t as [[[pd ph] kd] dd]; simpl. unfold keys_agree.
  intros Hc Hin.
  apply andb_true_iff in Hc as [Hc Hd]. apply andb_true_iff in Hc as [Hp Hk].
  destruct (dict_lookup_is_Some pd index Hin) as [v1 E1].
  destruct (dict_lookup_is_Some ph index (keys_eq_subseteq _ _ Hp _ Hin))
    as [v2 E2].
  destruct (dict_lookup_is_Some kd index (keys_eq_subseteq _ _ Hk _ Hin))
    as [v3 E3].
  destruct (dict_lookup_is_Some dd index (keys_eq_subseteq _ _ Hd _ Hin))
    as [v4 E4].
  rewrite E1, E2, E3, E4. by eexists.
Qed.

Lemma gen_entry_body_run (t : term) index m :
  is_Some (entry t index) →
  gen_entry_body mkR add t index m
  = (Ok tt, foldl push m (entry_records mkR t index)).
Proof.
  destruct t as [[[pd ph] kd] dd], index as [[[a1 a2] a3] a4].
  unfold entry_records, gen_entry_body, entry, getitem. intros [e He].
  destruct (dict_lookup _ pd) as [v1|]; [|done].
  destruct (dict_lookup _ ph) as [v2|]; [|done].
  destruct (dict_lookup _ kd) as [v3|]; [|done].
  destruct (dict_lookup _ dd) as [v4|]; [|done].
  simpl. unfold mbind, py_bind, mret, py_ret. simpl.
  destruct (truthy v1 && truthy v2 && truthy v3 && truthy v4); simpl.
  - apply add_push.
  - reflexivity.
Qed.

Lemma gen_term_body_good (t : term) m :
  consistent t = true →
  gen_term_body mkR add t m = (Ok tt, foldl push m (term_records mkR t)).
Proof.
  intros Hc. unfold gen_term_body, term_records.
  pose proof (consistent_lookups t) as Hl.
  destruct t as [[[pd ph] kd] dd]. simpl in Hc. rewrite Hc. simpl.
  rewrite (bind_ok _ _ _ tt m) by reflexivity.
  apply for_pushes. intros index s Hin. apply gen_entry_body_run.
  by apply Hl.
Qed.

Lemma gen_term_body_bad (t : term) m :
  consistent t = false →
  gen_term_body mkR add t m = (Raise (AssertionError keys_msg), m).
Proof.
  intros Hc. unfold gen_term_body. destruct t as [[[pd ph] kd] dd].
  simpl in Hc. by rewrite Hc.
Qed.

Lemma gen_terms_run (ts : list term) m :
  for_ ts (gen_term_body mkR add) m
  = (if forallb consistent ts then Ok tt
     else Raise (AssertionError keys_msg),
     foldl push m (consistent_prefix ts ≫= term_records mkR)).
Proof.
  revert m. induction ts as [|t ts IH]; intros m; simpl; [done|].
  destruct (consistent t) eqn:Hc; simpl.
  - rewrite (bind_ok _ _ _ tt _ (gen_term_body_good t m Hc)).
    by rewrite IH, foldl_app.
  - by rewrite (bind_raise _ _ _ _ _ (gen_term_body_bad t m Hc)).
Qed.

Lemma gen_build_run lengths_msg periodicities phases ks idivfs m :
  let idivfs' := default_idivfs periodicities idivfs in
  gen_build mkR add lengths_msg periodicities phases ks idivfs m
  = (torsion_outcome lengths_msg periodicities phases ks idivfs',
     foldl push m
       (processed periodicities phases ks idivfs' ≫= term_records mkR)).
Proof.
  intros idivfs'. unfold gen_build, torsion_outcome, processed.
  fold idivfs'.
  destruct (lengths_agree periodicities phases ks idivfs'); simpl.
  - rewrite (bind_ok _ _ _ tt m) by reflexivity. apply gen_terms_run.
  - reflexivity.
Qed.

End gen_build_lemmas.

(** ** The two torsion builders *)

Section torsion_builders.
Context `{Topology}.

Lemma foldl_push_proper m recs :
  foldl push_proper m recs
  = upd_OFF_propers (λ l, l ++ recs)
      (upd_propers (λ l, l ++ (proper_to_PELE <$> recs)) m).
Proof.
  revert m. induction recs as [|r recs IH]; intros m.
  - destruct m. unfold upd_OFF_propers, upd_propers. simpl.
    by rewrite !app_nil_r.
  - simpl. rewrite IH. destruct m.
    unfold push_proper, upd_OFF_propers, upd_propers. simpl.
    by rewrite <- !app_assoc.
Qed.

Lemma foldl_push_improper m recs :
  foldl push_improper m recs
  = upd_OFF_impropers (λ l, l ++ recs)
      (upd_impropers (λ l, l ++ (improper_to_PELE <$> recs)) m).
Proof.
  revert m. induction recs as [|r recs IH]; intros m.
  - destruct m. unfold upd_OFF_impropers, upd_impropers. simpl.
    by rewrite !app_nil_r.
  - simpl. rewrite IH. destruct m.
    unfold push_improper, upd_OFF_impropers, upd_impropers. simpl.
    by rewrite <- !app_assoc.
Qed.

(** [_build_propers] is the loop nest with [OFFProper] and the two proper
    lists. *)
Lemma _build_propers_gen m params :
  parameters m = Some params →
  _build_propers m
  = gen_build OFFProper.mk add_proper proper_lengths_msg
      (get_dihedral_periodicities params) (get_dihedral_phases params)
      (get_dihedral_ks params) (get_dihedral_idivfs params) m.
Proof.
  intros Hp. unfold _build_propers.
  rewrite (bind_ok _ _ _ params m); [reflexivity|].
  unfold self_parameters. by rewrite Hp.
Qed.

Lemma _build_impropers_gen m params :
  parameters m = Some params →
  _build_impropers m
  = gen_build OFFImproper.mk add_improper improper_lengths_msg
      (get_improper_periodicities params) (get_improper_phases params)
      (get_improper_ks params) (get_improper_idivfs params) m.
Proof.
  intros Hp. unfold _build_impropers.
  rewrite (bind_ok _ _ _ params m); [reflexivity|].
  unfold self_parameters. by rewrite Hp.
Qed.

(** The run of [_build_propers]: how it ends and what it has appended. *)
Lemma _build_propers_run m params :
  parameters m = Some params →
  let recs := proper_terms params ≫= term_records OFFProper.mk in
  _build_propers m
  = (torsion_outcome proper_lengths_msg
       (get_dihedral_periodicities params) (get_dihedral_phases params)
       (get_dihedral_ks params)
       (default_idivfs (get_dihedral_periodicities params)
          (get_dihedral_idivfs params)),
     upd_OFF_propers (λ l, l ++ recs)
       (upd_propers (λ l, l ++ (proper_to_PELE <$> recs)) m)).
Proof.
  intros Hp recs. rewrite (_build_propers_gen m params Hp).
  rewrite (gen_build_run OFFProper.mk add_proper push_proper); [|done].
  by rewrite foldl_push_proper.
Qed.

Lemma _build_impropers_run m params :
  parameters m = Some params →
  let recs := improper_terms params ≫= term_records OFFImproper.mk in
  _build_impropers m
  = (torsion_outcome improper_lengths_msg
       (get_improper_periodicities params) (get_improper_phases params)
       (get_improper_ks params)
       (default_idivfs (get_improper_periodicities params)
          (get_improper_idivfs params)),
     upd_OFF_impropers (λ l, l ++ recs)
       (upd_impropers (λ l, l ++ (improper_to_PELE <$> recs)) m)).
Proof.
  intros Hp recs. rewrite (_build_impropers_gen m params Hp).
  rewrite (gen_build_run OFFImproper.mk add_improper push_improper); [|done].
  by rewrite foldl_push_improper.
Qed.


End torsion_builders.

(** ** Facts about the processed terms *)


Lemma consistent_prefix_all (ts : list term) :
  forallb consistent ts = true → consistent_prefix ts = ts.
Proof.
  induction ts as [|t ts IH]; simpl; [done|].
  intros [Ht Hts]%andb_true_iff. rewrite Ht. f_equal. by apply IH.
Qed.




Lemma lengths_agree_spec {A B C D} (a : list A) (b : list B) (c : list C)
    (d : list D) :
  lengths_agree a b c d = true
  ↔ length a = length b ∧ length a = length c ∧ length a = length d.
Proof.
  unfold lengths_agree. rewrite !andb_true_iff, !bool_decide_eq_true. tauto.
Qed.

(** Mapping the records of a term is building them with another
    constructor. *)
Lemma fmap_term_records {R R'} (f : R → R')
    (mkR : nat → nat → nat → nat → pyval → pyval → pyval → pyval → R)
    (t : term) :
  f <$> term_records mkR t
  = term_records (λ a1 a2 a3 a4 p ph k d, f (mkR a1 a2 a3 a4 p ph k d)) t.
Proof.
  unfold term_records. induction (keys t.1.1.1) as [|index l IH]; [done|].
  rewrite !bind_cons, fmap_app, IH. f_equal.
  unfold entry_records. destruct (entry t index) as [[[[p ph] k] d]|]; [|done].
  destruct index as [[[a1 a2] a3] a4]. simpl.
  by destruct (truthy p && truthy ph && truthy k && truthy d).
Qed.

Lemma fmap_bind_term_records {R R'} (f : R → R')
    (mkR : nat → nat → nat → nat → pyval → pyval → pyval → pyval → R)
    (ts : list term) :
  f <$> (ts ≫= term_records mkR)
  = ts ≫= term_records
             (λ a1 a2 a3 a4 p ph k d, f (mkR a1 a2 a3 a4 p ph k d)).
Proof.
  induction ts as [|t ts IH]; [done|].
  by rewrite !bind_cons, fmap_app, IH, fmap_term_records.
Qed.


(** ** Properties of the torsion builders *)

Section torsion_claims.
Context `{Topology}.



(** C7.  Run on the same four tables, [_build_propers] and
    [_build_impropers] append record sequences with the same atom
    quadruples, periodicities, phases, force constants and divisors, in the
    same order; each stores the conversions of its records in its other
    list; and both runs end the same way, up to the wording of the message
    of the assertion on the lengths. *)
Theorem propers_impropers_same_logic (m m' : Molecule)
    (params params' : Parameters) :
  parameters m = Some params →
  parameters m' = Some params' →
  get_improper_periodicities params' = get_dihedral_periodicities params →
  get_improper_phases params' = get_dihedral_phases params →
  get_improper_ks params' = get_dihedral_ks params →
  get_improper_idivfs params' = get_dihedral_idivfs params →
  ∃ (recsP : list OFFProper.t) (recsI : list OFFImproper.t),
    _OFF_propers (_build_propers m).2 = _OFF_propers m ++ recsP
    ∧ _propers (_build_propers m).2
      = _propers m ++ (proper_to_PELE <$> recsP)
    ∧ _OFF_impropers (_build_impropers m').2 = _OFF_impropers m' ++ recsI
    ∧ _impropers (_build_impropers m').2
      = _impropers m' ++ (improper_to_PELE <$> recsI)
    ∧ proper_fields <$> recsP = improper_fields <$> recsI
    ∧ ∃ pds phs ks idv,
        (_build_propers m).1
        = torsion_outcome proper_lengths_msg pds phs ks idv
        ∧ (_build_impropers m').1
          = torsion_outcome improper_lengths_msg pds phs ks idv.
Proof.
  intros Hp Hp' E1 E2 E3 E4.
  exists (proper_terms params ≫= term_records OFFProper.mk),
         (improper_terms params' ≫= term_records OFFImproper.mk).
  rewrite (_build_propers_run m params Hp).
  rewrite (_build_impropers_run m' params' Hp'). simpl.
  repeat (split; [reflexivity|]). split.
  - unfold proper_terms, improper_terms. rewrite E1, E2, E3, E4.
    by rewrite !fmap_bind_term_records.
  - rewrite E1, E2, E3, E4. by eexists _, _, _, _.
Qed.

End torsion_claims.

(** ** An empty divisor table *)

Lemma default_idivfs_nil pds : default_idivfs pds [] = ones <$> pds.
Proof. reflexivity. Qed.

Lemma keys_ones pd : keys (ones pd) = keys pd.
Proof.
  unfold ones, keys at 1. apply fst_zip. by rewrite length_replicate.
Qed.

Lemma lookup_ones pd index :
  index ∈ keys pd → dict_lookup index (ones pd) = Some (PyInt 1).
Proof.
  unfold ones. induction (keys pd) as [|k l IH]; simpl.
  - intros Hin. by apply elem_of_nil in Hin.
  - intros Hin. destruct (decide (k = index)); [done|].
    apply IH. apply elem_of_cons in Hin as [Hin|Hin]; [congruence|done].
Qed.

Lemma keys_eq_ones pd : keys_eq pd (ones pd) = true.
Proof.
  unfold keys_eq. apply andb_true_iff. split.
  - apply bool_decide_eq_true. unfold ones, keys.
    rewrite length_zip, length_replicate, length_fmap. lia.
  - apply forallb_forall. intros index Hin. unfold contains.
    apply bool_decide_eq_true. rewrite keys_ones. by apply list_elem_of_In.
Qed.

Lemma zip4_ones pds phs ks :
  zip4 pds phs ks (ones <$> pds) = with_ones <$> zip (zip pds phs) ks.
Proof.
  revert phs ks. induction pds as [|pd pds IH]; intros phs ks; [done|].
  destruct phs as [|ph phs]; [done|]. destruct ks as [|kd ks]; [done|].
  simpl. f_equal. apply IH.
Qed.

Lemma consistent_with_ones t : consistent (with_ones t) = keys_agree3 t.
Proof.
  destruct t as [[pd ph] kd].
  unfold with_ones, consistent, keys_agree3, keys_agree. cbn [fst snd].
  by rewrite keys_eq_ones, andb_true_r.
Qed.

Lemma term_records_with_ones {R}
    (mkR : nat → nat → nat → nat → pyval → pyval → pyval → pyval → R) t :
  term_records mkR (with_ones t)
  = keys t.1.1 ≫= entry_records_default mkR t.
Proof.
  unfold term_records. apply Forall_bind_ext, Forall_forall.
  intros index Hin. destruct t as [[pd ph] kd]. simpl in *.
  unfold entry_records, entry_records_default, entry, with_ones. simpl.
  rewrite (lookup_ones pd index Hin).
  destruct (dict_lookup index pd) as [p|]; [|done].
  destruct (dict_lookup index ph) as [f|]; [|done].
  destruct (dict_lookup index kd) as [k|]; [|done].
  simpl. by rewrite andb_true_r.
Qed.

Lemma default_run {R}
    (mkR : nat → nat → nat → nat → pyval → pyval → pyval → pyval → R)
    lengths_msg pds phs ks :
  length phs = length pds → length ks = length pds →
  Forall (λ t, keys_agree3 t = true) (zip (zip pds phs) ks) →
  torsion_outcome lengths_msg pds phs ks (default_idivfs pds []) = Ok tt
  ∧ processed pds phs ks (default_idivfs pds []) ≫= term_records mkR
    = zip (zip pds phs) ks ≫= λ t,
        keys t.1.1 ≫= entry_records_default mkR t.
Proof.
  intros Hph Hks Hall. unfold torsion_outcome, processed.
  rewrite default_idivfs_nil.
  assert (Hlen : lengths_agree pds phs ks (ones <$> pds) = true).
  { apply lengths_agree_spec. rewrite length_fmap. lia. }
  assert (Hcons : forallb consistent (zip4 pds phs ks (ones <$> pds)) = true).
  { rewrite zip4_ones. apply forallb_forall. intros t Ht.
    apply list_elem_of_In, list_elem_of_fmap in Ht as (t3 & -> & Ht3).
    rewrite consistent_with_ones. rewrite Forall_forall in Hall.
    by apply Hall. }
  rewrite Hlen, Hcons. split; [done|].
  rewrite (consistent_prefix_all _ Hcons), zip4_ones, list_fmap_bind.
  apply list_bind_ext; [|done]. intros t. apply term_records_with_ones.
Qed.

Lemma entry_records_default_idivf {R}
    (mkR : nat → nat → nat → nat → pyval → pyval → pyval → pyval → R)
    (idivf_of : R → pyval) :
  (∀ a1 a2 a3 a4 p ph k d, idivf_of (mkR a1 a2 a3 a4 p ph k d) = d) →
  ∀ ts : list (dict quad pyval * dict quad pyval * dict quad pyval),
  Forall (λ r, idivf_of r = PyInt 1)
    (ts ≫= λ t, keys t.1.1 ≫= entry_records_default mkR t).
Proof.
  intros Hproj ts. apply Forall_bind, Forall_forall. intros t _. simpl.
  apply Forall_bind, Forall_forall. intros index _. simpl.
  destruct t as [[pd ph] kd], index as [[[a1 a2] a3] a4].
  unfold entry_records_default.
  destruct (dict_lookup _ pd) as [p|]; [|constructor].
  destruct (dict_lookup _ ph) as [f|]; [|constructor].
  destruct (dict_lookup _ kd) as [k|]; [|constructor].
  destruct (truthy p && truthy f && truthy k); [|constructor].
  constructor; [|constructor]. apply Hproj.
Qed.

Section default_claim.
Context `{Topology}.

(** C2.  When the divisor table of the provider is empty and the three other
    tables are consistent with one another, the builder runs to the end: for
    every entry whose periodicity, phase and force constant are truthy it
    appends one record, whose divisor is 1, and for the other entries none.
    No entry is dropped for want of a divisor, and every appended record has
    divisor 1.  This holds for propers and for impropers. *)
Theorem absent_idivf_defaults_to_one (m : Molecule) (params : Parameters) :
  parameters m = Some params →
  (let pds := get_dihedral_periodicities params in
   let phs := get_dihedral_phases params in
   let ks := get_dihedral_ks params in
   get_dihedral_idivfs params = [] →
   length phs = length pds → length ks = length pds →
   Forall (λ t, keys_agree3 t = true) (zip (zip pds phs) ks) →
   let recs := zip (zip pds phs) ks ≫= λ t,
                 keys t.1.1 ≫= entry_records_default OFFProper.mk t in
   _build_propers m
   = (Ok tt,
      upd_OFF_propers (λ l, l ++ recs)
        (upd_propers (λ l, l ++ (proper_to_PELE <$> recs)) m))
   ∧ Forall (λ r, OFFProper.idivf r = PyInt 1) recs)
  ∧ (let pds := get_improper_periodicities params in
     let phs := get_improper_phases params in
     let ks := get_improper_ks params in
     get_improper_idivfs params = [] →
     length phs = length pds → length ks = length pds →
     Forall (λ t, keys_agree3 t = true) (zip (zip pds phs) ks) →
     let recs := zip (zip pds phs) ks ≫= λ t,
                   keys t.1.1 ≫= entry_records_default OFFImproper.mk t in
     _build_impropers m
     = (Ok tt,
        upd_OFF_impropers (λ l, l ++ recs)
          (upd_impropers (λ l, l ++ (improper_to_PELE <$> recs)) m))
     ∧ Forall (λ r, OFFImproper.idivf r = PyInt 1) recs).
Proof.
  intros Hp. split.
  - intros pds phs ks Hnil Hph Hks Hall recs. split.
    + rewrite (_build_propers_run m params Hp). unfold proper_terms.
      fold pds phs ks. rewrite Hnil.
      destruct (default_run OFFProper.mk proper_lengths_msg pds phs ks
                  Hph Hks Hall) as [-> ->]. done.
    + by apply entry_records_default_idivf.
  - intros pds phs ks Hnil Hph Hks Hall recs. split.
    + rewrite (_build_impropers_run m params Hp). unfold improper_terms.
      fold pds phs ks. rewrite Hnil.
      destruct (default_run OFFImproper.mk improper_lengths_msg pds phs ks
                  Hph Hks Hall) as [-> ->]. done.
    + by apply entry_records_default_idivf.
Qed.

End default_claim.

(** ** The atom builder *)

Section atom_lemmas.
Context `{Topology}.

Lemma _build_atoms_unfold :
  _build_atoms
  = (names ← get_pdb_atom_names;
     params ← self_parameters;
     coords ← get_coordinates;
     SASA_radii ← halve_all (select_sigmas params);
     for_ (keys (get_vdW_parameters params))
       (atom_body (pdb_names_table names) (none_by_index params) coords
          (select_sigmas params) (get_vdW_epsilons params) SASA_radii)).
Proof. reflexivity. Qed.

Lemma foldl_snoc_id {A} (l acc : list A) :
  foldl (λ acc x, acc ++ [x]) acc l = acc ++ l.
Proof.
  revert acc. induction l as [|x l IH]; intros acc; simpl.
  - by rewrite app_nil_r.
  - by rewrite IH, <- app_assoc.
Qed.

Lemma get_pdb_atom_names_run m off rd :
  _off_molecule m = Some off → _rdkit_molecule m = Some rd →
  get_pdb_atom_names m = (Ok (rd_atom_names rd), m).
Proof.
  intros Hoff Hrd. unfold get_pdb_atom_names, _assert_parameterized.
  unfold try_except, mbind, py_bind, get_self, py_assert, mret, py_ret.
  rewrite Hoff. rewrite bool_decide_eq_true_2 by by eexists.
  rewrite Hrd. by rewrite foldl_snoc_id.
Qed.

Lemma none_by_index_lookup params index v :
  dict_lookup index (none_by_index params) = Some v → v = PyNone.
Proof.
  unfold none_by_index. induction (keys (get_vdW_parameters params)) as [|k l IH];
    simpl; [done|].
  destruct (decide (k = index)); [congruence|done].
Qed.

Lemma pdb_names_table_lookup_gen (g : nat → nat) (f : string → string)
    (names : list string) i v :
  dict_lookup [i] (imap (λ j name, ([g j], f name)) names) = Some v →
  ∃ j name, g j = i ∧ names !! j = Some name ∧ v = f name.
Proof.
  revert g. induction names as [|name names IH]; intros g; simpl; [done|].
  destruct (decide ([g 0] = [i])) as [Heq|Hne].
  - intros [= <-]. exists 0, name. split; [congruence|]. by split.
  - intros Hl. destruct (IH (g ∘ S) Hl) as (j & name' & Hg & Hj & ->).
    by exists (S j), name'.
Qed.

Lemma pdb_names_table_lookup names i v :
  dict_lookup [i] (pdb_names_table names) = Some v →
  ∃ name, names !! i = Some name ∧ v = replace " "%char "_"%char name.
Proof.
  intros Hl.
  destruct (pdb_names_table_lookup_gen id _ names i v Hl)
    as (j & name & <- & Hj & ->).
  by exists name.
Qed.

Lemma halve_all_run (sigmas : dict akey pyval) (s : Molecule) :
  (∃ e, halve_all sigmas s = (Raise e, s))
  ∨ (∃ radii, halve_all sigmas s = (Ok radii, s)
       ∧ keys radii = keys sigmas
       ∧ ∀ index r, dict_lookup index radii = Some r →
           ∃ j q, dict_lookup index sigmas = Some j ∧ numeric j = Some q
                  ∧ r = PyFloat (q / 2)%Q).
Proof.
  unfold halve_all. induction sigmas as [|[i j] sigmas IH]; simpl.
  - right. exists []. by repeat split.
  - unfold mbind, py_bind, truediv_2 in *.
    destruct (numeric j) as [q|] eqn:Hq; simpl; [|left; by eexists].
    destruct IH as [[e ->]|(radii & -> & Hk & Hl)]; [left; by eexists|].
    right. exists ((i, PyFloat (q / 2)%Q) :: radii).
    split; [done|]. split; [simpl; by f_equal|].
    intros index r. simpl. destruct (decide (i = index)).
    + intros [= <-]. by exists j, q.
    + apply Hl.
Qed.

(** Case analysis on the next dict lookup of a loop body; a failed lookup
    raises at once. *)
Ltac destruct_lookup E :=
  match goal with
  | |- context [match @dict_lookup ?K ?D ?V ?k ?d with _ => _ end] =>
      destruct (@dict_lookup K D V k d) eqn:E;
      [|left; eexists; reflexivity]
  end.

(** One turn of the loop either raises and leaves the molecule as it was, or
    appends one atom. *)
Lemma atom_body_run params off rd SASA_radii index s :
  _off_molecule s = Some off →
  (∀ idx r, dict_lookup idx SASA_radii = Some r →
     ∃ j q, dict_lookup idx (select_sigmas params) = Some j
            ∧ numeric j = Some q ∧ r = PyFloat (q / 2)%Q) →
  index ∈ keys (get_vdW_parameters params) →
  let body :=
    atom_body (pdb_names_table (rd_atom_names rd)) (none_by_index params)
      (rd_coordinates rd) (select_sigmas params) (get_vdW_epsilons params)
      SASA_radii index in
  (∃ e, body s = (Raise e, s))
  ∨ (∃ a, body s = (Ok tt, upd_atoms (λ l, l ++ [a]) s)
          ∧ built_from params off rd a).
Proof.
  intros Hoff Hsasa Hin body. subst body. unfold atom_body.
  destruct index as [|i [|i' index]];
    [left; eexists; reflexivity| |left; eexists; reflexivity].
  unfold py_assert, tuple_getitem, array_getitem, getitem,
    self_partial_charges, get_self.
  unfold mbind, py_bind, mret, py_ret, raise.
  cbn -[pdb_names_table none_by_index select_sigmas dict_lookup].
  rewrite bool_decide_eq_true_2 by done.
  destruct_lookup Hname. destruct_lookup Hnone.
  apply none_by_index_lookup in Hnone as ->.
  destruct (rd_coordinates rd !! i) as [[[cx cy] cz]|] eqn:Hxyz;
    [|left; eexists; reflexivity].
  destruct_lookup Hsigma. destruct_lookup Heps.
  rewrite Hoff.
  destruct (partial_charges off !! i) as [charge|] eqn:Hcharge;
    [|left; eexists; reflexivity].
  destruct_lookup Hr.
  right. eexists. split; [reflexivity|].
  destruct (Hsasa _ _ Hr) as (j & q & Hj & Hq & ->).
  rewrite Hsigma in Hj. injection Hj as <-.
  apply pdb_names_table_lookup in Hname as (name' & Hname' & ->).
  exists i. simpl. repeat split; try done.
  - by exists q.
  - by exists name'.
Qed.

(** A loop of such turns appends atoms one after the other. *)
Lemma for_appends {A} (Inv : Molecule → Prop) (Q : Atom.t → Prop)
    (xs : list A) (body : A → py Molecule unit) :
  (∀ a s, Inv s → Inv (upd_atoms (λ l, l ++ [a]) s)) →
  (∀ x s, x ∈ xs → Inv s →
     (∃ e, body x s = (Raise e, s))
     ∨ (∃ a, body x s = (Ok tt, upd_atoms (λ l, l ++ [a]) s) ∧ Q a)) →
  ∀ s, Inv s →
    ∃ new, (for_ xs body s).2 = upd_atoms (λ l, l ++ new) s ∧ Forall Q new.
Proof.
  intros Hinv Hbody. induction xs as [|x xs IH]; intros s Hs; simpl.
  - exists []. split; [|constructor]. destruct s. unfold upd_atoms; simpl.
    by rewrite app_nil_r.
  - destruct (Hbody x s) as [[e He]|(a & Ha & HQ)]; [by left|done| |].
    + exists []. split; [|constructor].
      rewrite (bind_raise _ _ _ _ _ He). destruct s. unfold upd_atoms; simpl.
      by rewrite app_nil_r.
    + rewrite (bind_ok _ _ _ _ _ Ha).
      destruct (IH (λ y s' Hy, Hbody y s' (list_elem_of_further _ _ _ Hy))
                  (upd_atoms (λ l, l ++ [a]) s)) as (new & Hnew & HQs).
      { by apply Hinv. }
      exists (a :: new). split; [|by constructor].
      rewrite Hnew. destruct s. unfold upd_atoms; simpl.
      by rewrite <- app_assoc.
Qed.

(** The atoms appended by a run of [_build_atoms], whether the run ends or
    raises on the way. *)
Lemma _build_atoms_new m params off rd :
  parameters m = Some params → _off_molecule m = Some off →
  _rdkit_molecule m = Some rd →
  ∃ new, (_build_atoms m).2 = upd_atoms (λ l, l ++ new) m
         ∧ Forall (built_from params off rd) new.
Proof.
  intros Hp Hoff Hrd. rewrite _build_atoms_unfold.
  assert (Hnil : m = upd_atoms (λ l, l ++ []) m).
  { destruct m. unfold upd_atoms; simpl. by rewrite app_nil_r. }
  rewrite (bind_ok _ _ _ _ _ (get_pdb_atom_names_run m off rd Hoff Hrd)).
  rewrite (bind_ok _ _ _ params m) by (unfold self_parameters; by rewrite Hp).
  rewrite (bind_ok _ _ _ (rd_coordinates rd) m)
    by (unfold get_coordinates, get_self, mbind, py_bind; by rewrite Hrd).
  destruct (halve_all_run (select_sigmas params) m)
    as [[e He]|(radii & Hrun & _ & Hl)].
  - rewrite (bind_raise _ _ _ _ _ He). exists []. by split; [|constructor].
  - rewrite (bind_ok _ _ _ _ _ Hrun).
    apply (for_appends (λ s, _off_molecule s = Some off)); [done| |done].
    intros index s Hin Hs. by apply atom_body_run.
Qed.

Lemma upd_atoms_atoms new (m : Molecule) :
  _atoms (upd_atoms (λ l, l ++ new) m) = _atoms m ++ new.
Proof. by destruct m. Qed.

(** *** Runs that end normally *)

Lemma getitem_ok {K} `{EqDecision K} {V S} (d : dict K V) k v (s : S) :
  dict_lookup k d = Some v → getitem d k s = (Ok v, s).
Proof. intros Hl. unfold getitem. by rewrite Hl. Qed.

Lemma array_getitem_ok {A S} (a : list A) i v (s : S) :
  a !! i = Some v → array_getitem a [i] s = (Ok v, s).
Proof. intros Hl. unfold array_getitem. by rewrite Hl. Qed.

Lemma none_by_index_lookup_ok params index :
  index ∈ keys (get_vdW_parameters params) →
  dict_lookup index (none_by_index params) = Some PyNone.
Proof.
  intros Hin.
  destruct (dict_lookup_is_Some (none_by_index params) index) as [v Hv].
  - unfold none_by_index, keys at 1.
    by rewrite <- list_fmap_compose, list_fmap_id.
  - by rewrite Hv, (none_by_index_lookup _ _ _ Hv).
Qed.

Lemma pdb_names_table_lookup_ok names i :
  i < length names → is_Some (dict_lookup [i] (pdb_names_table names)).
Proof.
  intros Hi. apply dict_lookup_is_Some. unfold pdb_names_table, keys.
  rewrite fmap_imap. destruct (lookup_lt_is_Some_2 names i Hi) as [name Hn].
  apply (elem_of_lookup_imap_2
           (λ n, fst ∘ (λ name, ([n], replace " "%char "_"%char name)))
           names name i Hn).
Qed.

Lemma halve_all_ok (sigmas : dict akey pyval) (s : Molecule) :
  Forall (λ v, is_Some (numeric v)) (values sigmas) →
  ∃ radii, halve_all sigmas s = (Ok radii, s)
    ∧ keys radii = keys sigmas
    ∧ ∀ index r, dict_lookup index radii = Some r →
        ∃ j q, dict_lookup index sigmas = Some j ∧ numeric j = Some q
               ∧ r = PyFloat (q / 2)%Q.
Proof.
  intros Hnum. destruct (halve_all_run sigmas s) as [[e He]|Hok]; [|done].
  exfalso. revert e He. unfold halve_all.
  induction sigmas as [|[i j] sigmas IH]; intros e; simpl; [done|].
  apply Forall_cons in Hnum as [[q Hq] Hnum]. simpl in Hq.
  unfold mbind, py_bind, truediv_2 in *. rewrite Hq. simpl.
  destruct (comprehension _ sigmas s) as [[radii|e'] s'] eqn:Hc; [done|].
  intros [= -> ->]. by apply (IH Hnum e).
Qed.

Lemma atom_body_ok params off rd SASA_radii i s :
  _off_molecule s = Some off →
  keys SASA_radii = keys (select_sigmas params) →
  [i] ∈ keys (get_vdW_parameters params) →
  i < length (rd_atom_names rd) → i < length (rd_coordinates rd) →
  i < length (partial_charges off) →
  [i] ∈ keys (select_sigmas params) → [i] ∈ keys (get_vdW_epsilons params) →
  ∃ a,
    atom_body (pdb_names_table (rd_atom_names rd)) (none_by_index params)
      (rd_coordinates rd) (select_sigmas params) (get_vdW_epsilons params)
      SASA_radii [i] s
    = (Ok tt, upd_atoms (λ l, l ++ [a]) s).
Proof.
  intros Hoff Hkeys Hin Hname Hxyz Hcharge Hsigma Heps.
  destruct (pdb_names_table_lookup_ok _ i Hname) as [name Hn].
  pose proof (none_by_index_lookup_ok params [i] Hin) as Hnone.
  destruct (lookup_lt_is_Some_2 _ _ Hxyz) as [xyz Hx].
  destruct (dict_lookup_is_Some _ _ Hsigma) as [sigma Hsg].
  destruct (dict_lookup_is_Some _ _ Heps) as [eps He].
  destruct (lookup_lt_is_Some_2 _ _ Hcharge) as [charge Hc].
  destruct (dict_lookup_is_Some SASA_radii [i]) as [r Hr];
    [by rewrite Hkeys|].
  eexists. unfold atom_body.
  rewrite (bind_ok _ _ s tt s) by reflexivity.
  rewrite (bind_ok _ _ s i s) by reflexivity.
  rewrite (bind_ok _ _ _ _ _ (getitem_ok _ _ _ s Hn)).
  rewrite (bind_ok _ _ _ _ _ (getitem_ok _ _ _ s Hnone)).
  rewrite (bind_ok _ _ _ _ _ (getitem_ok _ _ _ s Hnone)).
  rewrite (bind_ok _ _ _ _ _ (array_getitem_ok _ _ _ s Hx)).
  rewrite (bind_ok _ _ _ _ _ (getitem_ok _ _ _ s Hsg)).
  rewrite (bind_ok _ _ _ _ _ (getitem_ok _ _ _ s He)).
  rewrite (bind_ok _ _ s (partial_charges off) s)
    by (unfold self_partial_charges, get_self, mbind, py_bind;
        by rewrite Hoff).
  rewrite (bind_ok _ _ _ _ _ (array_getitem_ok _ _ _ s Hc)).
  rewrite (bind_ok _ _ _ _ _ (getitem_ok _ _ _ s Hnone)).
  rewrite (bind_ok _ _ _ _ _ (getitem_ok _ _ _ s Hr)).
  rewrite (bind_ok _ _ _ _ _ (getitem_ok _ _ _ s Hnone)).
  rewrite (bind_ok _ _ _ _ _ (getitem_ok _ _ _ s Hnone)).
  reflexivity.
Qed.

Lemma for_appends_ok {A} (Inv : Molecule → Prop) (Q : Atom.t → Prop)
    (xs : list A) (body : A → py Molecule unit) :
  (∀ a s, Inv s → Inv (upd_atoms (λ l, l ++ [a]) s)) →
  (∀ x s, x ∈ xs → Inv s →
     ∃ a, body x s = (Ok tt, upd_atoms (λ l, l ++ [a]) s) ∧ Q a) →
  ∀ s, Inv s →
    ∃ new, for_ xs body s = (Ok tt, upd_atoms (λ l, l ++ new) s)
           ∧ length new = length xs ∧ Forall Q new.
Proof.
  intros Hinv Hbody. induction xs as [|x xs IH]; intros s Hs; simpl.
  - exists []. repeat split; [|constructor]. destruct s.
    unfold upd_atoms, mret, py_ret; simpl. by rewrite app_nil_r.
  - destruct (Hbody x s) as (a & Ha & HQ); [by left|done|].
    rewrite (bind_ok _ _ _ _ _ Ha).
    destruct (IH (λ y s' Hy, Hbody y s' (list_elem_of_further _ _ _ Hy))
                (upd_atoms (λ l, l ++ [a]) s)) as (new & Hnew & Hlen & HQs).
    { by apply Hinv. }
    exists (a :: new). split; [|split; [simpl; by f_equal|by constructor]].
    rewrite Hnew. destruct s. unfold upd_atoms; simpl.
    by rewrite <- app_assoc.
Qed.

(** On complete tables [_build_atoms] ends normally and appends one atom per
    key of the van der Waals table. *)
Lemma _build_atoms_ok m params off rd :
  parameters m = Some params → _off_molecule m = Some off →
  _rdkit_molecule m = Some rd →
  atom_tables_complete params off rd →
  ∃ new, _build_atoms m = (Ok tt, upd_atoms (λ l, l ++ new) m)
         ∧ length new = length (get_vdW_parameters params)
         ∧ Forall (built_from params off rd) new.
Proof.
  intros Hp Hoff Hrd [Hnum Hkeys]. rewrite _build_atoms_unfold.
  rewrite (bind_ok _ _ _ _ _ (get_pdb_atom_names_run m off rd Hoff Hrd)).
  rewrite (bind_ok _ _ _ params m) by (unfold self_parameters; by rewrite Hp).
  rewrite (bind_ok _ _ _ (rd_coordinates rd) m)
    by (unfold get_coordinates, get_self, mbind, py_bind; by rewrite Hrd).
  destruct (halve_all_ok (select_sigmas params) m Hnum)
    as (radii & Hrun & Hk & Hl).
  rewrite (bind_ok _ _ _ _ _ Hrun).
  destruct (for_appends_ok (λ s, _off_molecule s = Some off)
              (built_from params off rd) (keys (get_vdW_parameters params))
              (atom_body (pdb_names_table (rd_atom_names rd))
                 (none_by_index params) (rd_coordinates rd)
                 (select_sigmas params) (get_vdW_epsilons params) radii))
    with (s := m) as (new & Hnew & Hlen & HQ); [done| |done|].
  - intros index s Hin Hs. rewrite Forall_forall in Hkeys.
    destruct (Hkeys index Hin) as (i & -> & Hn & Hx & Hc & Hsg & He).
    destruct (atom_body_ok params off rd radii i s Hs Hk Hin Hn Hx Hc Hsg He)
      as [a Ha].
    exists a. split; [done|].
    destruct (atom_body_run params off rd radii [i] s Hs Hl Hin)
      as [[e He']|(a' & Ha' & Hb)]; [congruence|].
    rewrite Ha in Ha'. injection Ha' as Heq.
    assert (a = a') as ->; [|done].
    by apply app_inv_head in Heq as [= ->].
  - exists new. split; [done|]. split; [|done].
    rewrite Hlen. unfold keys. by rewrite length_fmap.
Qed.

End atom_lemmas.

(** ** Properties of the atom builder *)

Section atom_claims.
Context `{Topology}.






End atom_claims.

(** ** Setters of Atom *)

Lemma graph_call_run_frame (atoms : list Atom.t) (c : graph_call) :
  atom_frame <$> graph_call_run atoms c = atom_frame <$> atoms.
Proof.
  destruct c as [i|i|i p]; simpl;
    (rewrite (list_fmap_alter atom_frame _ id);
     [by apply list_alter_id
     |apply Forall_forall; intros a _; reflexivity]).
Qed.

(** C8.  Each of [set_as_core], [set_as_branch] and [set_parent] writes its
    own field, [core] or [parent], and leaves the other of the two and the
    index, name, coordinates and all parameters of the atom as they were.
    Hence a second pass over the atoms of a molecule that is made of calls
    of these three setters leaves, atom by atom, everything but [core] and
    [parent] unchanged, and neither adds nor removes an atom. *)
Theorem setters_change_only_their_field (a : Atom.t) (p : option nat)
    (calls : list graph_call) (atoms : list Atom.t) :
  (Atom.core (Atom.set_as_core a) = PyBool true
   ∧ Atom.parent (Atom.set_as_core a) = Atom.parent a
   ∧ atom_frame (Atom.set_as_core a) = atom_frame a)
  ∧ (Atom.core (Atom.set_as_branch a) = PyBool false
     ∧ Atom.parent (Atom.set_as_branch a) = Atom.parent a
     ∧ atom_frame (Atom.set_as_branch a) = atom_frame a)
  ∧ (Atom.parent (Atom.set_parent p a) = p
     ∧ Atom.core (Atom.set_parent p a) = Atom.core a
     ∧ atom_frame (Atom.set_parent p a) = atom_frame a)
  ∧ atom_frame <$> rotamer_pass calls atoms = atom_frame <$> atoms
  ∧ length (rotamer_pass calls atoms) = length atoms.
Proof.
  do 3 (split; [by repeat split|]).
  assert (Hframe : atom_frame <$> rotamer_pass calls atoms
                   = atom_frame <$> atoms).
  { unfold rotamer_pass. revert atoms.
    induction calls as [|c calls IH]; intros atoms; simpl; [done|].
    by rewrite IH, graph_call_run_frame. }
  split; [done|].
  rewrite <- (length_fmap atom_frame (rotamer_pass calls atoms)), Hframe.
  apply length_fmap.
Qed.

(** ** Guards of the Molecule methods *)

Section guard_claims.
Context `{Topology} `{!Rotamer}.

Lemma _assert_parameterized_unset (m : Molecule) :
  _off_molecule m = None →
  _assert_parameterized m
  = (Raise (Exception "Molecule not parameterized"), m).
Proof.
  intros Hoff. unfold _assert_parameterized, try_except.
  unfold mbind, py_bind, get_self, py_assert. rewrite Hoff.
  rewrite bool_decide_eq_false_2; [done|]. by intros [? ?].
Qed.

(** C9.  On a molecule whose OpenForceField molecule is unset, both
    [build_rotamer_library] and [get_pdb_atom_names] raise the exception
    "Molecule not parameterized" and leave the molecule exactly as it was;
    in particular a rotamer library that was unset stays unset. *)
Theorem unparameterized_molecule_raises (m : Molecule) (resolution : pyval) :
  _off_molecule m = None →
  build_rotamer_library resolution m
  = (Raise (Exception "Molecule not parameterized"), m)
  ∧ get_pdb_atom_names m
    = (Raise (Exception "Molecule not parameterized"), m)
  ∧ (_rotamer_library m = None →
     _rotamer_library (build_rotamer_library resolution m).2 = None
     ∧ _rotamer_library (get_pdb_atom_names m).2 = None).
Proof.
  intros Hoff.
  assert (Hb : build_rotamer_library resolution m
               = (Raise (Exception "Molecule not parameterized"), m)).
  { unfold build_rotamer_library.
    by rewrite (bind_raise _ _ _ _ _ (_assert_parameterized_unset m Hoff)). }
  assert (Hg : get_pdb_atom_names m
               = (Raise (Exception "Molecule not parameterized"), m)).
  { unfold get_pdb_atom_names.
    by rewrite (bind_raise _ _ _ _ _ (_assert_parameterized_unset m Hoff)). }
  rewrite Hb, Hg. by repeat split.
Qed.

End guard_claims.

(** ** The two solvent wrappers *)

Section solvent_claims.
Context `{Solvent.Toolkit}.


End solvent_claims.

(** ** Runs on the small molecule *)

Example example_propers :
  _OFF_propers
    (@_build_propers Example.topology (Example.molecule Example.params)).2
  = [ OFFProper.mk 0 1 2 3 (PyInt 1) (PyFloat 180) (PyFloat (3 # 2))
        (PyFloat 1);
      OFFProper.mk 0 1 2 3 (PyInt 3) (PyFloat 180) (PyFloat (1 # 2))
        (PyFloat 1) ].
Proof. reflexivity. Qed.

Example example_atoms :
  (@_build_atoms Example.topology (Example.molecule Example.params)).1
  = Ok tt
  ∧ Atom.sigma
      <$> _atoms
            (@_build_atoms Example.topology
               (Example.molecule Example.params)).2
    = [PyFloat 3; PyFloat (7 # 2); PyFloat (17 # 5); PyFloat 3;
       PyFloat (7 # 2)]
  ∧ Atom.SASA_radius
      <$> _atoms
            (@_build_atoms Example.topology
               (Example.molecule Example.params)).2
    = [PyFloat (3 # 2); PyFloat (7 # 4); PyFloat (17 # 10); PyFloat (3 # 2);
       PyFloat (7 # 4)].
Proof. by vm_compute. Qed.

Example example_tables_complete :
  atom_tables_complete Example.params Example.off_molecule
    Example.rdkit_molecule.
Proof.
  split.
  - repeat (constructor; [by eexists|]). constructor.
  - repeat (constructor;
            [eexists; split; [reflexivity|];
             repeat split; try (simpl; lia);
             apply (bool_decide_unpack _); vm_compute; exact I|]).
    constructor.
Qed.

Example example_atoms_fallback :
  Atom.sigma
    <$> _atoms
          (@_build_atoms Example.topology
             (Example.molecule Example.params_unreported)).2
  = [PyFloat (31 # 10); PyFloat (18 # 5); PyFloat (7 # 2); PyFloat (31 # 10);
     PyFloat (18 # 5)].
Proof. by vm_compute. Qed.


Lemma absent_idivf_defaults_to_one_witness :
  parameters (Example.molecule Example.params_no_idivf)
  = Some Example.params_no_idivf
  ∧ get_dihedral_idivfs Example.params_no_idivf = []
  ∧ Forall (λ r, OFFProper.idivf r = PyInt 1)
      (zip (zip Example.periodicities Example.phases) Example.ks ≫= λ t,
         keys t.1.1 ≫= entry_records_default OFFProper.mk t).
Proof.
  split; [reflexivity|]. split; [reflexivity|].
  refine (proj2 (proj1 (@absent_idivf_defaults_to_one Example.topology
                          (Example.molecule Example.params_no_idivf)
                          Example.params_no_idivf eq_refl)
                   eq_refl eq_refl eq_refl _)).
  repeat (constructor; [reflexivity|]). constructor.
Defined.









Lemma propers_impropers_same_logic_witness :
  parameters (Example.molecule Example.params) = Some Example.params
  ∧ get_improper_periodicities Example.params
    = get_dihedral_periodicities Example.params
  ∧ get_improper_phases Example.params = get_dihedral_phases Example.params
  ∧ get_improper_ks Example.params = get_dihedral_ks Example.params
  ∧ get_improper_idivfs Example.params = get_dihedral_idivfs Example.params
  ∧ ∃ (recsP : list OFFProper.t) (recsI : list OFFImproper.t),
      _OFF_propers
        (@_build_propers Example.topology
           (Example.molecule Example.params)).2
      = [] ++ recsP
      ∧ _OFF_impropers
          (@_build_impropers Example.topology
             (Example.molecule Example.params)).2
        = [] ++ recsI
      ∧ proper_fields <$> recsP = improper_fields <$> recsI.
Proof.
  do 5 (split; [reflexivity|]).
  destruct (@propers_impropers_same_logic Example.topology
              (Example.molecule Example.params)
              (Example.molecule Example.params)
              Example.params Example.params
              eq_refl eq_refl eq_refl eq_refl eq_refl eq_refl)
    as (recsP & recsI & HP & _ & HI & _ & Hsame & _).
  exists recsP, recsI. split; [exact HP|]. split; [exact HI|exact Hsame].
Defined.

Lemma unparameterized_molecule_raises_witness :
  _off_molecule Example.blank = None
  ∧ @build_rotamer_library Example.topology Example.rotamer (PyInt 30)
      Example.blank
    = (Raise (Exception "Molecule not parameterized"), Example.blank).
Proof.
  split; [reflexivity|].
  exact (proj1 (@unparameterized_molecule_raises Example.topology
                  Example.rotamer Example.blank (PyInt 30) eq_refl)).
Defined.

(** ** More on dicts *)

Lemma dict_lookup_Some_key {K} `{EqDecision K} {V} (d : dict K V) k v :
  dict_lookup k d = Some v → k ∈ keys d.
Proof.
  induction d as [|[k' v'] d IH]; simpl; [done|].
  destruct (decide (k' = k)) as [->|]; intros Hl.
  - by left.
  - right. by apply IH.
Qed.

(** ** Loops that stop at the first failure *)

Section prefix_lemmas.
Context {A B : Type} (f : A → option B).

Lemma prefix_omap_all (xs : list A) :
  (∀ x, x ∈ xs → is_Some (f x)) →
  length (prefix_omap f xs) = length xs
  ∧ ∀ i, prefix_omap f xs !! i = xs !! i ≫= f.
Proof.
  induction xs as [|x xs IH]; intros Hall; simpl.
  - split; [done|]. by intros i.
  - destruct (Hall x) as [y Hy]; [by left|]. rewrite Hy.
    destruct IH as [Hlen Hlook].
    { intros z Hz. apply Hall. by right. }
    split; [simpl; by f_equal|]. intros [|i]; simpl; [done|]. apply Hlook.
Qed.

Lemma prefix_omap_stop (pre post : list A) (x : A) :
  (∀ z, z ∈ pre → is_Some (f z)) → f x = None →
  prefix_omap f (pre ++ x :: post) = prefix_omap f pre.
Proof.
  induction pre as [|z pre IH]; intros Hall Hx; simpl.
  - by rewrite Hx.
  - destruct (Hall z) as [y Hy]; [by left|]. rewrite Hy. f_equal.
    apply IH; [|done]. intros w Hw. apply Hall. by right.
Qed.

Lemma forallb_is_Some_all (xs : list A) :
  (∀ x, x ∈ xs → is_Some (f x)) →
  forallb (λ x, bool_decide (is_Some (f x))) xs = true.
Proof.
  intros Hall. apply forallb_forall. intros x Hx%list_elem_of_In.
  by apply bool_decide_eq_true, Hall.
Qed.

Lemma forallb_is_Some_stop (pre post : list A) (x : A) :
  f x = None →
  forallb (λ x, bool_decide (is_Some (f x))) (pre ++ x :: post) = false.
Proof.
  intros Hx. rewrite forallb_app. simpl.
  rewrite (bool_decide_eq_false_2 (is_Some (f x))), andb_false_r; [done|].
  rewrite Hx. by intros [? ?].
Qed.

(** A loop whose body appends [f x], or raises [e] when [f x] is missing,
    appends the results in front of the first missing one. *)
Lemma for_prefix {S} (push : S → B → S) (e : exn) (body : A → py S unit)
    (xs : list A) (s : S) :
  (∀ x s, body x s
          = match f x with
            | Some r => (Ok tt, push s r)
            | None => (Raise e, s)
            end) →
  for_ xs body s
  = (if forallb (λ x, bool_decide (is_Some (f x))) xs then Ok tt else Raise e,
     foldl push s (prefix_omap f xs)).
Proof.
  intros Hbody. revert s. induction xs as [|x xs IH]; intros s; simpl.
  - reflexivity.
  - destruct (f x) as [r|] eqn:Hx.
    + rewrite (bind_ok _ _ _ tt (push s r)) by (by rewrite Hbody, Hx).
      rewrite IH. by rewrite bool_decide_eq_true_2 by by eexists.
    + rewrite (bind_raise _ _ _ e s) by (by rewrite Hbody, Hx).
      rewrite bool_decide_eq_false_2; [done|]. by intros [? ?].
Qed.

End prefix_lemmas.

Lemma enumerate_from_lookup {A} (xs : list A) (start i : nat) :
  enumerate_from start xs !! i = (λ x, (start + i, x)) <$> xs !! i.
Proof.
  revert start i. induction xs as [|x xs IH]; intros start i; simpl.
  - done.
  - destruct i as [|i]; simpl.
    + by rewrite Nat.add_0_r.
    + rewrite IH. by rewrite Nat.add_succ_r.
Qed.

Lemma enumerate_from_app {A} (xs ys : list A) (start : nat) :
  enumerate_from start (xs ++ ys)
  = enumerate_from start xs ++ enumerate_from (start + length xs) ys.
Proof.
  revert start. induction xs as [|x xs IH]; intros start; simpl.
  - by rewrite Nat.add_0_r.
  - rewrite IH. by rewrite Nat.add_succ_r.
Qed.

Lemma enumerate_from_length {A} (xs : list A) (start : nat) :
  length (enumerate_from start xs) = length xs.
Proof.
  revert start. induction xs as [|x xs IH]; intros start; simpl; [done|].
  by rewrite IH.
Qed.

Lemma enumerate_from_elem {A} (xs : list A) (start : nat) (p : nat * A) :
  p ∈ enumerate_from start xs → p.2 ∈ xs.
Proof.
  revert start. induction xs as [|x xs IH]; intros start; simpl.
  - intros Hp. by apply elem_of_nil in Hp.
  - intros [->|Hp]%elem_of_cons; [by left|]. right. by eapply IH.
Qed.

(** ** The bond and angle builders *)

Section bonded_lemmas.
Context `{Topology} `{BondedTables}.

Lemma foldl_upd_bonds (m : Molecule) (bonds : list Bond.t) :
  foldl (λ m b, upd_bonds (λ l, l ++ [b]) m) m bonds
  = upd_bonds (λ l, l ++ bonds) m.
Proof.
  revert m. induction bonds as [|b bonds IH]; intros m; simpl.
  - destruct m. unfold upd_bonds; simpl. by rewrite app_nil_r.
  - rewrite IH. destruct m. unfold upd_bonds; simpl. by rewrite <- app_assoc.
Qed.

Lemma foldl_upd_angles (m : Molecule) (angles : list Angle.t) :
  foldl (λ m a, upd_angles (λ l, l ++ [a]) m) m angles
  = upd_angles (λ l, l ++ angles) m.
Proof.
  revert m. induction angles as [|a angles IH]; intros m; simpl.
  - destruct m. unfold upd_angles; simpl. by rewrite app_nil_r.
  - rewrite IH. destruct m. unfold upd_angles; simpl.
    by rewrite <- app_assoc.
Qed.

Lemma _build_bonds_run m params :
  parameters m = Some params →
  let xs := enumerate (keys (get_bond_parameters params)) in
  _build_bonds m
  = (if forallb (λ x, bool_decide (is_Some (bond_of params x))) xs
     then Ok tt else Raise KeyError,
     upd_bonds (λ l, l ++ prefix_omap (bond_of params) xs) m).
Proof.
  intros Hp xs. unfold _build_bonds.
  rewrite (bind_ok _ _ _ params m) by (unfold self_parameters; by rewrite Hp).
  rewrite (for_prefix (bond_of params)
             (λ m b, upd_bonds (λ l, l ++ [b]) m) KeyError).
  - by rewrite foldl_upd_bonds.
  - intros [i [a1 a2]] s. unfold bond_of, getitem. simpl.
    destruct (dict_lookup (a1, a2) (get_bond_ks params)); [|done].
    by destruct (dict_lookup (a1, a2) (get_bond_lengths params)).
Qed.

Lemma _build_angles_run m params :
  parameters m = Some params →
  let xs := enumerate (keys (get_angle_parameters params)) in
  _build_angles m
  = (if forallb (λ x, bool_decide (is_Some (angle_of params x))) xs
     then Ok tt else Raise KeyError,
     upd_angles (λ l, l ++ prefix_omap (angle_of params) xs) m).
Proof.
  intros Hp xs. unfold _build_angles.
  rewrite (bind_ok _ _ _ params m) by (unfold self_parameters; by rewrite Hp).
  rewrite (for_prefix (angle_of params)
             (λ m a, upd_angles (λ l, l ++ [a]) m) KeyError).
  - by rewrite foldl_upd_angles.
  - intros [i [[a1 a2] a3]] s. unfold angle_of, getitem. simpl.
    destruct (dict_lookup (a1, a2, a3) (get_angle_ks params)); [|done].
    by destruct (dict_lookup (a1, a2, a3) (get_angle_angles params)).
Qed.

Lemma bond_of_is_Some params (x : nat * (nat * nat)) :
  x.2 ∈ keys (get_bond_ks params) → x.2 ∈ keys (get_bond_lengths params) →
  is_Some (bond_of params x).
Proof.
  intros [k Hk]%dict_lookup_is_Some [l Hl]%dict_lookup_is_Some.
  unfold bond_of. rewrite Hk, Hl. by eexists.
Qed.

Lemma bond_of_None params (x : nat * (nat * nat)) :
  x.2 ∉ keys (get_bond_ks params) ∨ x.2 ∉ keys (get_bond_lengths params) →
  bond_of params x = None.
Proof.
  unfold bond_of. intros Hno.
  destruct (dict_lookup x.2 (get_bond_ks params)) as [k|] eqn:Hk; [|done].
  destruct (dict_lookup x.2 (get_bond_lengths params)) as [l|] eqn:Hl;
    [|done].
  apply dict_lookup_Some_key in Hk, Hl. by destruct Hno.
Qed.

Lemma bond_of_for params i key b :
  bond_of params (i, key) = Some b → bond_for params i key b.
Proof.
  unfold bond_of, bond_for. simpl.
  destruct (dict_lookup key (get_bond_ks params)) as [k|]; [|done].
  destruct (dict_lookup key (get_bond_lengths params)) as [l|]; [|done].
  intros [= <-]. by destruct key.
Qed.

Lemma angle_of_is_Some params (x : nat * (nat * nat * nat)) :
  x.2 ∈ keys (get_angle_ks params) → x.2 ∈ keys (get_angle_angles params) →
  is_Some (angle_of params x).
Proof.
  intros [k Hk]%dict_lookup_is_Some [l Hl]%dict_lookup_is_Some.
  unfold angle_of. rewrite Hk, Hl. by eexists.
Qed.

Lemma angle_of_None params (x : nat * (nat * nat * nat)) :
  x.2 ∉ keys (get_angle_ks params) ∨ x.2 ∉ keys (get_angle_angles params) →
  angle_of params x = None.
Proof.
  unfold angle_of. intros Hno.
  destruct (dict_lookup x.2 (get_angle_ks params)) as [k|] eqn:Hk; [|done].
  destruct (dict_lookup x.2 (get_angle_angles params)) as [l|] eqn:Hl;
    [|done].
  apply dict_lookup_Some_key in Hk, Hl. by destruct Hno.
Qed.

Lemma angle_of_for params i key a :
  angle_of params (i, key) = Some a → angle_for params i key a.
Proof.
  unfold angle_of, angle_for. simpl.
  destruct (dict_lookup key (get_angle_ks params)) as [k|]; [|done].
  destruct (dict_lookup key (get_angle_angles params)) as [l|]; [|done].
  intros [= <-]. by destruct key as [[? ?] ?].
Qed.

(** What the results of a prefix of an enumeration look like. *)
Lemma prefix_omap_enumerate {A B} (f : nat * A → option B) (xs : list A) :
  (∀ x, x ∈ enumerate xs → is_Some (f x)) →
  length (prefix_omap f (enumerate xs)) = length xs
  ∧ ∀ i key, xs !! i = Some key →
      ∃ r, prefix_omap f (enumerate xs) !! i = Some r ∧ f (i, key) = Some r.
Proof.
  intros Hall. destruct (prefix_omap_all f (enumerate xs) Hall) as [Hlen Hl].
  split; [by rewrite Hlen; apply enumerate_from_length|].
  intros i key Hi. rewrite Hl. unfold enumerate.
  rewrite enumerate_from_lookup, Hi. simpl.
  destruct (Hall (i, key)) as [r Hr].
  - apply list_elem_of_lookup. exists i. unfold enumerate.
    by rewrite enumerate_from_lookup, Hi.
  - by exists r.
Qed.

(** X1.  When the spring-constant table and the length table hold every key
    of the bond table, [_build_bonds] ends normally and appends one bond per
    key, in key order: the bond at position [i] has index [i] (whatever bonds
    the molecule held before), the two atoms of the key, and the values the
    two tables hold for the key.  Entries of the two tables under other keys
    play no part. *)
Theorem _build_bonds_complete (m : Molecule) (params : Parameters) :
  parameters m = Some params →
  (∀ key, key ∈ keys (get_bond_parameters params) →
     key ∈ keys (get_bond_ks params)
     ∧ key ∈ keys (get_bond_lengths params)) →
  ∃ bonds,
    _build_bonds m = (Ok tt, upd_bonds (λ l, l ++ bonds) m)
    ∧ length bonds = length (get_bond_parameters params)
    ∧ ∀ i key, keys (get_bond_parameters params) !! i = Some key →
        ∃ b, bonds !! i = Some b ∧ bond_for params i key b.
Proof.
  intros Hp Hall.
  set (xs := enumerate (keys (get_bond_parameters params))).
  assert (Hsome : ∀ x, x ∈ xs → is_Some (bond_of params x)).
  { intros x Hx%enumerate_from_elem. destruct (Hall _ Hx).
    by apply bond_of_is_Some. }
  exists (prefix_omap (bond_of params) xs).
  rewrite (_build_bonds_run m params Hp). fold xs.
  rewrite (forallb_is_Some_all _ _ Hsome). split; [done|].
  destruct (prefix_omap_enumerate (bond_of params) _ Hsome) as [Hlen Hl].
  split; [unfold xs; rewrite Hlen; unfold keys; by rewrite length_fmap|].
  intros i key Hi. destruct (Hl i key Hi) as (b & Hb & Hof).
  exists b. split; [done|]. by apply bond_of_for.
Qed.

(** X2.  When a key of the bond table is missing from the spring-constant
    table or from the length table, [_build_bonds] raises [KeyError] at the
    first such key; the bonds of the keys in front of it have been appended
    by then and stay, and no bond is made for the key or for any key behind
    it. *)
Theorem _build_bonds_missing_key (m : Molecule) (params : Parameters)
    (pre post : list (nat * nat)) (key : nat * nat) :
  parameters m = Some params →
  keys (get_bond_parameters params) = pre ++ key :: post →
  (∀ k, k ∈ pre →
     k ∈ keys (get_bond_ks params) ∧ k ∈ keys (get_bond_lengths params)) →
  key ∉ keys (get_bond_ks params) ∨ key ∉ keys (get_bond_lengths params) →
  ∃ bonds,
    _build_bonds m = (Raise KeyError, upd_bonds (λ l, l ++ bonds) m)
    ∧ length bonds = length pre
    ∧ ∀ i k, pre !! i = Some k →
        ∃ b, bonds !! i = Some b ∧ bond_for params i k b.
Proof.
  intros Hp Hkeys Hpre Hkey.
  assert (Hsome : ∀ x, x ∈ enumerate pre → is_Some (bond_of params x)).
  { intros x Hx%enumerate_from_elem. destruct (Hpre _ Hx).
    by apply bond_of_is_Some. }
  exists (prefix_omap (bond_of params) (enumerate pre)).
  rewrite (_build_bonds_run m params Hp), Hkeys. unfold enumerate.
  rewrite enumerate_from_app. simpl.
  rewrite forallb_is_Some_stop by (by apply bond_of_None).
  rewrite prefix_omap_stop; [|done|by apply bond_of_None].
  split; [done|].
  destruct (prefix_omap_enumerate (bond_of params) _ Hsome) as [Hlen Hl].
  split; [done|]. intros i k Hi. destruct (Hl i k Hi) as (b & Hb & Hof).
  exists b. split; [done|]. by apply bond_of_for.
Qed.

(** X3.  When the spring-constant table and the angle table hold every key
    of the angle-parameter table, [_build_angles] ends normally and appends
    one angle per key, in key order: the angle at position [i] has index
    [i], the three atoms of the key with the vertex in the middle, and the
    values the two tables hold for the key. *)
Theorem _build_angles_complete (m : Molecule) (params : Parameters) :
  parameters m = Some params →
  (∀ key, key ∈ keys (get_angle_parameters params) →
     key ∈ keys (get_angle_ks params)
     ∧ key ∈ keys (get_angle_angles params)) →
  ∃ angles,
    _build_angles m = (Ok tt, upd_angles (λ l, l ++ angles) m)
    ∧ length angles = length (get_angle_parameters params)
    ∧ ∀ i key, keys (get_angle_parameters params) !! i = Some key →
        ∃ a, angles !! i = Some a ∧ angle_for params i key a.
Proof.
  intros Hp Hall.
  set (xs := enumerate (keys (get_angle_parameters params))).
  assert (Hsome : ∀ x, x ∈ xs → is_Some (angle_of params x)).
  { intros x Hx%enumerate_from_elem. destruct (Hall _ Hx).
    by apply angle_of_is_Some. }
  exists (prefix_omap (angle_of params) xs).
  rewrite (_build_angles_run m params Hp). fold xs.
  rewrite (forallb_is_Some_all _ _ Hsome). split; [done|].
  destruct (prefix_omap_enumerate (angle_of params) _ Hsome) as [Hlen Hl].
  split; [unfold xs; rewrite Hlen; unfold keys; by rewrite length_fmap|].
  intros i key Hi. destruct (Hl i key Hi) as (a & Ha & Hof).
  exists a. split; [done|]. by apply angle_of_for.
Qed.

(** X4.  When a key of the angle-parameter table is missing from the
    spring-constant table or from the angle table, [_build_angles] raises
    [KeyError] at the first such key, having appended the angles of the keys
    in front of it and no other. *)
Theorem _build_angles_missing_key (m : Molecule) (params : Parameters)
    (pre post : list (nat * nat * nat)) (key : nat * nat * nat) :
  parameters m = Some params →
  keys (get_angle_parameters params) = pre ++ key :: post →
  (∀ k, k ∈ pre →
     k ∈ keys (get_angle_ks params) ∧ k ∈ keys (get_angle_angles params)) →
  key ∉ keys (get_angle_ks params) ∨ key ∉ keys (get_angle_angles params) →
  ∃ angles,
    _build_angles m = (Raise KeyError, upd_angles (λ l, l ++ angles) m)
    ∧ length angles = length pre
    ∧ ∀ i k, pre !! i = Some k →
        ∃ a, angles !! i = Some a ∧ angle_for params i k a.
Proof.
  intros Hp Hkeys Hpre Hkey.
  assert (Hsome : ∀ x, x ∈ enumerate pre → is_Some (angle_of params x)).
  { intros x Hx%enumerate_from_elem. destruct (Hpre _ Hx).
    by apply angle_of_is_Some. }
  exists (prefix_omap (angle_of params) (enumerate pre)).
  rewrite (_build_angles_run m params Hp), Hkeys. unfold enumerate.
  rewrite enumerate_from_app. simpl.
  rewrite forallb_is_Some_stop by (by apply angle_of_None).
  rewrite prefix_omap_stop; [|done|by apply angle_of_None].
  split; [done|].
  destruct (prefix_omap_enumerate (angle_of params) _ Hsome) as [Hlen Hl].
  split; [done|]. intros i k Hi. destruct (Hl i k Hi) as (a & Ha & Hof).
  exists a. split; [done|]. by apply angle_of_for.
Qed.

End bonded_lemmas.

(** ** Normal and abnormal ends of the atom builder *)

Section atom_runs.
Context `{Topology}.

Lemma replace_length (old new : Ascii.ascii) (s : string) :
  String.length (replace old new s) = String.length s.
Proof. induction s as [|c s IH]; simpl; [done|]. by rewrite IH. Qed.

Lemma replace_get (old new : Ascii.ascii) (s : string) (n : nat) :
  String.get n (replace old new s)
  = (λ c, if Ascii.eqb c old then new else c) <$> String.get n s.
Proof.
  revert n. induction s as [|c s IH]; intros n; simpl; [done|].
  destruct n as [|n]; [done|]. apply IH.
Qed.

Lemma replace_no_old (old new : Ascii.ascii) (s : string) (n : nat) :
  new ≠ old → String.get n (replace old new s) ≠ Some old.
Proof.
  intros Hne. rewrite replace_get. destruct (String.get n s) as [c|]; [|done].
  simpl. destruct (Ascii.eqb c old) eqn:Hc; intros [= Heq]; [done|].
  subst c. by rewrite Ascii.eqb_refl in Hc.
Qed.

Lemma halve_all_TypeError (sigmas : dict akey pyval) (s : Molecule) :
  Exists (λ v, numeric v = None) (values sigmas) →
  halve_all sigmas s = (Raise TypeError, s).
Proof.
  unfold halve_all. induction sigmas as [|[i j] sigmas IH]; simpl.
  - intros Hex. by apply Exists_nil in Hex.
  - intros Hex. unfold mbind, py_bind, truediv_2 in *.
    destruct (numeric j) as [q|] eqn:Hq; simpl; [|done].
    apply Exists_cons in Hex as [Hj|Hex]; [simpl in Hj; congruence|].
    by rewrite (IH Hex).
Qed.

Lemma halve_all_Ok_numeric (sigmas radii : dict akey pyval)
    (s s' : Molecule) :
  halve_all sigmas s = (Ok radii, s') →
  Forall (λ v, is_Some (numeric v)) (values sigmas).
Proof.
  intros Hok. apply Forall_forall. intros v Hv.
  destruct (numeric v) as [q|] eqn:Hq; [by eexists|].
  rewrite halve_all_TypeError in Hok; [done|].
  apply Exists_exists. by exists v.
Qed.

(** Case analysis on the next dict lookup when the body is known to have
    ended normally. *)
Ltac lookup_must_succeed E :=
  match goal with
  | Hok : context [match @dict_lookup ?K ?D ?V ?k ?d with _ => _ end] |- _ =>
      destruct (@dict_lookup K D V k d) eqn:E; [|discriminate Hok]
  end.

(** A turn of the loop that ends normally was run on a 1-tuple for which every
    table has an entry, and has appended the atom of that key. *)
Lemma atom_body_Ok params off rd SASA_radii index s s' :
  _off_molecule s = Some off →
  (∀ idx r, dict_lookup idx SASA_radii = Some r →
     ∃ j q, dict_lookup idx (select_sigmas params) = Some j
            ∧ numeric j = Some q ∧ r = PyFloat (q / 2)%Q) →
  index ∈ keys (get_vdW_parameters params) →
  atom_body (pdb_names_table (rd_atom_names rd)) (none_by_index params)
    (rd_coordinates rd) (select_sigmas params) (get_vdW_epsilons params)
    SASA_radii index s = (Ok tt, s') →
  ∃ a, s' = upd_atoms (λ l, l ++ [a]) s ∧ atom_for params off rd index a.
Proof.
  intros Hoff Hsasa Hin Hok. unfold atom_body in Hok.
  destruct index as [|i [|i' index]]; [discriminate Hok| |discriminate Hok].
  unfold py_assert, tuple_getitem, array_getitem, getitem,
    self_partial_charges, get_self in Hok.
  unfold mbind, py_bind, mret, py_ret, raise in Hok.
  cbn -[pdb_names_table none_by_index select_sigmas dict_lookup] in Hok.
  rewrite bool_decide_eq_true_2 in Hok by done.
  lookup_must_succeed Hname. lookup_must_succeed Hnone.
  apply none_by_index_lookup in Hnone as ->.
  destruct (rd_coordinates rd !! i) as [[[cx cy] cz]|] eqn:Hxyz;
    [|discriminate Hok].
  lookup_must_succeed Hsigma. lookup_must_succeed Heps.
  rewrite Hoff in Hok.
  destruct (partial_charges off !! i) as [charge|] eqn:Hcharge;
    [|discriminate Hok].
  lookup_must_succeed Hr.
  injection Hok as <-. eexists. split; [reflexivity|].
  destruct (Hsasa _ _ Hr) as (j & q & Hj & Hq & ->).
  rewrite Hsigma in Hj. injection Hj as <-.
  apply pdb_names_table_lookup in Hname as (name' & Hname' & ->).
  exists i. split; [done|]. unfold built_at. simpl.
  repeat split; try done.
  - by exists q.
  - by exists name'.
Qed.

Lemma atom_for_complete params off rd index a :
  atom_for params off rd index a →
  ∃ i : nat,
    index = [i]
    ∧ i < length (rd_atom_names rd)
    ∧ i < length (rd_coordinates rd)
    ∧ i < length (partial_charges off)
    ∧ [i] ∈ keys (select_sigmas params)
    ∧ [i] ∈ keys (get_vdW_epsilons params).
Proof.
  intros (i & -> & _ & _ & _ & _ & _ & _ & _ & _ & _ & Hs & He & Hc & _
          & (name & Hn & _) & Hx).
  exists i. split; [done|].
  split; [by eapply lookup_lt_Some|]. split; [by eapply lookup_lt_Some|].
  split; [by eapply lookup_lt_Some|].
  split; by eapply dict_lookup_Some_key.
Qed.

Lemma atom_for_built_from params off rd index a :
  atom_for params off rd index a → built_from params off rd a.
Proof. intros (i & _ & Hb). by exists i. Qed.

(** A loop of turns that always end normally appends one atom per element,
    in order. *)
Lemma for_appends_Forall2 {A} (Inv : Molecule → Prop)
    (Q : A → Atom.t → Prop) (xs : list A) (body : A → py Molecule unit) :
  (∀ a s, Inv s → Inv (upd_atoms (λ l, l ++ [a]) s)) →
  (∀ x s, x ∈ xs → Inv s →
     ∃ a, body x s = (Ok tt, upd_atoms (λ l, l ++ [a]) s) ∧ Q x a) →
  ∀ s, Inv s →
    ∃ new, for_ xs body s = (Ok tt, upd_atoms (λ l, l ++ new) s)
           ∧ Forall2 Q xs new.
Proof.
  intros Hinv Hbody. induction xs as [|x xs IH]; intros s Hs; simpl.
  - exists []. split; [|constructor]. destruct s.
    unfold upd_atoms, mret, py_ret; simpl. by rewrite app_nil_r.
  - destruct (Hbody x s) as (a & Ha & HQ); [by left|done|].
    rewrite (bind_ok _ _ _ _ _ Ha).
    destruct (IH (λ y s' Hy, Hbody y s' (list_elem_of_further _ _ _ Hy))
                (upd_atoms (λ l, l ++ [a]) s)) as (new & Hnew & HQs).
    { by apply Hinv. }
    exists (a :: new). split; [|by constructor].
    rewrite Hnew. destruct s. unfold upd_atoms; simpl.
    by rewrite <- app_assoc.
Qed.

(** In a loop that ends normally every turn has ended normally. *)
Lemma for_Ok_turns {S A} (Inv : S → Prop) (xs : list A)
    (body : A → py S unit) :
  (∀ x s s', x ∈ xs → Inv s → body x s = (Ok tt, s') → Inv s') →
  ∀ s s', Inv s → for_ xs body s = (Ok tt, s') →
    ∀ x, x ∈ xs → ∃ s1 s2, Inv s1 ∧ body x s1 = (Ok tt, s2).
Proof.
  intros Hinv. induction xs as [|x xs IH]; intros s s' Hs Hok y Hy.
  - by apply elem_of_nil in Hy.
  - simpl in Hok. unfold mbind, py_bind in Hok.
    destruct (body x s) as [[[]|e] s1] eqn:Hx; [|discriminate Hok].
    apply elem_of_cons in Hy as [->|Hy].
    + by exists s, s1.
    + apply (IH (λ z t t' Hz, Hinv z t t' (list_elem_of_further _ _ _ Hz))
                s1 s'); [|done|done].
      apply (Hinv x s s1); [by left|done|done].
Qed.

(** X5.  For a molecule that holds its parameters, its OpenForceField
    molecule and its RDKit molecule, [_build_atoms] ends normally if and only
    if the tables are complete: every sigma of the chosen sigma table is a
    number, and every key of the van der Waals table is a 1-tuple of an atom
    that has a PDB name, coordinates, a charge, a sigma and an epsilon.  It
    then appends one atom per key, in key order, each built from the entries
    of its own key. *)
Theorem _build_atoms_Ok_iff_complete (m : Molecule) (params : Parameters)
    (off : OFFMolecule) (rd : RDKitMolecule) :
  parameters m = Some params → _off_molecule m = Some off →
  _rdkit_molecule m = Some rd →
  ((_build_atoms m).1 = Ok tt ↔ atom_tables_complete params off rd)
  ∧ (atom_tables_complete params off rd →
     ∃ new,
       _build_atoms m = (Ok tt, upd_atoms (λ l, l ++ new) m)
       ∧ Forall2 (atom_for params off rd)
           (keys (get_vdW_parameters params)) new).
Proof.
  intros Hp Hoff Hrd.
  assert (Hrun : ∀ radii,
    (∀ idx r, dict_lookup idx radii = Some r →
       ∃ j q, dict_lookup idx (select_sigmas params) = Some j
              ∧ numeric j = Some q ∧ r = PyFloat (q / 2)%Q) →
    halve_all (select_sigmas params) m = (Ok radii, m) →
    _build_atoms m
    = for_ (keys (get_vdW_parameters params))
        (atom_body (pdb_names_table (rd_atom_names rd))
           (none_by_index params) (rd_coordinates rd)
           (select_sigmas params) (get_vdW_epsilons params) radii) m).
  { intros radii _ Hh. rewrite _build_atoms_unfold.
    rewrite (bind_ok _ _ _ _ _ (get_pdb_atom_names_run m off rd Hoff Hrd)).
    rewrite (bind_ok _ _ _ params m)
      by (unfold self_parameters; by rewrite Hp).
    rewrite (bind_ok _ _ _ (rd_coordinates rd) m)
      by (unfold get_coordinates, get_self, mbind, py_bind; by rewrite Hrd).
    by rewrite (bind_ok _ _ _ _ _ Hh). }
  assert (Hcomplete : atom_tables_complete params off rd →
    ∃ new,
      _build_atoms m = (Ok tt, upd_atoms (λ l, l ++ new) m)
      ∧ Forall2 (atom_for params off rd)
          (keys (get_vdW_parameters params)) new).
  { intros [Hnum Hkeys].
    destruct (halve_all_ok (select_sigmas params) m Hnum)
      as (radii & Hh & Hk & Hl).
    rewrite (Hrun radii Hl Hh).
    apply (for_appends_Forall2 (λ s, _off_molecule s = Some off));
      [done| |done].
    intros index s Hin Hs. rewrite Forall_forall in Hkeys.
    destruct (Hkeys index Hin) as (i & -> & Hn & Hx & Hc & Hsg & He).
    destruct (atom_body_ok params off rd radii i s Hs Hk Hin Hn Hx Hc Hsg He)
      as [a Ha].
    exists a. split; [done|].
    destruct (atom_body_Ok params off rd radii [i] s _ Hs Hl Hin Ha)
      as (a' & Heq & Hfor).
    injection Heq as Heq. by apply app_inv_head in Heq as [= ->]. }
  split; [|done]. split.
  - intros Hok.
    destruct (halve_all_run (select_sigmas params) m)
      as [[e He]|(radii & Hh & Hk & Hl)].
    { exfalso. rewrite _build_atoms_unfold in Hok.
      rewrite (bind_ok _ _ _ _ _ (get_pdb_atom_names_run m off rd Hoff Hrd))
        in Hok.
      rewrite (bind_ok _ _ _ params m) in Hok
        by (unfold self_parameters; by rewrite Hp).
      rewrite (bind_ok _ _ _ (rd_coordinates rd) m) in Hok
        by (unfold get_coordinates, get_self, mbind, py_bind; by rewrite Hrd).
      by rewrite (bind_raise _ _ _ _ _ He) in Hok. }
    split; [by eapply halve_all_Ok_numeric|].
    rewrite (Hrun radii Hl Hh) in Hok.
    destruct (for_ _ _ m) as [o s'] eqn:Hfor. simpl in Hok. subst o.
    apply Forall_forall. intros index Hin.
    destruct (for_Ok_turns (λ s, _off_molecule s = Some off)
                (keys (get_vdW_parameters params))
                (atom_body (pdb_names_table (rd_atom_names rd))
                   (none_by_index params) (rd_coordinates rd)
                   (select_sigmas params) (get_vdW_epsilons params) radii))
      with (s := m) (s' := s') (x := index) as (s1 & s2 & Hs1 & Hturn);
      [|done|done|done|].
    + intros x s t Hx Hs Ht.
      destruct (atom_body_Ok params off rd radii x s t Hs Hl Hx Ht)
        as (a & -> & _). done.
    + destruct (atom_body_Ok params off rd radii index s1 s2 Hs1 Hl Hin Hturn)
        as (a & _ & Hfor').
      by apply (atom_for_complete params off rd index a).
  - intros Hc. destruct (Hcomplete Hc) as (new & -> & _). done.
Qed.

(** X6.  When the chosen sigma table holds a value that is no number (None
    for an atom whose sigma the provider does not report while it reports
    others), [_build_atoms] raises [TypeError] while it computes the SASA
    radii, in front of the loop: no atom is built, not even for the atoms
    whose sigma is a number, and the molecule is left as it was. *)
Theorem _build_atoms_TypeError (m : Molecule) (params : Parameters)
    (off : OFFMolecule) (rd : RDKitMolecule) :
  parameters m = Some params → _off_molecule m = Some off →
  _rdkit_molecule m = Some rd →
  Exists (λ v, numeric v = None) (values (select_sigmas params)) →
  _build_atoms m = (Raise TypeError, m).
Proof.
  intros Hp Hoff Hrd Hex. rewrite _build_atoms_unfold.
  rewrite (bind_ok _ _ _ _ _ (get_pdb_atom_names_run m off rd Hoff Hrd)).
  rewrite (bind_ok _ _ _ params m) by (unfold self_parameters; by rewrite Hp).
  rewrite (bind_ok _ _ _ (rd_coordinates rd) m)
    by (unfold get_coordinates, get_self, mbind, py_bind; by rewrite Hrd).
  by rewrite (bind_raise _ _ _ _ _ (halve_all_TypeError _ m Hex)).
Qed.

(** X7.  The PDB name of every atom that [_build_atoms] appends is the RDKit
    name of the atom with every space replaced by an underscore: it has the
    length of the RDKit name, holds no space, and agrees with the RDKit name
    on every other character. *)
Theorem built_atom_names_have_no_space (m : Molecule) (params : Parameters)
    (off : OFFMolecule) (rd : RDKitMolecule) :
  parameters m = Some params → _off_molecule m = Some off →
  _rdkit_molecule m = Some rd →
  ∃ new,
    _atoms (_build_atoms m).2 = _atoms m ++ new
    ∧ Forall (λ a, ∃ (i : nat) (name pdb_name : string),
                Atom.index a = PyInt (Z.of_nat i)
                ∧ rd_atom_names rd !! i = Some name
                ∧ Atom.PDB_name a = PyStr pdb_name
                ∧ String.length pdb_name = String.length name
                ∧ ∀ n, String.get n pdb_name ≠ Some " "%char
                       ∧ (String.get n name ≠ Some " "%char →
                          String.get n pdb_name = String.get n name)) new.
Proof.
  intros Hp Hoff Hrd.
  destruct (_build_atoms_new m params off rd Hp Hoff Hrd) as (new & -> & Hnew).
  exists new. rewrite upd_atoms_atoms. split; [done|].
  eapply Forall_impl; [exact Hnew|].
  intros a (i & Hi & _ & _ & _ & _ & _ & _ & _ & _ & _ & _ & _ & _
            & (name & Hn & Hpdb) & _).
  exists i, name, (replace " "%char "_"%char name).
  split; [done|]. split; [done|]. split; [done|].
  split; [apply replace_length|]. intros n.
  split; [by apply replace_no_old|].
  rewrite replace_get. destruct (String.get n name) as [c|]; [|done].
  simpl. intros Hc. destruct (Ascii.eqb c " "%char) eqn:Heq; [|done].
  apply Ascii.eqb_eq in Heq. by subst c.
Qed.

End atom_runs.

(** ** More on the torsion builders *)

Section torsion_frame.
Context `{Topology}.

Lemma _build_propers_no_parameters m :
  parameters m = None → _build_propers m = (Raise AttributeError, m).
Proof.
  intros Hp. unfold _build_propers.
  rewrite (bind_raise _ _ _ AttributeError m); [done|].
  unfold self_parameters. by rewrite Hp.
Qed.

Lemma _build_impropers_no_parameters m :
  parameters m = None → _build_impropers m = (Raise AttributeError, m).
Proof.
  intros Hp. unfold _build_impropers.
  rewrite (bind_raise _ _ _ AttributeError m); [done|].
  unfold self_parameters. by rewrite Hp.
Qed.

Lemma torsion_builders_keep_rest (m : Molecule) :
  (beside_propers (_build_propers m).2 = beside_propers m
   ∧ _OFF_propers m `prefix_of` _OFF_propers (_build_propers m).2
   ∧ _propers m `prefix_of` _propers (_build_propers m).2
   ∧ (_propers m = proper_to_PELE <$> _OFF_propers m →
      _propers (_build_propers m).2
      = proper_to_PELE <$> _OFF_propers (_build_propers m).2))
  ∧ (beside_impropers (_build_impropers m).2 = beside_impropers m
     ∧ _OFF_impropers m `prefix_of` _OFF_impropers (_build_impropers m).2
     ∧ _impropers m `prefix_of` _impropers (_build_impropers m).2
     ∧ (_impropers m = improper_to_PELE <$> _OFF_impropers m →
        _impropers (_build_impropers m).2
        = improper_to_PELE <$> _OFF_impropers (_build_impropers m).2)).
Proof.
  split.
  - destruct (parameters m) as [params|] eqn:Hp.
    + rewrite (_build_propers_run m params Hp). destruct m. simpl.
      split; [done|]. split; [by eexists|]. split; [by eexists|].
      intros ->. by rewrite fmap_app.
    + rewrite (_build_propers_no_parameters m Hp). by repeat split.
  - destruct (parameters m) as [params|] eqn:Hp.
    + rewrite (_build_impropers_run m params Hp). destruct m. simpl.
      split; [done|]. split; [by eexists|]. split; [by eexists|].
      intros ->. by rewrite fmap_app.
    + rewrite (_build_impropers_no_parameters m Hp). by repeat split.
Qed.

(** X8.  Whatever the molecule and however the run ends, [_build_propers]
    changes nothing but the two lists of propers and [_build_impropers]
    nothing but the two lists of impropers; each only appends to its two
    lists, and keeps them in step: when the PELE list was the conversion of
    the OFF list before the run, it still is after it. *)
Theorem torsion_builders_frame (m : Molecule) :
  (beside_propers (_build_propers m).2 = beside_propers m
   ∧ _OFF_propers m `prefix_of` _OFF_propers (_build_propers m).2
   ∧ _propers m `prefix_of` _propers (_build_propers m).2
   ∧ (_propers m = proper_to_PELE <$> _OFF_propers m →
      _propers (_build_propers m).2
      = proper_to_PELE <$> _OFF_propers (_build_propers m).2))
  ∧ (beside_impropers (_build_impropers m).2 = beside_impropers m
     ∧ _OFF_impropers m `prefix_of` _OFF_impropers (_build_impropers m).2
     ∧ _impropers m `prefix_of` _impropers (_build_impropers m).2
     ∧ (_impropers m = improper_to_PELE <$> _OFF_impropers m →
        _impropers (_build_impropers m).2
        = improper_to_PELE <$> _OFF_impropers (_build_impropers m).2)).
Proof. exact (torsion_builders_keep_rest m). Qed.

(** X9.  The torsion builders neither reset their lists nor skip records
    that are already there: run a second time on the molecule the first run
    has left, each appends the very same records once more and ends the same
    way. *)
Theorem torsion_builders_append_again (m : Molecule) (params : Parameters) :
  parameters m = Some params →
  (let recs := proper_terms params ≫= term_records OFFProper.mk in
   _OFF_propers (_build_propers (_build_propers m).2).2
   = _OFF_propers m ++ recs ++ recs
   ∧ (_build_propers (_build_propers m).2).1 = (_build_propers m).1)
  ∧ (let recs := improper_terms params ≫= term_records OFFImproper.mk in
     _OFF_impropers (_build_impropers (_build_impropers m).2).2
     = _OFF_impropers m ++ recs ++ recs
     ∧ (_build_impropers (_build_impropers m).2).1
       = (_build_impropers m).1).
Proof.
  intros Hp. split.
  - intros recs. rewrite (_build_propers_run m params Hp). simpl.
    rewrite (_build_propers_run _ params) by (by destruct m).
    destruct m. simpl. by rewrite <- app_assoc.
  - intros recs. rewrite (_build_impropers_run m params Hp). simpl.
    rewrite (_build_impropers_run _ params) by (by destruct m).
    destruct m. simpl. by rewrite <- app_assoc.
Qed.

End torsion_frame.

(** ** The order of the keys in the phase, force-constant and divisor dicts *)

Lemma dict_lookup_perm {K} `{EqDecision K} {V} (d d' : dict K V) k :
  dict_wf d → d ≡ₚ d' → dict_lookup k d = dict_lookup k d'.
Proof.
  intros Hwf Hperm. revert Hwf.
  induction Hperm as [|[k1 v1] d d' Hperm IH|[k1 v1] [k2 v2] d
                      |d d' d'' Hperm1 IH1 Hperm2 IH2]; intros Hwf.
  - done.
  - simpl. destruct (decide (k1 = k)); [done|].
    apply IH. unfold dict_wf in *. simpl in Hwf. by apply NoDup_cons in Hwf as [_ ?].
  - simpl. destruct (decide (k2 = k)) as [->|]; [|done].
    destruct (decide (k1 = k)) as [->|]; [|done].
    unfold dict_wf in Hwf. simpl in Hwf.
    apply NoDup_cons in Hwf as [Hnin _]. exfalso. apply Hnin. by left.
  - rewrite IH1 by done. apply IH2. unfold dict_wf, keys in *.
    by rewrite <- Hperm1.
Qed.

Lemma keys_eq_perm {K} `{EqDecision K} {V W} (a : dict K V)
    (b b' : dict K W) :
  b ≡ₚ b' → keys_eq a b = keys_eq a b'.
Proof.
  intros Hperm. unfold keys_eq. f_equal.
  - by rewrite (Permutation_length Hperm).
  - induction (keys a) as [|k l IH]; simpl; [done|]. rewrite IH. f_equal.
    unfold contains, keys. apply bool_decide_ext. by rewrite Hperm.
Qed.

Lemma term_perm_consistent (t t' : term) :
  term_perm t t' → consistent t = consistent t'.
Proof.
  destruct t as [[[pd ph] kd] dd], t' as [[[pd' ph'] kd'] dd'].
  intros (Hpd & Hph & Hkd & Hdd). simpl in *. subst pd'.
  unfold keys_agree.
  by rewrite (keys_eq_perm pd ph ph'), (keys_eq_perm pd kd kd'),
    (keys_eq_perm pd dd dd').
Qed.

Lemma term_perm_records {R}
    (mkR : nat → nat → nat → nat → pyval → pyval → pyval → pyval → R)
    (t t' : term) :
  term_wf t → term_perm t t' → term_records mkR t = term_records mkR t'.
Proof.
  destruct t as [[[pd ph] kd] dd], t' as [[[pd' ph'] kd'] dd'].
  intros (_ & Hwph & Hwkd & Hwdd) (Hpd & Hph & Hkd & Hdd). simpl in *.
  subst pd'. unfold term_records. simpl. apply list_bind_ext; [|done].
  intros index. unfold entry_records, entry.
  by rewrite (dict_lookup_perm ph ph'), (dict_lookup_perm kd kd'),
    (dict_lookup_perm dd dd').
Qed.

Lemma zip4_term_perm (pds phs phs' ks ks' idv idv' : list (dict quad pyval)) :
  Forall2 (≡ₚ) phs phs' → Forall2 (≡ₚ) ks ks' → Forall2 (≡ₚ) idv idv' →
  Forall2 term_perm (zip4 pds phs ks idv) (zip4 pds phs' ks' idv').
Proof.
  intros Hph. revert pds ks ks' idv idv'.
  induction Hph as [|ph ph' phs phs' Hp Hph IH]; intros pds ks ks' idv idv'.
  - intros _ _. destruct pds; constructor.
  - intros Hks Hidv. destruct pds as [|pd pds]; [constructor|].
    destruct Hks as [|kd kd' ks ks' Hk Hks]; [constructor|].
    destruct Hidv as [|dd dd' idv idv' Hd Hidv]; [constructor|].
    simpl. constructor; [done|]. by apply IH.
Qed.

Lemma term_perm_prefix {R}
    (mkR : nat → nat → nat → nat → pyval → pyval → pyval → pyval → R)
    (ts ts' : list term) :
  Forall term_wf ts → Forall2 term_perm ts ts' →
  forallb consistent ts = forallb consistent ts'
  ∧ consistent_prefix ts ≫= term_records mkR
    = consistent_prefix ts' ≫= term_records mkR.
Proof.
  intros Hwf Hperm.
  induction Hperm as [|t t' ts ts' Ht Hts IH]; simpl; [done|].
  apply Forall_cons in Hwf as [Hwt Hwts]. destruct (IH Hwts) as [Hall Hrec].
  rewrite <- (term_perm_consistent t t' Ht), Hall. split; [done|].
  destruct (consistent t); [|done].
  by rewrite !bind_cons, Hrec, (term_perm_records mkR t t').
Qed.

Lemma default_idivfs_perm (pds idv idv' : list (dict quad pyval)) :
  Forall2 (≡ₚ) idv idv' →
  Forall2 (≡ₚ) (default_idivfs pds idv) (default_idivfs pds idv').
Proof.
  intros Hperm. destruct Hperm as [|dd dd' idv idv' Hd Hperm].
  - unfold default_idivfs. simpl. by apply Forall2_fmap, Forall_Forall2_diag, Forall_true.
  - by constructor.
Qed.

(** How a run ends and what it appends do not depend on the order of the
    items in the phase, force-constant and divisor dicts. *)
Lemma tables_perm {R}
    (mkR : nat → nat → nat → nat → pyval → pyval → pyval → pyval → R)
    lengths_msg (pds phs phs' ks ks' idv idv' : list (dict quad pyval)) :
  Forall2 (≡ₚ) phs phs' → Forall2 (≡ₚ) ks ks' → Forall2 (≡ₚ) idv idv' →
  Forall term_wf (zip4 pds phs ks (default_idivfs pds idv)) →
  torsion_outcome lengths_msg pds phs ks (default_idivfs pds idv)
  = torsion_outcome lengths_msg pds phs' ks' (default_idivfs pds idv')
  ∧ processed pds phs ks (default_idivfs pds idv) ≫= term_records mkR
    = processed pds phs' ks' (default_idivfs pds idv') ≫= term_records mkR.
Proof.
  intros Hph Hks Hidv Hwf.
  pose proof (default_idivfs_perm pds idv idv' Hidv) as Hd.
  pose proof (zip4_term_perm pds _ _ _ _ _ _ Hph Hks Hd) as Hzip.
  destruct (term_perm_prefix mkR _ _ Hwf Hzip) as [Hall Hrec].
  assert (Hl1 : length phs' = length phs)
    by (symmetry; apply (Forall2_length _ _ _ Hph)).
  assert (Hl2 : length ks' = length ks)
    by (symmetry; apply (Forall2_length _ _ _ Hks)).
  assert (Hl3 : length (default_idivfs pds idv')
                = length (default_idivfs pds idv))
    by (symmetry; apply (Forall2_length _ _ _ Hd)).
  unfold torsion_outcome, processed, lengths_agree.
  rewrite Hl1, Hl2, Hl3, <- Hall.
  split; [done|]. by destruct (_ && _).
Qed.

Section key_order.
Context `{Topology}.

(** X10.  Only the periodicity dicts fix the order of the torsion records.
    Two providers that hold the same periodicity table, and phase,
    force-constant and divisor dicts with the same items listed in another
    order, make [_build_propers] (and [_build_impropers]) end the same way
    and append the same records in the same order. *)
Theorem torsion_records_follow_periodicity_order (m m' : Molecule)
    (params params' : Parameters) :
  parameters m = Some params → parameters m' = Some params' →
  (get_dihedral_periodicities params' = get_dihedral_periodicities params →
   Forall2 (≡ₚ) (get_dihedral_phases params) (get_dihedral_phases params') →
   Forall2 (≡ₚ) (get_dihedral_ks params) (get_dihedral_ks params') →
   Forall2 (≡ₚ) (get_dihedral_idivfs params)
     (get_dihedral_idivfs params') →
   Forall term_wf
     (zip4 (get_dihedral_periodicities params) (get_dihedral_phases params)
        (get_dihedral_ks params)
        (default_idivfs (get_dihedral_periodicities params)
           (get_dihedral_idivfs params))) →
   (_build_propers m).1 = (_build_propers m').1
   ∧ ∃ recs,
       _OFF_propers (_build_propers m).2 = _OFF_propers m ++ recs
       ∧ _OFF_propers (_build_propers m').2 = _OFF_propers m' ++ recs)
  ∧ (get_improper_periodicities params' = get_improper_periodicities params →
     Forall2 (≡ₚ) (get_improper_phases params)
       (get_improper_phases params') →
     Forall2 (≡ₚ) (get_improper_ks params) (get_improper_ks params') →
     Forall2 (≡ₚ) (get_improper_idivfs params)
       (get_improper_idivfs params') →
     Forall term_wf
       (zip4 (get_improper_periodicities params)
          (get_improper_phases params) (get_improper_ks params)
          (default_idivfs (get_improper_periodicities params)
             (get_improper_idivfs params))) →
     (_build_impropers m).1 = (_build_impropers m').1
     ∧ ∃ recs,
         _OFF_impropers (_build_impropers m).2 = _OFF_impropers m ++ recs
         ∧ _OFF_impropers (_build_impropers m').2
           = _OFF_impropers m' ++ recs).
Proof.
  intros Hp Hp'. split.
  - intros Hpd Hph Hks Hidv Hwf.
    destruct (tables_perm OFFProper.mk proper_lengths_msg _ _ _ _ _ _ _
                Hph Hks Hidv Hwf) as [Hout Hrec].
    rewrite (_build_propers_run m params Hp).
    rewrite (_build_propers_run m' params' Hp'). unfold proper_terms.
    rewrite Hpd, <- Hout, <- Hrec. simpl. split; [done|].
    eexists. by destruct m, m'.
  - intros Hpd Hph Hks Hidv Hwf.
    destruct (tables_perm OFFImproper.mk improper_lengths_msg _ _ _ _ _ _ _
                Hph Hks Hidv Hwf) as [Hout Hrec].
    rewrite (_build_impropers_run m params Hp).
    rewrite (_build_impropers_run m' params' Hp'). unfold improper_terms.
    rewrite Hpd, <- Hout, <- Hrec. simpl. split; [done|].
    eexists. by destruct m, m'.
Qed.

End key_order.

(** ** Reading the PDB names *)

Section names_claims.
Context `{Topology}.

Lemma get_pdb_atom_names_outcome (m : Molecule) :
  (get_pdb_atom_names m).2 = m
  ∧ (get_pdb_atom_names m).1
    = match _off_molecule m, _rdkit_molecule m with
      | None, _ => Raise (Exception "Molecule not parameterized")
      | Some _, None => Raise AttributeError
      | Some _, Some rd => Ok (rd_atom_names rd)
      end.
Proof.
  unfold get_pdb_atom_names, _assert_parameterized, try_except.
  unfold mbind, py_bind, get_self, py_assert, mret, py_ret, raise.
  destruct (_off_molecule m) as [off|] eqn:Hoff.
  - rewrite bool_decide_eq_true_2 by by eexists.
    destruct (_rdkit_molecule m) as [rd|]; [|done].
    by rewrite foldl_snoc_id.
  - rewrite bool_decide_eq_false_2; [done|]. by intros [? ?].
Qed.

(** X11.  [get_pdb_atom_names] never changes the molecule.  It raises
    "Molecule not parameterized" when the OpenForceField molecule is unset,
    whether or not parameters are stored; it raises [AttributeError] when
    only the RDKit molecule is unset; otherwise it returns the PDB names of
    the RDKit atoms, one per atom and in atom order, with their spaces. *)
Theorem get_pdb_atom_names_reads_only (m : Molecule) :
  (get_pdb_atom_names m).2 = m
  ∧ (get_pdb_atom_names m).1
    = match _off_molecule m, _rdkit_molecule m with
      | None, _ => Raise (Exception "Molecule not parameterized")
      | Some _, None => Raise AttributeError
      | Some _, Some rd => Ok (rd_atom_names rd)
      end.
Proof. exact (get_pdb_atom_names_outcome m). Qed.

End names_claims.

(** ** Naming a molecule *)






Section naming_claims.
Context `{Topology}.





End naming_claims.

(** ** Parameterizing a molecule *)

Section parameterize_claims.
Context `{Topology} `{BondedTables} `{!ForceFieldToolkits}.

Lemma kept_refl (m : Molecule) : kept m m.
Proof. by repeat split. Qed.

Lemma kept_trans (m1 m2 m3 : Molecule) :
  kept m1 m2 → kept m2 m3 → kept m1 m3.
Proof.
  unfold kept.
  intros (? & ? & ? & ? & ? & ? & ? & ? & ? & ? & ? & ? & ? & ?)
         (? & ? & ? & ? & ? & ? & ? & ? & ? & ? & ? & ? & ? & ?).
  repeat split; try congruence; by etrans.
Qed.

(** A computation made of steps that keep the molecule keeps it. *)
Lemma kept_bind {A B} (c : py Molecule A) (f : A → py Molecule B) m :
  kept m (c m).2 → (∀ a s, kept s (f a s).2) → kept m ((c ≫= f) m).2.
Proof.
  intros Hc Hf. unfold mbind, py_bind.
  destruct (c m) as [[a|e] s] eqn:Hcm; simpl in *; [|done].
  eapply kept_trans; [exact Hc|apply Hf].
Qed.

Lemma kept_upd_atoms new (m : Molecule) :
  kept m (upd_atoms (λ l, l ++ new) m).
Proof. destruct m. repeat split; simpl; try done. by eexists. Qed.

Lemma kept_upd_bonds new (m : Molecule) :
  kept m (upd_bonds (λ l, l ++ new) m).
Proof. destruct m. repeat split; simpl; try done. by eexists. Qed.

Lemma kept_upd_angles new (m : Molecule) :
  kept m (upd_angles (λ l, l ++ new) m).
Proof. destruct m. repeat split; simpl; try done. by eexists. Qed.

Lemma _build_atoms_kept (m : Molecule) : kept m (_build_atoms m).2.
Proof.
  destruct (_off_molecule m) as [off|] eqn:Hoff;
    [destruct (_rdkit_molecule m) as [rd|] eqn:Hrd;
     [destruct (parameters m) as [params|] eqn:Hp|]|].
  - destruct (_build_atoms_new m params off rd Hp Hoff Hrd) as (new & -> & _).
    apply kept_upd_atoms.
  - rewrite _build_atoms_unfold.
    rewrite (bind_ok _ _ _ _ _ (get_pdb_atom_names_run m off rd Hoff Hrd)).
    rewrite (bind_raise _ _ _ AttributeError m);
      [apply kept_refl|unfold self_parameters; by rewrite Hp].
  - rewrite _build_atoms_unfold.
    pose proof (get_pdb_atom_names_outcome m) as [Hs Ho].
    rewrite Hoff, Hrd in Ho.
    rewrite (bind_raise _ _ _ AttributeError m); [apply kept_refl|].
    destruct (get_pdb_atom_names m). simpl in *. by subst.
  - rewrite _build_atoms_unfold.
    pose proof (get_pdb_atom_names_outcome m) as [Hs Ho].
    rewrite Hoff in Ho.
    rewrite (bind_raise _ _ _ (Exception "Molecule not parameterized") m);
      [apply kept_refl|].
    destruct (get_pdb_atom_names m). simpl in *. by subst.
Qed.

Lemma _build_bonds_kept (m : Molecule) : kept m (_build_bonds m).2.
Proof.
  destruct (parameters m) as [params|] eqn:Hp.
  - rewrite (_build_bonds_run m params Hp). apply kept_upd_bonds.
  - unfold _build_bonds.
    rewrite (bind_raise _ _ _ AttributeError m);
      [apply kept_refl|unfold self_parameters; by rewrite Hp].
Qed.

Lemma _build_angles_kept (m : Molecule) : kept m (_build_angles m).2.
Proof.
  destruct (parameters m) as [params|] eqn:Hp.
  - rewrite (_build_angles_run m params Hp). apply kept_upd_angles.
  - unfold _build_angles.
    rewrite (bind_raise _ _ _ AttributeError m);
      [apply kept_refl|unfold self_parameters; by rewrite Hp].
Qed.

Lemma _build_propers_kept (m : Molecule) : kept m (_build_propers m).2.
Proof.
  destruct (torsion_builders_keep_rest m) as [(Hb & Ho & Hp & _) _].
  unfold beside_propers in Hb. injection Hb as ? ? ? ? ? ? ? ? ? ? ? ?.
  unfold kept. repeat split; try done; try congruence;
    match goal with |- ?l `prefix_of` ?k => by replace k with l end.
Qed.

Lemma _build_impropers_kept (m : Molecule) : kept m (_build_impropers m).2.
Proof.
  destruct (torsion_builders_keep_rest m) as [_ (Hb & Ho & Hp & _)].
  unfold beside_impropers in Hb. injection Hb as ? ? ? ? ? ? ? ? ? ? ? ?.
  unfold kept. repeat split; try done; try congruence;
    match goal with |- ?l `prefix_of` ?k => by replace k with l end.
Qed.

Lemma _calculate_am1bcc_charges_kept (m : Molecule) :
  kept m (_calculate_am1bcc_charges m).2.
Proof.
  unfold _calculate_am1bcc_charges, call, mbind, py_bind, get_self, modify,
    raise.
  destruct (compute_partial_charges_am1bcc m) as [charges|e];
    [|apply kept_refl].
  destruct (_off_molecule m) as [off|] eqn:Hoff; [|apply kept_refl]. simpl.
  destruct m. simpl in *. subst. by repeat split.
Qed.

(** The steps of [parameterize] that follow the storing of the parameters. *)
Lemma builders_kept (m : Molecule) :
  kept m
    ((_calculate_am1bcc_charges;; _build_atoms;; _build_bonds;;
      _build_angles;; _build_propers;; _build_impropers) m).2.
Proof.
  apply kept_bind; [apply _calculate_am1bcc_charges_kept|]. intros _ s1.
  apply kept_bind; [apply _build_atoms_kept|]. intros _ s2.
  apply kept_bind; [apply _build_bonds_kept|]. intros _ s3.
  apply kept_bind; [apply _build_angles_kept|]. intros _ s4.
  apply kept_bind; [apply _build_propers_kept|]. intros _ s5.
  apply _build_impropers_kept.
Qed.

Lemma parameterize_run (forcefield : pyval) (m : Molecule) :
  is_Some (_off_molecule m) ∨ is_Some (_rdkit_molecule m) →
  parameterize forcefield m
  = match get_parameters_from_forcefield forcefield m with
    | Ok params =>
        (_calculate_am1bcc_charges;; _build_atoms;; _build_bonds;;
         _build_angles;; _build_propers;; _build_impropers)
          (match forcefield with
           | PyStr path =>
               set_forcefield (Some (path_stem path))
                 (set_parameters (Some params) m)
           | _ => set_parameters (Some params) m
           end)
    | Raise e => (Raise e, m)
    end.
Proof.
  intros Hset. unfold parameterize.
  unfold mbind at 1, py_bind at 1, get_self.
  replace (negb (bool_decide (is_Some (_off_molecule m)))
           && negb (bool_decide (is_Some (_rdkit_molecule m))))
    with false.
  2:{ symmetry. apply andb_false_iff.
      destruct Hset as [Hs|Hs]; [left|right];
        by rewrite bool_decide_eq_true_2. }
  unfold mbind at 1, py_bind at 1, call.
  destruct (get_parameters_from_forcefield forcefield m) as [params|e];
    [|done].
  unfold mbind at 1, py_bind at 1, modify.
  unfold mbind at 1, py_bind at 1.
  by destruct forcefield.
Qed.

Lemma parameterize_raise_unchanged (forcefield : pyval) (m : Molecule) :
  (_off_molecule m = None → _rdkit_molecule m = None →
   parameterize forcefield m = (Raise (Exception not_initialized_msg), m))
  ∧ (is_Some (_off_molecule m) ∨ is_Some (_rdkit_molecule m) →
     ∀ e, get_parameters_from_forcefield forcefield m = Raise e →
       parameterize forcefield m = (Raise e, m)).
Proof.
  split.
  - intros Hoff Hrd. unfold parameterize, mbind, py_bind, get_self.
    rewrite Hoff, Hrd.
    by rewrite !bool_decide_eq_false_2 by (by intros [? ?]).
  - intros Hset e He. by rewrite (parameterize_run forcefield m Hset), He.
Qed.

(** X14.  On a molecule that has neither an OpenForceField molecule nor an
    RDKit molecule (one made without a path), [parameterize] raises
    "OpenForceField molecule was not initialized correctly" before it calls
    any toolkit, and leaves the molecule as it was.  On any other molecule a
    failure of the parameter provider is raised as it is, the molecule still
    unchanged. *)
Theorem parameterize_needs_a_molecule (forcefield : pyval) (m : Molecule) :
  (_off_molecule m = None → _rdkit_molecule m = None →
   parameterize forcefield m = (Raise (Exception not_initialized_msg), m))
  ∧ (is_Some (_off_molecule m) ∨ is_Some (_rdkit_molecule m) →
     ∀ e, get_parameters_from_forcefield forcefield m = Raise e →
       parameterize forcefield m = (Raise e, m)).
Proof. exact (parameterize_raise_unchanged forcefield m). Qed.

(** X15.  However a run of [parameterize] ends, it has removed or reordered
    no record: each of the seven lists of records of the molecule is the
    front of the same list afterwards (so a second run appends to what the
    first has built).  The name, the RDKit molecule, the rotamer library and
    the graph are untouched, and the OpenForceField molecule is set or not
    as before and has kept its name. *)
Theorem parameterize_only_appends (forcefield : pyval) (m : Molecule) :
  let m' := (parameterize forcefield m).2 in
  _name m' = _name m
  ∧ _rdkit_molecule m' = _rdkit_molecule m
  ∧ _rotamer_library m' = _rotamer_library m ∧ _graph m' = _graph m
  ∧ off_name <$> _off_molecule m' = off_name <$> _off_molecule m
  ∧ _atoms m `prefix_of` _atoms m' ∧ _bonds m `prefix_of` _bonds m'
  ∧ _angles m `prefix_of` _angles m'
  ∧ _propers m `prefix_of` _propers m'
  ∧ _OFF_propers m `prefix_of` _OFF_propers m'
  ∧ _impropers m `prefix_of` _impropers m'
  ∧ _OFF_impropers m `prefix_of` _OFF_impropers m'.
Proof.
  intros m'. subst m'.
  destruct (decide (is_Some (_off_molecule m) ∨ is_Some (_rdkit_molecule m)))
    as [Hset|Hunset].
  - rewrite (parameterize_run forcefield m Hset).
    destruct (get_parameters_from_forcefield forcefield m) as [params|e];
      [|by repeat split].
    match goal with
    | |- context [(_ ;; _) ?s] => pose proof (builders_kept s) as Hk
    end.
    destruct Hk as (? & ? & ? & ? & ? & ? & ? & ? & ? & ? & ? & ? & ? & ?).
    destruct forcefield, m; simpl in *; by repeat split.
  - destruct (parameterize_raise_unchanged forcefield m) as [Hraise _].
    rewrite Hraise; [by repeat split| |].
    + destruct (_off_molecule m); [|done]. exfalso. apply Hunset. left.
      by eexists.
    + destruct (_rdkit_molecule m); [|done]. exfalso. apply Hunset. right.
      by eexists.
Qed.

(** X16.  Once the parameter provider has answered, its parameters are stored
    in the molecule, and stay stored however the rest of [parameterize]
    ends, even when a builder raises; when the force field is given as a
    path, the stem of the path is stored as the name of the force field, and
    otherwise the stored force field is left as it was. *)
Theorem parameterize_stores_parameters (forcefield : pyval) (m : Molecule)
    (params : Parameters) :
  is_Some (_off_molecule m) ∨ is_Some (_rdkit_molecule m) →
  get_parameters_from_forcefield forcefield m = Ok params →
  parameters (parameterize forcefield m).2 = Some params
  ∧ _forcefield (parameterize forcefield m).2
    = match forcefield with
      | PyStr path => Some (path_stem path)
      | _ => _forcefield m
      end.
Proof.
  intros Hset Hps. rewrite (parameterize_run forcefield m Hset), Hps.
  match goal with
  | |- context [(_ ;; _) ?s] => pose proof (builders_kept s) as Hk
  end.
  destruct Hk as (_ & Hff & Hp & _). rewrite Hp, Hff.
  by destruct forcefield, m.
Qed.

End parameterize_claims.

(** ** Assignments to a dict *)

Section dict_set_lemmas.
Context {K : Type} `{EqDecision K} {V : Type}.

Lemma dict_lookup_set_eq (k : K) (v : V) (d : dict K V) :
  dict_lookup k (dict_set k v d) = Some v.
Proof.
  induction d as [|[k' v'] d IH]; simpl.
  - by rewrite decide_True.
  - destruct (decide (k' = k)); simpl.
    + by rewrite decide_True.
    + by rewrite decide_False.
Qed.

Lemma dict_lookup_set_ne (k k' : K) (v : V) (d : dict K V) :
  k ≠ k' → dict_lookup k' (dict_set k v d) = dict_lookup k' d.
Proof.
  intros Hne. induction d as [|[k1 v1] d IH]; simpl.
  - by rewrite decide_False.
  - destruct (decide (k1 = k)) as [->|]; simpl.
    + by rewrite !decide_False.
    + destruct (decide (k1 = k')); [done|]. apply IH.
Qed.

Lemma dict_set_set (k : K) (v v' : V) (d : dict K V) :
  dict_set k v' (dict_set k v d) = dict_set k v' d.
Proof.
  induction d as [|[k1 v1] d IH]; simpl.
  - by rewrite decide_True.
  - destruct (decide (k1 = k)); simpl.
    + by rewrite decide_True.
    + rewrite decide_False by done. by rewrite IH.
Qed.

Lemma elem_of_keys_dict_set (k k' : K) (v : V) (d : dict K V) :
  k' ∈ keys (dict_set k v d) ↔ k' = k ∨ k' ∈ keys d.
Proof.
  induction d as [|[k1 v1] d IH]; simpl.
  - unfold keys. simpl. rewrite list_elem_of_singleton.
    split; [by left|]. intros [?|Hin]; [done|]. by apply elem_of_nil in Hin.
  - destruct (decide (k1 = k)) as [->|Hne]; unfold keys in *; simpl.
    + rewrite !elem_of_cons. tauto.
    + rewrite !elem_of_cons, IH. tauto.
Qed.

Lemma dict_set_wf (k : K) (v : V) (d : dict K V) :
  dict_wf d → dict_wf (dict_set k v d).
Proof.
  unfold dict_wf. induction d as [|[k1 v1] d IH]; simpl.
  - intros _. unfold keys. simpl. apply NoDup_singleton.
  - intros [Hnin Hnd]%NoDup_cons.
    destruct (decide (k1 = k)) as [->|Hne]; unfold keys in *; simpl.
    + by apply NoDup_cons.
    + apply NoDup_cons. split; [|by apply IH].
      intros [?|?]%elem_of_keys_dict_set; [congruence|done].
Qed.

End dict_set_lemmas.

(** After a run of assignments the dict holds every assigned key once, with
    the value assigned to it last. *)
Lemma atom_table_last (items : list (string * jvalue)) :
  dict_wf (atom_table items)
  ∧ (∀ k, k ∈ keys (atom_table items) ↔ k ∈ items.*1)
  ∧ ∀ k, k ∈ items.*1 →
      ∃ j v, items !! j = Some (k, v)
             ∧ (∀ j' x, j < j' → items !! j' = Some x → x.1 ≠ k)
             ∧ dict_lookup k (atom_table items) = Some v.
Proof.
  unfold atom_table.
  induction items as [|[k1 v1] items (Hwf & Hkeys & Hlast)] using rev_ind.
  - split; [apply NoDup_nil_2|]. split; [done|].
    intros k Hk. by apply elem_of_nil in Hk.
  - rewrite foldl_snoc. simpl. split; [by apply dict_set_wf|]. split.
    + intros k. rewrite elem_of_keys_dict_set, Hkeys, fmap_app, elem_of_app.
      simpl. rewrite list_elem_of_singleton. tauto.
    + intros k Hk. destruct (decide (k1 = k)) as [->|Hne].
      * exists (length items), v1.
        split; [by rewrite lookup_app_r, Nat.sub_diag|].
        split; [|apply dict_lookup_set_eq].
        intros j' x Hj Hx. apply lookup_lt_Some in Hx.
        rewrite length_app in Hx. simpl in Hx. lia.
      * rewrite fmap_app, elem_of_app in Hk. destruct Hk as [Hk|Hk];
          [|simpl in Hk; apply list_elem_of_singleton in Hk; congruence].
        destruct (Hlast k Hk) as (j & v & Hj & Hafter & Hl).
        exists j, v. split; [by apply lookup_app_l_Some|].
        split; [|by rewrite dict_lookup_set_ne].
        intros j' x Hlt Hx.
        destruct (decide (j' < length items)) as [Hin|Hout].
        -- rewrite lookup_app_l in Hx by done. by eapply Hafter.
        -- rewrite lookup_app_r in Hx by lia.
           destruct (j' - length items) as [|n]; simpl in Hx; [|done].
           injection Hx as <-. done.
Qed.

(** ** The dictionary of a solvent wrapper *)

Section to_dict_claims.
Context `{Topology} `{Numerics}.

Lemma assign_atom (self : Solvent.t) table name v :
  assign ["SolventParameters"; _name (Solvent._molecule self)] name v
    (data_with self table)
  = (Ok tt, data_with self (dict_set name v table)).
Proof.
  unfold assign, data_with. cbn [j_set dict_lookup].
  rewrite decide_True by done. rewrite dict_lookup_set_eq.
  cbv beta iota. rewrite dict_set_set.
  cbn [dict_set]. by rewrite decide_True by done.
Qed.

Lemma getitem_KeyError {K} `{EqDecision K} {V S} (d : dict K V) k (s : S) :
  dict_lookup k d = None → getitem d k s = (Raise KeyError, s).
Proof. intros Hl. unfold getitem. by rewrite Hl. Qed.

Lemma to_dict_turn (self : Solvent.t) (index : nat) (pdb_name : string)
    table :
  (radius ← getitem (Solvent.radii self) [index];
   scale ← getitem (Solvent.scales self) [index];
   assign ["SolventParameters"; _name (Solvent._molecule self)]
     (replace " "%char "_"%char pdb_name) (atom_entry radius scale))
    (data_with self table)
  = match atom_item self (index, pdb_name) with
    | Some item => (Ok tt, data_with self (dict_set item.1 item.2 table))
    | None => (Raise KeyError, data_with self table)
    end.
Proof.
  unfold atom_item. cbn [fst snd].
  destruct (dict_lookup [index] (Solvent.radii self)) as [radius|] eqn:Hr.
  - rewrite (bind_ok _ _ _ radius (data_with self table))
      by exact (getitem_ok _ _ _ _ Hr).
    destruct (dict_lookup [index] (Solvent.scales self)) as [scale|] eqn:Hs.
    + rewrite (bind_ok _ _ _ scale (data_with self table))
        by exact (getitem_ok _ _ _ _ Hs).
      apply assign_atom.
    + by rewrite (bind_raise _ _ _ KeyError (data_with self table))
        by exact (getitem_KeyError _ _ _ Hs).
  - by rewrite (bind_raise _ _ _ KeyError (data_with self table))
      by exact (getitem_KeyError _ _ _ Hr).
Qed.

Lemma to_dict_loop (self : Solvent.t) (xs : list (nat * string)) table :
  for_ xs (λ '(index, pdb_name),
    let name := replace " "%char "_"%char pdb_name in
    radius ← getitem (Solvent.radii self) [index];
    scale ← getitem (Solvent.scales self) [index];
    assign ["SolventParameters"; _name (Solvent._molecule self)] name
      (atom_entry radius scale)) (data_with self table)
  = (if forallb (λ x, bool_decide (is_Some (atom_item self x))) xs
     then Ok tt else Raise KeyError,
     data_with self
       (foldl (λ table item, dict_set item.1 item.2 table) table
          (prefix_omap (atom_item self) xs))).
Proof.
  revert table. induction xs as [|[index pdb_name] xs IH]; intros table;
    [done|].
  cbn [for_ forallb prefix_omap].
  pose proof (to_dict_turn self index pdb_name table) as Hturn.
  destruct (atom_item self (index, pdb_name)) as [item|] eqn:Hitem.
  - rewrite (bind_ok _ _ _ tt _ Hturn).
    rewrite bool_decide_eq_true_2 by by eexists. apply IH.
  - rewrite (bind_raise _ _ _ _ _ Hturn).
    by rewrite bool_decide_eq_false_2 by (by intros [? ?]).
Qed.

Lemma to_dict_steps_run (self : Solvent.t) :
  to_dict_steps self (JDict [])
  = match _rdkit_molecule (Solvent._molecule self) with
    | Some rd =>
        let xs := enumerate (rd_atom_names rd) in
        (if forallb (λ x, bool_decide (is_Some (atom_item self x))) xs
         then Ok tt else Raise KeyError,
         data_with self (atom_table (prefix_omap (atom_item self) xs)))
    | None => (Raise AttributeError, data_with self [])
    end.
Proof.
  unfold to_dict_steps.
  do 7 (rewrite (bind_ok _ _ _ tt _) by (cbv; reflexivity)).
  rewrite (bind_ok _ _ _ tt (data_with self [])).
  2:{ unfold assign, data_with. cbn [j_set dict_lookup].
      rewrite decide_True by done. cbv beta iota. cbn [dict_set].
      by rewrite decide_True by done. }
  unfold rdkit_atoms.
  destruct (_rdkit_molecule (Solvent._molecule self)) as [rd|]; [|done].
  rewrite (bind_ok _ _ _ (enumerate (rd_atom_names rd)) (data_with self []))
    by reflexivity.
  apply to_dict_loop.
Qed.

Lemma atom_item_is_Some (self : Solvent.t) (x : nat * string) :
  is_Some (atom_item self x)
  ↔ [x.1] ∈ keys (Solvent.radii self) ∧ [x.1] ∈ keys (Solvent.scales self).
Proof.
  unfold atom_item. split.
  - intros [item Hitem].
    destruct (dict_lookup [x.1] (Solvent.radii self)) as [r|] eqn:Hr;
      [|done].
    destruct (dict_lookup [x.1] (Solvent.scales self)) as [s|] eqn:Hs;
      [|done].
    split; by eapply dict_lookup_Some_key.
  - intros [[r Hr]%dict_lookup_is_Some [s Hs]%dict_lookup_is_Some].
    rewrite Hr, Hs. by eexists.
Qed.

Lemma name_ok_not_reserved (name : string) :
  name = "" ∨ String.length name = 3 → name ≠ "Name" ∧ name ≠ "General".
Proof.
  intros [->|Hlen]; split; intros Heq; try discriminate Heq;
    subst name; simpl in Hlen; lia.
Qed.

Lemma to_dict_outcome (self : Solvent.t) (rd : RDKitMolecule) :
  _rdkit_molecule (Solvent._molecule self) = Some rd →
  _name (Solvent._molecule self) = ""
  ∨ String.length (_name (Solvent._molecule self)) = 3 →
  let complete :=
    ∀ i, i < length (rd_atom_names rd) →
      [i] ∈ keys (Solvent.radii self) ∧ [i] ∈ keys (Solvent.scales self) in
  (complete →
   to_dict self
   = Ok (JDict
           [ ("SolventParameters",
              JDict
                [ ("Name", name_entry self);
                  ("General", general_entry self);
                  (_name (Solvent._molecule self),
                   JDict (atom_table
                            (prefix_omap (atom_item self)
                               (enumerate (rd_atom_names rd))))) ]) ]))
  ∧ (¬ complete → to_dict self = Raise KeyError).
Proof.
  intros Hrd Hname complete.
  destruct (name_ok_not_reserved _ Hname) as [Hn Hg].
  unfold to_dict. rewrite (to_dict_steps_run self), Hrd. cbn zeta.
  split.
  - intros Hc. rewrite forallb_is_Some_all.
    + unfold data_with. cbn [dict_set]. by rewrite !decide_False by done.
    + intros [i name] Hx. apply atom_item_is_Some. apply Hc.
      apply list_elem_of_lookup in Hx as [j Hj]. unfold enumerate in Hj.
      rewrite enumerate_from_lookup in Hj.
      destruct (rd_atom_names rd !! j) as [n|] eqn:Hn'; [|done].
      injection Hj as <- <-. simpl. by eapply lookup_lt_Some.
  - intros Hnc.
    destruct (forallb _ _) eqn:Hall; [|done]. exfalso. apply Hnc.
    intros i Hi. rewrite forallb_forall in Hall.
    destruct (lookup_lt_is_Some_2 _ _ Hi) as [name Hname'].
    apply (atom_item_is_Some self (i, name)).
    eapply bool_decide_eq_true_1, Hall, list_elem_of_In, list_elem_of_lookup.
    exists i. unfold enumerate. by rewrite enumerate_from_lookup, Hname'.
Qed.

(** X17.  For a wrapper whose molecule has an RDKit molecule and a name that
    is empty or three characters long (as [set_name] leaves it), [to_dict]
    raises [KeyError] exactly when some RDKit atom has no radius or no scale
    under its index.  Otherwise it returns a dict with the one key
    'SolventParameters', under which it holds, in this order, the name of
    the wrapper under 'Name', the four rounded general parameters under
    'General', and the table of the atoms under the name of the molecule. *)
Theorem to_dict_result (self : Solvent.t) (rd : RDKitMolecule) :
  _rdkit_molecule (Solvent._molecule self) = Some rd →
  _name (Solvent._molecule self) = ""
  ∨ String.length (_name (Solvent._molecule self)) = 3 →
  let complete :=
    ∀ i, i < length (rd_atom_names rd) →
      [i] ∈ keys (Solvent.radii self) ∧ [i] ∈ keys (Solvent.scales self) in
  (complete →
   to_dict self
   = Ok (JDict
           [ ("SolventParameters",
              JDict
                [ ("Name", name_entry self);
                  ("General", general_entry self);
                  (_name (Solvent._molecule self),
                   JDict (atom_table
                            (prefix_omap (atom_item self)
                               (enumerate (rd_atom_names rd))))) ]) ]))
  ∧ (¬ complete → to_dict self = Raise KeyError).
Proof. exact (to_dict_outcome self rd). Qed.

(** X18.  In the dict that [to_dict] returns, the table of the atoms is keyed
    by the PDB names with their spaces replaced by underscores, each key
    once.  Atoms that share a name share an entry: the entry under the name
    of an atom holds the rounded radius and scale of the last RDKit atom
    with that name. *)
Theorem to_dict_atom_table (self : Solvent.t) (rd : RDKitMolecule) :
  _rdkit_molecule (Solvent._molecule self) = Some rd →
  _name (Solvent._molecule self) = ""
  ∨ String.length (_name (Solvent._molecule self)) = 3 →
  (∀ i, i < length (rd_atom_names rd) →
     [i] ∈ keys (Solvent.radii self) ∧ [i] ∈ keys (Solvent.scales self)) →
  ∃ table,
    to_dict self
    = Ok (JDict
            [ ("SolventParameters",
               JDict
                 [ ("Name", name_entry self);
                   ("General", general_entry self);
                   (_name (Solvent._molecule self), JDict table) ]) ])
    ∧ dict_wf table
    ∧ (∀ key, key ∈ keys table
              ↔ ∃ i name, rd_atom_names rd !! i = Some name
                          ∧ key = replace " "%char "_"%char name)
    ∧ ∀ i name, rd_atom_names rd !! i = Some name →
        ∃ j name' radius scale,
          i ≤ j
          ∧ rd_atom_names rd !! j = Some name'
          ∧ replace " "%char "_"%char name'
            = replace " "%char "_"%char name
          ∧ (∀ j' n, j < j' → rd_atom_names rd !! j' = Some n →
               replace " "%char "_"%char n
               ≠ replace " "%char "_"%char name)
          ∧ dict_lookup [j] (Solvent.radii self) = Some radius
          ∧ dict_lookup [j] (Solvent.scales self) = Some scale
          ∧ dict_lookup (replace " "%char "_"%char name) table
            = Some (atom_entry radius scale).
Proof.
  intros Hrd Hname Hc.
  set (xs := enumerate (rd_atom_names rd)).
  set (items := prefix_omap (atom_item self) xs).
  exists (atom_table items).
  split; [by apply (to_dict_outcome self rd Hrd Hname)|].
  assert (Hsome : ∀ x, x ∈ xs → is_Some (atom_item self x)).
  { intros [i name] Hx. apply atom_item_is_Some. apply Hc.
    apply list_elem_of_lookup in Hx as [j Hj]. unfold xs, enumerate in Hj.
    rewrite enumerate_from_lookup in Hj.
    destruct (rd_atom_names rd !! j) as [n|] eqn:Hn'; [|done].
    injection Hj as <- <-. simpl. by eapply lookup_lt_Some. }
  destruct (prefix_omap_enumerate (atom_item self) (rd_atom_names rd) Hsome)
    as [Hlen Hitems]. fold xs items in Hlen, Hitems.
  assert (Hitem : ∀ j x, items !! j = Some x →
            ∃ n r s, rd_atom_names rd !! j = Some n
                     ∧ dict_lookup [j] (Solvent.radii self) = Some r
                     ∧ dict_lookup [j] (Solvent.scales self) = Some s
                     ∧ x = (replace " "%char "_"%char n, atom_entry r s)).
  { intros j x Hx. pose proof (lookup_lt_Some _ _ _ Hx) as Hj.
    rewrite Hlen in Hj. destruct (lookup_lt_is_Some_2 _ _ Hj) as [n Hn].
    destruct (Hitems j n Hn) as (y & Hy & Hof). rewrite Hx in Hy.
    injection Hy as <-. unfold atom_item in Hof. simpl in Hof.
    destruct (dict_lookup [j] (Solvent.radii self)) as [r|]; [|done].
    destruct (dict_lookup [j] (Solvent.scales self)) as [s|]; [|done].
    injection Hof as <-. by exists n, r, s. }
  assert (Hkey : ∀ i name, rd_atom_names rd !! i = Some name →
            replace " "%char "_"%char name ∈ items.*1).
  { intros i name Hi. destruct (Hitems i name Hi) as (x & Hx & _).
    destruct (Hitem i x Hx) as (n & r & s & Hn & _ & _ & ->).
    rewrite Hi in Hn. injection Hn as <-.
    apply list_elem_of_fmap. eexists. split; [|by eapply list_elem_of_lookup_2].
    done. }
  destruct (atom_table_last items) as (Hwf & Hkeys & Hlast).
  split; [done|]. split.
  - intros key. rewrite Hkeys. split.
    + intros (x & -> & Hx)%list_elem_of_fmap.
      apply list_elem_of_lookup in Hx as [j Hj].
      destruct (Hitem j x Hj) as (n & r & s & Hn & _ & _ & ->).
      by exists j, n.
    + intros (i & name & Hi & ->). by eapply Hkey.
  - intros i name Hi.
    destruct (Hlast _ (Hkey i name Hi)) as (j & v & Hj & Hafter & Hl).
    destruct (Hitem j _ Hj) as (n & r & s & Hn & Hr & Hs & Heq).
    injection Heq as Hk ->. exists j, n, r, s.
    assert (Hafter' : ∀ j' n', j < j' → rd_atom_names rd !! j' = Some n' →
              replace " "%char "_"%char n' ≠ replace " "%char "_"%char name).
    { intros j' n' Hlt Hn'. destruct (Hitems j' n' Hn') as (x & Hx & _).
      destruct (Hitem j' x Hx) as (n2 & r2 & s2 & Hn2 & _ & _ & ->).
      rewrite Hn' in Hn2. injection Hn2 as <-.
      apply (Hafter j' _ Hlt Hx). }
    split.
    { destruct (decide (i ≤ j)); [done|]. exfalso.
      apply (Hafter' i name); [lia|done|done]. }
    by repeat split.
Qed.

End to_dict_claims.

(** ** Runs on the sample data *)

Example example_to_dict_shared_name :
  @to_dict Example.topology Sample.numerics Sample.wrapper
  = Ok (JDict
          [ ("SolventParameters",
             JDict
               [ ("Name", JVal (PyStr "OBC2"));
                 ("General",
                  JDict
                    [ ("solvent_dielectric", JVal (PyFloat (157 # 2)));
                      ("solute_dielectric", JVal (PyFloat 1));
                      ("solvent_radius", JVal (PyFloat (7 # 5)));
                      ("surface_area_penalty", JVal (PyFloat (1 # 200))) ]);
                 ("HOH",
                  JDict
                    [ ("_H1_",
                       JDict [ ("radius", JVal (PyFloat (13 # 10)));
                               ("scale", JVal (PyFloat (9 # 10))) ]);
                      ("_O1_",
                       JDict [ ("radius", JVal (PyFloat (3 # 2)));
                               ("scale", JVal (PyFloat (17 # 20))) ]) ]) ]) ]).
Proof. reflexivity. Qed.

Example example_parameterize :
  (@parameterize Example.topology Sample.bonded Sample.toolkits
     (PyStr "openff_unconstrained-1.2.0.offxml") Sample.loaded).1 = Ok tt
  ∧ length
      (_atoms
         (@parameterize Example.topology Sample.bonded Sample.toolkits
            (PyStr "openff_unconstrained-1.2.0.offxml") Sample.loaded).2) = 5
  ∧ length
      (_bonds
         (@parameterize Example.topology Sample.bonded Sample.toolkits
            (PyStr "openff_unconstrained-1.2.0.offxml") Sample.loaded).2) = 4
  ∧ length
      (_angles
         (@parameterize Example.topology Sample.bonded Sample.toolkits
            (PyStr "openff_unconstrained-1.2.0.offxml") Sample.loaded).2) = 3.
Proof. by vm_compute. Qed.

Lemma sample_bonds_complete :
  ∀ key, key ∈ keys (@get_bond_parameters Sample.bonded Example.params) →
    key ∈ keys (@get_bond_ks Sample.bonded Example.params)
    ∧ key ∈ keys (@get_bond_lengths Sample.bonded Example.params).
Proof.
  intros key Hin. unfold keys in Hin. simpl in Hin.
  repeat (apply elem_of_cons in Hin as [->|Hin];
          [split; apply (bool_decide_unpack _); vm_compute; exact I|]).
  by apply elem_of_nil in Hin.
Qed.

Lemma sample_angles_complete :
  ∀ key, key ∈ keys (@get_angle_parameters Sample.bonded Example.params) →
    key ∈ keys (@get_angle_ks Sample.bonded Example.params)
    ∧ key ∈ keys (@get_angle_angles Sample.bonded Example.params).
Proof.
  intros key Hin. unfold keys in Hin. simpl in Hin.
  repeat (apply elem_of_cons in Hin as [->|Hin];
          [split; apply (bool_decide_unpack _); vm_compute; exact I|]).
  by apply elem_of_nil in Hin.
Qed.

Lemma _build_bonds_complete_witness :
  parameters (Example.molecule Example.params) = Some Example.params
  ∧ ∃ bonds,
      @_build_bonds Example.topology Sample.bonded
        (Example.molecule Example.params)
      = (Ok tt,
         upd_bonds (λ l, l ++ bonds) (Example.molecule Example.params))
      ∧ length bonds = 4.
Proof.
  split; [reflexivity|].
  destruct (@_build_bonds_complete Example.topology Sample.bonded
              (Example.molecule Example.params) Example.params eq_refl
              sample_bonds_complete) as (bonds & Hrun & Hlen & _).
  exists bonds. split; [exact Hrun|exact Hlen].
Defined.

Lemma _build_bonds_missing_key_witness :
  parameters (Example.molecule Example.params) = Some Example.params
  ∧ keys (@get_bond_parameters Sample.bonded_gap Example.params)
    = [(0, 1); (1, 2)] ++ (2, 3) :: [(3, 4)]
  ∧ ∃ bonds,
      @_build_bonds Example.topology Sample.bonded_gap
        (Example.molecule Example.params)
      = (Raise KeyError,
         upd_bonds (λ l, l ++ bonds) (Example.molecule Example.params))
      ∧ length bonds = 2.
Proof.
  split; [reflexivity|]. split; [reflexivity|].
  destruct (@_build_bonds_missing_key Example.topology Sample.bonded_gap
              (Example.molecule Example.params) Example.params
              [(0, 1); (1, 2)] [(3, 4)] (2, 3) eq_refl eq_refl)
    as (bonds & Hrun & Hlen & _).
  - intros k Hin.
    repeat (apply elem_of_cons in Hin as [->|Hin];
            [split; apply (bool_decide_unpack _); vm_compute; exact I|]).
    by apply elem_of_nil in Hin.
  - left. apply (bool_decide_unpack _). vm_compute. exact I.
  - exists bonds. split; [exact Hrun|exact Hlen].
Defined.

Lemma _build_angles_complete_witness :
  parameters (Example.molecule Example.params) = Some Example.params
  ∧ ∃ angles,
      @_build_angles Example.topology Sample.bonded
        (Example.molecule Example.params)
      = (Ok tt,
         upd_angles (λ l, l ++ angles) (Example.molecule Example.params))
      ∧ length angles = 3.
Proof.
  split; [reflexivity|].
  destruct (@_build_angles_complete Example.topology Sample.bonded
              (Example.molecule Example.params) Example.params eq_refl
              sample_angles_complete) as (angles & Hrun & Hlen & _).
  exists angles. split; [exact Hrun|exact Hlen].
Defined.

Lemma _build_angles_missing_key_witness :
  parameters (Example.molecule Example.params) = Some Example.params
  ∧ keys (@get_angle_parameters Sample.bonded_gap Example.params)
    = [(0, 1, 2)] ++ (1, 2, 3) :: [(2, 3, 4)]
  ∧ ∃ angles,
      @_build_angles Example.topology Sample.bonded_gap
        (Example.molecule Example.params)
      = (Raise KeyError,
         upd_angles (λ l, l ++ angles) (Example.molecule Example.params))
      ∧ length angles = 1.
Proof.
  split; [reflexivity|]. split; [reflexivity|].
  destruct (@_build_angles_missing_key Example.topology Sample.bonded_gap
              (Example.molecule Example.params) Example.params
              [(0, 1, 2)] [(2, 3, 4)] (1, 2, 3) eq_refl eq_refl)
    as (angles & Hrun & Hlen & _).
  - intros k Hin.
    repeat (apply elem_of_cons in Hin as [->|Hin];
            [split; apply (bool_decide_unpack _); vm_compute; exact I|]).
    by apply elem_of_nil in Hin.
  - right. apply (bool_decide_unpack _). vm_compute. exact I.
  - exists angles. split; [exact Hrun|exact Hlen].
Defined.

Lemma _build_atoms_Ok_iff_complete_witness :
  parameters (Example.molecule Example.params) = Some Example.params
  ∧ _off_molecule (Example.molecule Example.params)
    = Some Example.off_molecule
  ∧ _rdkit_molecule (Example.molecule Example.params)
    = Some Example.rdkit_molecule
  ∧ ((@_build_atoms Example.topology (Example.molecule Example.params)).1
     = Ok tt
     ↔ atom_tables_complete Example.params Example.off_molecule
         Example.rdkit_molecule).
Proof.
  split; [reflexivity|]. split; [reflexivity|]. split; [reflexivity|].
  exact (proj1 (@_build_atoms_Ok_iff_complete Example.topology
                  (Example.molecule Example.params) Example.params
                  Example.off_molecule Example.rdkit_molecule
                  eq_refl eq_refl eq_refl)).
Defined.

Lemma sample_mixed_not_numeric :
  Exists (λ v, numeric v = None) (values (select_sigmas Example.params_mixed)).
Proof.
  apply Exists_exists. exists PyNone. split; [|reflexivity].
  apply list_elem_of_In. vm_compute. right. by left.
Qed.

Lemma _build_atoms_TypeError_witness :
  parameters (Example.molecule Example.params_mixed)
  = Some Example.params_mixed
  ∧ @_build_atoms Example.topology (Example.molecule Example.params_mixed)
    = (Raise TypeError, Example.molecule Example.params_mixed).
Proof.
  split; [reflexivity|].
  exact (@_build_atoms_TypeError Example.topology
           (Example.molecule Example.params_mixed) Example.params_mixed
           Example.off_molecule Example.rdkit_molecule
           eq_refl eq_refl eq_refl sample_mixed_not_numeric).
Defined.

Lemma built_atom_names_have_no_space_witness :
  parameters (Example.molecule Example.params) = Some Example.params
  ∧ ∃ new,
      _atoms
        (@_build_atoms Example.topology (Example.molecule Example.params)).2
      = _atoms (Example.molecule Example.params) ++ new.
Proof.
  split; [reflexivity|].
  destruct (@built_atom_names_have_no_space Example.topology
              (Example.molecule Example.params) Example.params
              Example.off_molecule Example.rdkit_molecule
              eq_refl eq_refl eq_refl) as (new & Hnew & _).
  exists new. exact Hnew.
Defined.

Lemma torsion_builders_append_again_witness :
  parameters (Example.molecule Example.params) = Some Example.params
  ∧ (@_build_propers Example.topology
       (@_build_propers Example.topology
          (Example.molecule Example.params)).2).1
    = (@_build_propers Example.topology (Example.molecule Example.params)).1.
Proof.
  split; [reflexivity|].
  exact (proj2 (proj1 (@torsion_builders_append_again Example.topology
                         (Example.molecule Example.params) Example.params
                         eq_refl))).
Defined.

Lemma sample_terms_wf :
  Forall term_wf
    (zip4 Example.periodicities Example.phases Example.ks
       (default_idivfs Example.periodicities Example.idivfs)).
Proof.
  repeat (constructor;
          [repeat split; apply (bool_decide_unpack _); vm_compute; exact I|]).
  constructor.
Qed.

Lemma torsion_records_follow_periodicity_order_witness :
  parameters (Example.molecule Example.params) = Some Example.params
  ∧ parameters (Example.molecule Sample.params_swapped)
    = Some Sample.params_swapped
  ∧ Forall2 (≡ₚ) (get_dihedral_phases Example.params)
      (get_dihedral_phases Sample.params_swapped)
  ∧ (@_build_propers Example.topology (Example.molecule Example.params)).1
    = (@_build_propers Example.topology
         (Example.molecule Sample.params_swapped)).1.
Proof.
  assert (Hswap : ∀ a b : quad * pyval, [a; b] ≡ₚ [b; a])
    by (intros a b; apply perm_swap).
  assert (Hph : Forall2 (≡ₚ) (get_dihedral_phases Example.params)
                  (get_dihedral_phases Sample.params_swapped))
    by (constructor; [apply Hswap|constructor; [reflexivity|constructor]]).
  split; [reflexivity|]. split; [reflexivity|]. split; [exact Hph|].
  refine (proj1 (proj1 (@torsion_records_follow_periodicity_order
                          Example.topology
                          (Example.molecule Example.params)
                          (Example.molecule Sample.params_swapped)
                          Example.params Sample.params_swapped
                          eq_refl eq_refl)
                   eq_refl Hph _ _ sample_terms_wf)).
  - constructor; [apply Hswap|constructor; [reflexivity|constructor]].
  - constructor; [apply Hswap|constructor; [reflexivity|constructor]].
Defined.



Lemma parameterize_needs_a_molecule_witness :
  _off_molecule Example.blank = None
  ∧ _rdkit_molecule Example.blank = None
  ∧ @parameterize Example.topology Sample.bonded Sample.toolkits
      (PyStr "openff_unconstrained-1.2.0.offxml") Example.blank
    = (Raise (Exception not_initialized_msg), Example.blank).
Proof.
  split; [reflexivity|]. split; [reflexivity|].
  exact (proj1 (@parameterize_needs_a_molecule Example.topology
                  Sample.bonded Sample.toolkits
                  (PyStr "openff_unconstrained-1.2.0.offxml") Example.blank)
           eq_refl eq_refl).
Defined.

Lemma parameterize_stores_parameters_witness :
  @get_parameters_from_forcefield Example.topology Sample.toolkits
    (PyStr "openff_unconstrained-1.2.0.offxml") Sample.loaded
  = Ok Example.params
  ∧ parameters
      (@parameterize Example.topology Sample.bonded Sample.toolkits
         (PyStr "openff_unconstrained-1.2.0.offxml") Sample.loaded).2
    = Some Example.params.
Proof.
  split; [reflexivity|].
  refine (proj1 (@parameterize_stores_parameters Example.topology
                   Sample.bonded Sample.toolkits
                   (PyStr "openff_unconstrained-1.2.0.offxml") Sample.loaded
                   Example.params _ eq_refl)).
  left. eexists. reflexivity.
Defined.

Lemma sample_wrapper_complete :
  ∀ i, i < length (rd_atom_names Sample.rdkit_water) →
    [i] ∈ keys (Solvent.radii Sample.wrapper)
    ∧ [i] ∈ keys (Solvent.scales Sample.wrapper).
Proof.
  intros i Hi. destruct i as [|[|[|i]]]; [| | |simpl in Hi; lia];
    split; apply (bool_decide_unpack _); vm_compute; exact I.
Qed.

Lemma to_dict_result_witness :
  _rdkit_molecule (Solvent._molecule Sample.wrapper)
  = Some Sample.rdkit_water
  ∧ String.length (_name (Solvent._molecule Sample.wrapper)) = 3
  ∧ @to_dict Example.topology Sample.numerics Sample.wrapper
    = Ok (JDict
            [ ("SolventParameters",
               JDict
                 [ ("Name", @name_entry Example.topology Sample.wrapper);
                   ("General",
                    @general_entry Example.topology Sample.numerics
                      Sample.wrapper);
                   (_name (Solvent._molecule Sample.wrapper),
                    JDict
                      (atom_table
                         (prefix_omap
                            (@atom_item Example.topology Sample.numerics
                               Sample.wrapper)
                            (enumerate
                               (rd_atom_names Sample.rdkit_water))))) ]) ]).
Proof.
  split; [reflexivity|]. split; [reflexivity|].
  exact (proj1 (@to_dict_result Example.topology Sample.numerics
                  Sample.wrapper Sample.rdkit_water eq_refl
                  (or_intror eq_refl))
           sample_wrapper_complete).
Defined.

Lemma to_dict_atom_table_witness :
  _rdkit_molecule (Solvent._molecule Sample.wrapper)
  = Some Sample.rdkit_water
  ∧ ∃ table,
      @to_dict Example.topology Sample.numerics Sample.wrapper
      = Ok (JDict
              [ ("SolventParameters",
                 JDict
                   [ ("Name", @name_entry Example.topology Sample.wrapper);
                     ("General",
                      @general_entry Example.topology Sample.numerics
                        Sample.wrapper);
                     (_name (Solvent._molecule Sample.wrapper),
                      JDict table) ]) ])
      ∧ dict_wf table.
Proof.
  split; [reflexivity|].
  destruct (@to_dict_atom_table Example.topology Sample.numerics
              Sample.wrapper Sample.rdkit_water eq_refl (or_intror eq_refl)
              sample_wrapper_complete) as (table & Hrun & Hwf & _).
  exists table. split; [exact Hrun|exact Hwf].
Defined.

(** ** The two wrappers written out *)

Section wrappers_to_dict.
Context `{Solvent.Toolkit} `{Numerics}.

Lemma built_wrapper_same (cls cls' : Solvent.klass) (molecule : Molecule)
    (log log' : list Solvent.event) (w w' : Solvent.t) :
  Solvent._ff_file cls = Solvent._ff_file cls' →
  (Solvent.__init__ cls molecule log).1 = Ok w →
  (Solvent.__init__ cls' molecule log').1 = Ok w' →
  ∃ radii scales a b c d,
    w = Solvent.mk cls molecule radii scales a b c d
    ∧ w' = Solvent.mk cls' molecule radii scales a b c d.
Proof.
  intros Hff.
  unfold Solvent.__init__, Solvent._initialize_from_molecule, Solvent.print,
    Solvent.lift, modify.
  unfold mbind, py_bind, mret, py_ret. simpl. rewrite Hff.
  destruct (Solvent.get_parameter_handler_from_forcefield _ _)
    as [handler|e]; simpl; [|done].
  destruct (Solvent.get_parameters_from_forcefield _ _) as [ps|e]; simpl;
    [|done].
  intros [= <-] [= <-]. by eexists _, _, _, _, _, _.
Qed.

(** X19.  [OBC1(molecule).to_dict()] and [OBC2(molecule).to_dict()] differ in
    the entry 'Name' and in nothing else: for a molecule that is not itself
    named 'Name', either both calls raise the same exception, or both return
    a dict with the one key 'SolventParameters' whose first entry is 'Name',
    holding 'OBC1' and 'OBC2', and whose other entries are the same in the
    same order. *)
Theorem OBC1_OBC2_to_dict (molecule : Molecule)
    (log1 log2 : list Solvent.event) (w1 w2 : Solvent.t) :
  _name molecule ≠ "Name" →
  (Solvent.OBC1 molecule log1).1 = Ok w1 →
  (Solvent.OBC2 molecule log2).1 = Ok w2 →
  (∃ e, to_dict w1 = Raise e ∧ to_dict w2 = Raise e)
  ∨ (∃ rest,
       to_dict w1
       = Ok (JDict [ ("SolventParameters",
                      JDict (("Name", JVal (PyStr "OBC1")) :: rest)) ])
       ∧ to_dict w2
         = Ok (JDict [ ("SolventParameters",
                        JDict (("Name", JVal (PyStr "OBC2")) :: rest)) ])).
Proof.
  intros Hname Hw1 Hw2.
  assert (Hw1' : (Solvent.__init__ Solvent.OBC1_class molecule
                    (log1
                     ++ [Solvent.Warned "OBC1 is not implemented in PELE"])).1
                 = Ok w1) by exact Hw1.
  destruct (built_wrapper_same Solvent.OBC1_class Solvent.OBC2_class
              _ _ _ _ _ eq_refl Hw1' Hw2)
    as (radii & scales & a & b & c & d & -> & ->).
  unfold to_dict. rewrite !to_dict_steps_run. cbn [Solvent._molecule].
  destruct (_rdkit_molecule molecule) as [rd|].
  - cbn zeta.
    change (atom_item (Solvent.mk Solvent.OBC1_class molecule radii scales
                         a b c d))
      with (atom_item (Solvent.mk Solvent.OBC2_class molecule radii scales
                         a b c d)).
    destruct (forallb _ _).
    + right. unfold data_with. cbn [Solvent._molecule dict_set].
      repeat case_decide; try congruence; eexists; split; reflexivity.
    + left. by exists KeyError.
  - left. by exists AttributeError.
Qed.

End wrappers_to_dict.

Lemma OBC1_OBC2_to_dict_witness :
  _name Sample.water ≠ "Name"
  ∧ ∃ w1 w2,
      (@Solvent.OBC1 Example.topology Sample.gbsa_toolkit Sample.water []).1
      = Ok w1
      ∧ (@Solvent.OBC2 Example.topology Sample.gbsa_toolkit Sample.water []).1
        = Ok w2
      ∧ ((∃ e,
            @to_dict Example.topology Sample.numerics w1 = Raise e
            ∧ @to_dict Example.topology Sample.numerics w2 = Raise e)
         ∨ ∃ rest,
             @to_dict Example.topology Sample.numerics w1
             = Ok (JDict [ ("SolventParameters",
                            JDict (("Name", JVal (PyStr "OBC1")) :: rest)) ])
             ∧ @to_dict Example.topology Sample.numerics w2
               = Ok (JDict [ ("SolventParameters",
                              JDict (("Name", JVal (PyStr "OBC2"))
                                       :: rest)) ])).
Proof.
  split; [discriminate|].
  eexists _, _. split; [reflexivity|]. split; [reflexivity|].
  exact (@OBC1_OBC2_to_dict Example.topology Sample.gbsa_toolkit
           Sample.numerics Sample.water [] [] _ _
           ltac:(discriminate) eq_refl eq_refl).
Defined.
